(** * The analytics collector of the VR analytics platform

    A shallow embedding of [AnalyticsCollector]
    (src/analytics/analytics-collector.js) and the properties of its rolling
    buffers, periodic emission, reactive processing, derived metrics and
    session summary.

    Conventions of the embedding.
    - JavaScript numbers handled by the collector's own arithmetic are exact
      rationals ([Q]); the non-finite results that this arithmetic can
      produce (division by zero, coercion of a non-number) are the extra
      constructors of [Num].  The rounding of binary64 operations is not
      part of the methods below.  Where a derived figure is compared with
      a threshold, or rounded to an integer, after several operations (the
      engagement score, the performance trend, the movement intensity, the
      rapid-interaction test, the second of the performance monitor), the
      statement keeps a margin around the threshold, and [Binary64]
      evaluates the same computation on binary64 numbers.
    - Objects with an open shape (events, interactions, the extra-fields
      argument) are finite maps from property names to [Value]s, and the
      object spread [{a: 1, ...data}] is the left-biased union
      [data ∪ {[ "a" := 1 ]}].  Objects that the collector builds with a
      fixed shape (spatial and performance samples, session data) are
      records.
    - The collector is a field of the [World], next to what it reaches
      through globals: the clock behind [performance.now()], [localStorage]
      and the console.  Methods are state transformers over the [World]. *)

From Corelib Require Import PrimFloat.
From Stdlib Require Import QArith Qabs Qround Qminmax Lqa ZArith Lia.
From stdpp Require Import gmap strings list.

Set Warnings "-register-all,-abstract-large-number,-inexact-float".

(** ** Numbers and values *)

(** A JavaScript number: a finite value, NaN, or an infinity.  Zero is
    unsigned; a division by zero takes the divisor as [+0], which is what
    the one division of the collector that can meet a zero divisor gets
    (a sum that starts from the literal [0]). *)
Inductive Num :=
| NaN
| Fin (q : Q)
| Inf (negative : bool).

Definition Qzero (q : Q) : bool := Qeq_bool q 0.
Definition Qneg (q : Q) : bool := if Qlt_le_dec q 0 then true else false.
Definition Qltb (a b : Q) : bool := if Qlt_le_dec a b then true else false.

Definition Num_opp (a : Num) : Num :=
  match a with
  | NaN => NaN
  | Fin q => Fin (- q)
  | Inf s => Inf (negb s)
  end.

Definition Num_add (a b : Num) : Num :=
  match a, b with
  | NaN, _ | _, NaN => NaN
  | Fin x, Fin y => Fin (x + y)
  | Fin _, Inf s | Inf s, Fin _ => Inf s
  | Inf s, Inf t => if Bool.eqb s t then Inf s else NaN
  end.

Definition Num_sub (a b : Num) : Num := Num_add a (Num_opp b).

Definition Num_mul (a b : Num) : Num :=
  match a, b with
  | NaN, _ | _, NaN => NaN
  | Fin x, Fin y => Fin (x * y)
  | Fin x, Inf s | Inf s, Fin x => if Qzero x then NaN else Inf (xorb s (Qneg x))
  | Inf s, Inf t => Inf (xorb s t)
  end.

Definition Num_div (a b : Num) : Num :=
  match a, b with
  | NaN, _ | _, NaN => NaN
  | Fin x, Fin y =>
      if Qzero y then (if Qzero x then NaN else Inf (Qneg x)) else Fin (x / y)
  | Fin _, Inf _ => Fin 0
  | Inf s, Fin y => Inf (xorb s (Qneg y))
  | Inf _, Inf _ => NaN
  end.

(** [a < b]; every comparison with NaN is false. *)
Definition Num_ltb (a b : Num) : bool :=
  match a, b with
  | NaN, _ | _, NaN => false
  | Fin x, Fin y => Qltb x y
  | Fin _, Inf s => negb s
  | Inf s, Fin _ => s
  | Inf s, Inf t => s && negb t
  end.

Definition Num_gtb (a b : Num) : bool := Num_ltb b a.

(** Plain data as it travels in events: JSON-like values. *)
Inductive Value :=
| VUndefined
| VNull
| VBool (b : bool)
| VNum (n : Num)
| VStr (s : string)
| VObj (o : gmap string Value)
| VArr (l : list Value).

Abbreviation Obj := (gmap string Value).

(** [o.k]: a missing property reads as [undefined]. *)
Definition get (o : Obj) (k : string) : Value := default VUndefined (o !! k).

(** [v.k] on an arbitrary value that is known not to be null or undefined
    (for the property names read here, only objects have them). *)
Definition prop (v : Value) (k : string) : Value :=
  match v with
  | VObj o => get o k
  | _ => VUndefined
  end.

Definition truthy (v : Value) : bool :=
  match v with
  | VUndefined | VNull => false
  | VBool b => b
  | VNum NaN => false
  | VNum (Fin q) => negb (Qzero q)
  | VNum (Inf _) => true
  | VStr s => negb (String.eqb s "")
  | VObj _ | VArr _ => true
  end.

(** [v || null] *)
Definition or_null (v : Value) : Value := if truthy v then v else VNull.

(** [v === s] for a string literal [s]. *)
Definition strict_eq_str (v : Value) (s : string) : bool :=
  match v with
  | VStr s' => String.eqb s' s
  | _ => false
  end.

Definition qnum (q : Q) : Value := VNum (Fin q).
Definition natnum (n : nat) : Value := VNum (Fin (inject_Z (Z.of_nat n))).

(** ** Standard library functions *)

(** [Math.round]: the nearest integer, ties towards plus infinity. *)
Definition Math_round (x : Q) : Z := Qfloor (x + (1 # 2)).

(** [Math.round(x * scale) / scale] *)
Definition round_to (scale : Z) (x : Q) : Q :=
  inject_Z (Math_round (x * inject_Z scale)) / inject_Z scale.

(** [Array.prototype.slice(start, end)], with its treatment of negative and
    out-of-range indices; [end_ = None] is the one-argument call. *)
Definition Array_slice {A} (l : list A) (start : Z) (end_ : option Z) : list A :=
  let len := Z.of_nat (length l) in
  let clamp i := if (i <? 0)%Z then Z.max (len + i) 0 else Z.min i len in
  let k := clamp start in
  let final := match end_ with None => len | Some e => clamp e end in
  take (Z.to_nat (final - k)) (drop (Z.to_nat k) l).

(** [String.prototype.includes] *)
Fixpoint String_includes (pat s : string) : bool :=
  String.prefix pat s ||
  match s with
  | EmptyString => false
  | String _ s' => String_includes pat s'
  end.

(** ** Records of fixed shape *)

(** A position, rotation or scale: [{x, y, z}] *)
Module Vec3.
Record t := { x : Q; y : Q; z : Q }.
(** The three [Math.round(v.x * 1000) / 1000] of [logSpatialData] *)
Definition round (v : t) : t :=
  {| x := round_to 1000 (x v); y := round_to 1000 (y v); z := round_to 1000 (z v) |}.
Definition value (v : t) : Value :=
  VObj {[ "x" := qnum (x v); "y" := qnum (y v); "z" := qnum (z v) ]}.
End Vec3.

(** [spatialEvent] of [logSpatialData] *)
Module SpatialEvent.
Record t := {
  objectType : string;
  position : Vec3.t;
  rotation : Vec3.t;
  scale : option Vec3.t;
  timestamp : Q
}.
Definition value (s : t) : Value :=
  VObj {[ "objectType" := VStr (objectType s);
          "position" := Vec3.value (position s);
          "rotation" := Vec3.value (rotation s);
          "scale" := from_option Vec3.value VNull (scale s);
          "timestamp" := qnum (timestamp s) ]}.
End SpatialEvent.

(** [performanceData] of [logPerformance] *)
Module PerformanceData.
Record t := {
  fps : Q;
  renderTime : Q;
  memoryUsage : Value;
  timestamp : Q;
  isVRMode : bool
}.
Definition value (p : t) : Value :=
  VObj {[ "fps" := qnum (fps p);
          "renderTime" := qnum (renderTime p);
          "memoryUsage" := memoryUsage p;
          "timestamp" := qnum (timestamp p);
          "isVRMode" := VBool (isVRMode p) ]}.
End PerformanceData.

(** The result of [calculateMovementMetrics] *)
Module MovementMetrics.
Record t := {
  totalDistance : Q;
  averageVelocity : Q;
  maxVelocity : Q;
  movementIntensity : string
}.
Definition value (m : t) : Value :=
  VObj {[ "totalDistance" := qnum (totalDistance m);
          "averageVelocity" := qnum (averageVelocity m);
          "maxVelocity" := qnum (maxVelocity m);
          "movementIntensity" := VStr (movementIntensity m) ]}.
End MovementMetrics.

(** [this.sessionData].  The [interactionMetrics] property, which only
    [updateInteractionMetrics] reads and writes, is left out. *)
Module SessionData.
Record t := {
  sessionId : string;
  startTime : Q;
  userAgent : string;
  platform : string;
  vrCapable : bool;
  deviceInfo : Value;
  vrSessionStart : option Q
}.
Definition set_vrCapable (b : bool) (d : t) : t :=
  {| sessionId := sessionId d; startTime := startTime d; userAgent := userAgent d;
     platform := platform d; vrCapable := b; deviceInfo := deviceInfo d;
     vrSessionStart := vrSessionStart d |}.
Definition set_vrSessionStart (v : option Q) (d : t) : t :=
  {| sessionId := sessionId d; startTime := startTime d; userAgent := userAgent d;
     platform := platform d; vrCapable := vrCapable d; deviceInfo := deviceInfo d;
     vrSessionStart := v |}.
End SessionData.

(** The result of [getSessionSummary], without [interactionTypes]. *)
Module Summary.
Record t := {
  sessionId : string;
  duration : Q;
  totalEvents : nat;
  totalInteractions : nat;
  averageFPS : Q;
  vrModeUsed : bool;
  performanceTrend : string;
  sessionData : SessionData.t;
  movementMetrics : option MovementMetrics.t;
  performance_averageFPS : Q;
  performance_averageRenderTime : Q;
  performanceWarnings : nat
}.
End Summary.

(** ** The collector and its world *)

Record AnalyticsCollector := {
  events : list Obj;
  sessionId : string;
  startTime : Q;
  isVRMode : bool;
  userInteractions : list Obj;
  performanceMetrics : list PerformanceData.t;
  spatialData : list SpatialEvent.t;
  sessionData : SessionData.t
}.

Definition set_events (v : list Obj) (c : AnalyticsCollector) :=
  {| events := v; sessionId := sessionId c; startTime := startTime c;
     isVRMode := isVRMode c; userInteractions := userInteractions c;
     performanceMetrics := performanceMetrics c; spatialData := spatialData c;
     sessionData := sessionData c |}.
Definition set_isVRMode (v : bool) (c : AnalyticsCollector) :=
  {| events := events c; sessionId := sessionId c; startTime := startTime c;
     isVRMode := v; userInteractions := userInteractions c;
     performanceMetrics := performanceMetrics c; spatialData := spatialData c;
     sessionData := sessionData c |}.
Definition set_userInteractions (v : list Obj) (c : AnalyticsCollector) :=
  {| events := events c; sessionId := sessionId c; startTime := startTime c;
     isVRMode := isVRMode c; userInteractions := v;
     performanceMetrics := performanceMetrics c; spatialData := spatialData c;
     sessionData := sessionData c |}.
Definition set_performanceMetrics (v : list PerformanceData.t) (c : AnalyticsCollector) :=
  {| events := events c; sessionId := sessionId c; startTime := startTime c;
     isVRMode := isVRMode c; userInteractions := userInteractions c;
     performanceMetrics := v; spatialData := spatialData c;
     sessionData := sessionData c |}.
Definition set_spatialData (v : list SpatialEvent.t) (c : AnalyticsCollector) :=
  {| events := events c; sessionId := sessionId c; startTime := startTime c;
     isVRMode := isVRMode c; userInteractions := userInteractions c;
     performanceMetrics := performanceMetrics c; spatialData := v;
     sessionData := sessionData c |}.
Definition set_sessionData (v : SessionData.t) (c : AnalyticsCollector) :=
  {| events := events c; sessionId := sessionId c; startTime := startTime c;
     isVRMode := isVRMode c; userInteractions := userInteractions c;
     performanceMetrics := performanceMetrics c; spatialData := spatialData c;
     sessionData := v |}.

(** [this] is the collector; [clock] counts the readings of
    [performance.now()] taken so far; [localStorage] is the browser's
    key-value store; [warnings] counts the calls of [console.warn].  What
    [console.log] and [console.error] print is not part of the world. *)
Record World := {
  this : AnalyticsCollector;
  clock : nat;
  localStorage : gmap string string;
  warnings : nat
}.

Definition set_this (c : AnalyticsCollector) (w : World) :=
  {| this := c; clock := clock w; localStorage := localStorage w; warnings := warnings w |}.
Definition set_clock (n : nat) (w : World) :=
  {| this := this w; clock := n; localStorage := localStorage w; warnings := warnings w |}.
Definition set_localStorage (s : gmap string string) (w : World) :=
  {| this := this w; clock := clock w; localStorage := s; warnings := warnings w |}.
Definition set_warnings (n : nat) (w : World) :=
  {| this := this w; clock := clock w; localStorage := localStorage w; warnings := n |}.

(** What the page gives the collector: the successive readings of
    [performance.now()] in milliseconds, [Math.sqrt] (which leaves the
    rationals), the [ToNumber] coercion of strings, arrays and objects,
    and the static facts read by the constructor. *)
Class Host := {
  performance_now : nat -> Q;
  Math_sqrt : Q -> Q;
  ToNumber_coerce : Value -> Num;
  navigator_userAgent : string;
  getDeviceInfo : Value
}.

(** The durable sink under [persistEvent]: JSON (de)serialisation of the
    stored event array, and the conditions under which [localStorage]
    raises.  [JSON_parse] gives [None] when [JSON.parse] raises or its
    result is not an array; [JSON.stringify] does not raise on plain
    data. *)
Class Sink := {
  JSON_stringify : list Obj -> string;
  JSON_parse : string -> option (list Obj);
  getItem_raises : gmap string string -> bool;
  setItem_raises : gmap string string -> string -> string -> bool
}.

(** Computations over the world.  [None] only ever stands for a call depth
    beyond the fuel of [logEvent]. *)
Definition M (A : Type) : Type := World -> option (A * World).

#[global] Instance M_ret : MRet M := fun A a w => Some (a, w).
#[global] Instance M_bind : MBind M := fun A B f m w =>
  match m w with
  | Some (a, w') => f a w'
  | None => None
  end.

Definition get_this : M AnalyticsCollector := fun w => Some (this w, w).
Definition modify_this (f : AnalyticsCollector -> AnalyticsCollector) : M unit :=
  fun w => Some (tt, set_this (f (this w)) w).
Definition console_warn : M unit :=
  fun w => Some (tt, set_warnings (S (warnings w)) w).

(** ** The methods of [AnalyticsCollector] *)

Section Collector.
Context {host : Host} {sink : Sink}.

(** [performance.now()] *)
Definition now : M Q :=
  fun w => Some (performance_now (clock w), set_clock (S (clock w)) w).

(** [ToNumber] *)
Definition ToNumber (v : Value) : Num :=
  match v with
  | VUndefined => NaN
  | VNull => Fin 0
  | VBool b => Fin (if b then 1 else 0)
  | VNum n => n
  | _ => ToNumber_coerce v
  end.

Definition detectPlatform : string :=
  let ua := navigator_userAgent in
  if String_includes "Oculus" ua then "Oculus"
  else if String_includes "SteamVR" ua then "SteamVR"
  else if String_includes "Mobile" ua then "Mobile"
  else if String_includes "Mac" ua then "MacOS"
  else if String_includes "Windows" ua then "Windows"
  else "Unknown".

(** The constructor; [sid] is the outcome of [generateSessionId], which
    draws on [Date.now()] and [Math.random()].  The last reading of the
    clock is the [lastTime] of [startPerformanceMonitoring], whose frame
    callback runs later, from the render loop. *)
Definition constructor (sid : string) : M unit :=
  startTime_ ← now;
  modify_this (fun _ =>
    {| events := []; sessionId := sid; startTime := startTime_; isVRMode := false;
       userInteractions := []; performanceMetrics := []; spatialData := [];
       sessionData :=
         {| SessionData.sessionId := sid; SessionData.startTime := startTime_;
            SessionData.userAgent := navigator_userAgent;
            SessionData.platform := detectPlatform;
            SessionData.vrCapable := false;
            SessionData.deviceInfo := getDeviceInfo;
            SessionData.vrSessionStart := None |} |});;
  _ ← now;
  mret tt.

Definition isImportantEvent (eventType : string) : bool :=
  let importantEvents :=
    ["session_start"; "session_end"; "vr_mode_change";
     "performance_warning"; "error"; "task_completion"] in
  bool_decide (eventType ∈ importantEvents).

(** The body of the [try] block of [persistEvent]: [None] when one of its
    steps raises, otherwise the new content of [localStorage]. *)
Definition persist_attempt (store : gmap string string) (event : Obj)
  : option (gmap string string) :=
  if getItem_raises store then None else
  let stored :=
    match store !! "vr_analytics_events" with
    | Some s => if String.eqb s "" then "[]" else s
    | None => "[]"
    end in
  match JSON_parse stored with
  | None => None
  | Some events0 =>
      let events1 := events0 ++ [event] in
      let events2 :=
        if 1000 <? length events1 then drop (length events1 - 1000) events1
        else events1 in
      let text := JSON_stringify events2 in
      if setItem_raises store "vr_analytics_events" text then None
      else Some (<["vr_analytics_events" := text]> store)
  end.

Definition persistEvent (event : Obj) : M unit :=
  fun w =>
    match persist_attempt (localStorage w) event with
    | Some store' => Some (tt, set_localStorage store' w)
    | None => console_warn w
    end.

(** The sum of the gaps between consecutive timestamps of
    [processInteractionEvent], as its [reduce] computes it. *)
Definition interaction_gaps (recentInteractions : list Obj) : Num :=
  foldl (fun sum '(i, interaction) =>
           match i with
           | O => Fin 0
           | S j =>
               Num_add sum
                 (Num_sub (ToNumber (get interaction "timestamp"))
                    (ToNumber (get (default ∅ (recentInteractions !! j)) "timestamp")))
           end)
        (Fin 0) (imap pair recentInteractions).

(** The real-time handlers call back into [logEvent]; it is their first
    argument. *)
Definition processInteractionEvent (logEvent : string -> Obj -> M Obj) (event : Obj)
  : M unit :=
  c ← get_this;
  let recentInteractions := Array_slice (userInteractions c) (-5) None in
  if 3 <=? length recentInteractions then
    let avgTimeBetween :=
      Num_div (interaction_gaps recentInteractions)
        (Fin (inject_Z (Z.of_nat (length recentInteractions) - 1))) in
    if Num_ltb avgTimeBetween (Fin 500) then
      _ ← logEvent "rapid_interaction_detected"
            {[ "pattern" := VStr "high_frequency";
               "averageInterval" := VNum avgTimeBetween;
               "interactionCount" := natnum (length recentInteractions) ]};
      mret tt
    else mret tt
  else mret tt.

Definition processPerformanceEvent (logEvent : string -> Obj -> M Obj) (event : Obj)
  : M unit :=
  let current := get event "current" in
  (if truthy current && Num_ltb (ToNumber (prop current "fps")) (Fin 30) then
     _ ← logEvent "performance_warning"
           {[ "type" := VStr "low_fps";
              "fps" := prop current "fps";
              "severity" :=
                VStr (if Num_ltb (ToNumber (prop current "fps")) (Fin 15)
                      then "critical" else "warning") ]};
     mret tt
   else mret tt);;
  if truthy current
     && Num_gtb (ToNumber (prop current "renderTime")) (Fin (1667 # 100)) then
     _ ← logEvent "performance_warning"
           {[ "type" := VStr "high_render_time";
              "renderTime" := prop current "renderTime";
              "severity" :=
                VStr (if Num_gtb (ToNumber (prop current "renderTime"))
                           (Fin (3333 # 100))
                      then "critical" else "warning") ]};
     mret tt
  else mret tt.

Definition processVRModeChange (logEvent : string -> Obj -> M Obj) (event : Obj)
  : M unit :=
  c ← get_this;
  if truthy (get event "newMode") then
    _ ← logEvent "vr_experience_start"
          {[ "timeToVR" := get event "transitionTime";
             "platform" := VStr (SessionData.platform (sessionData c)) ]};
    mret tt
  else
    t ← now;
    let since :=
      match SessionData.vrSessionStart (sessionData c) with
      | Some s => if Qzero s then startTime c else s
      | None => startTime c
      end in
    let vrDuration := (t - since)%Q in
    _ ← logEvent "vr_experience_end"
          {[ "vrDuration" := qnum vrDuration;
             "totalSessionTime" := get event "transitionTime" ]};
    mret tt.

Definition processEventRealTime (logEvent : string -> Obj -> M Obj) (event : Obj)
  : M unit :=
  let eventType := get event "eventType" in
  if strict_eq_str eventType "user_interaction" then
    processInteractionEvent logEvent event
  else if strict_eq_str eventType "performance_metrics" then
    processPerformanceEvent logEvent event
  else if strict_eq_str eventType "vr_mode_change" then
    processVRModeChange logEvent event
  else mret tt.

(** The body of [logEvent]; [logEvent] itself, as the handlers call it, is
    the first argument.  The spread [...data] comes last in the object
    literal, so the caller's fields win over the five fields of the
    collector.  The trace written by [console.log] is not modelled. *)
Definition logEvent_body (logEvent : string -> Obj -> M Obj)
    (eventType : string) (data : Obj) : M Obj :=
  c ← get_this;
  timestamp ← now;
  t ← now;
  let event : Obj :=
    data ∪ {[ "sessionId" := VStr (sessionId c);
              "eventType" := VStr eventType;
              "timestamp" := qnum timestamp;
              "relativeTime" := qnum (t - startTime c);
              "isVRMode" := VBool (isVRMode c) ]} in
  modify_this (fun c => set_events (events c ++ [event]) c);;
  processEventRealTime logEvent event;;
  (if isImportantEvent eventType then persistEvent event else mret tt);;
  mret event.

(** [logEvent] with a bound on the depth of the calls [logEvent] ->
    handler -> [logEvent].  Depth two is never exceeded ([logEvent_fuel]
    below). *)
Fixpoint logEvent_depth (fuel : nat) : string -> Obj -> M Obj :=
  match fuel with
  | O => fun _ _ _ => None
  | S fuel' => logEvent_body (logEvent_depth fuel')
  end.

Definition logEvent : string -> Obj -> M Obj := logEvent_depth 2.

(** [logInteraction].  Its last statement, the call of
    [updateInteractionMetrics], only rewrites
    [sessionData.interactionMetrics], which is not part of the model. *)
Definition logInteraction (interactionType target position : Value) (data : Obj)
  : M Obj :=
  c ← get_this;
  t ← now;
  let interaction : Obj :=
    data ∪ {[ "type" := interactionType;
              "target" := target;
              "position" := position;
              "duration" := or_null (get data "duration");
              "force" := or_null (get data "force");
              "timestamp" := qnum t;
              "vrMode" := VBool (isVRMode c) ]} in
  _ ← logEvent "user_interaction" interaction;
  modify_this (fun c => set_userInteractions (userInteractions c ++ [interaction]) c);;
  mret interaction.

Definition classifyMovementIntensity (velocity : Q) : string :=
  if Qltb velocity (1 # 10) then "stationary"
  else if Qltb velocity (1 # 2) then "slow"
  else if Qltb velocity 1 then "moderate"
  else if Qltb velocity 2 then "active"
  else "rapid".

(** One turn of the [for] loop of [calculateMovementMetrics], on the pair
    [(totalDistance, maxVelocity)]. *)
Definition movement_step (recent : list SpatialEvent.t) (acc : Q * Q) (i : nat)
  : Q * Q :=
  match recent !! (i - 1)%nat, recent !! i with
  | Some prev, Some curr =>
      let p := SpatialEvent.position prev in
      let q := SpatialEvent.position curr in
      let distance :=
        Math_sqrt ((Vec3.x q - Vec3.x p) ^ 2 + (Vec3.y q - Vec3.y p) ^ 2
                   + (Vec3.z q - Vec3.z p) ^ 2)%Q in
      let timeDelta :=
        ((SpatialEvent.timestamp curr - SpatialEvent.timestamp prev) / 1000)%Q in
      let velocity := (distance / Qmax timeDelta (1 # 1000))%Q in
      ((acc.1 + distance)%Q, Qmax acc.2 velocity)
  | _, _ => acc
  end.

Definition calculateMovementMetrics (c : AnalyticsCollector)
  : option MovementMetrics.t :=
  if length (spatialData c) <? 2 then None else
  let recent := Array_slice (spatialData c) (-30) None in
  let '(totalDistance, maxVelocity) :=
    foldl (movement_step recent) (0%Q, 0%Q) (seq 1 (length recent - 1)) in
  Some {| MovementMetrics.totalDistance := round_to 1000 totalDistance;
          MovementMetrics.averageVelocity :=
            round_to 1000
              (totalDistance / inject_Z (Z.of_nat (length recent) - 1));
          MovementMetrics.maxVelocity := round_to 1000 maxVelocity;
          MovementMetrics.movementIntensity :=
            classifyMovementIntensity maxVelocity |}.

Definition sum_by {A} (f : A -> Q) (l : list A) : Q :=
  foldl (fun acc m => (acc + f m)%Q) 0%Q l.

Definition calculateAverageFPS (c : AnalyticsCollector) : Q :=
  if length (performanceMetrics c) =? 0 then 0%Q else
  let recent := Array_slice (performanceMetrics c) (-300) None in
  let sum := sum_by PerformanceData.fps recent in
  (inject_Z (Math_round (sum / inject_Z (Z.of_nat (length recent)) * 10)) / 10)%Q.

Definition calculateAverageRenderTime (c : AnalyticsCollector) : Q :=
  if length (performanceMetrics c) =? 0 then 0%Q else
  let recent := Array_slice (performanceMetrics c) (-300) None in
  let sum := sum_by PerformanceData.renderTime recent in
  (inject_Z (Math_round (sum / inject_Z (Z.of_nat (length recent)) * 100)) / 100)%Q.

Definition getPerformanceTrend (c : AnalyticsCollector) : string :=
  if length (performanceMetrics c) <? 120 then "insufficient_data" else
  let recent := Array_slice (performanceMetrics c) (-60) None in
  let older := Array_slice (performanceMetrics c) (-120) (Some (-60)%Z) in
  let recentAvg :=
    (sum_by PerformanceData.fps recent / inject_Z (Z.of_nat (length recent)))%Q in
  let olderAvg :=
    (sum_by PerformanceData.fps older / inject_Z (Z.of_nat (length older)))%Q in
  let change :=
    Num_mul (Num_div (Fin (recentAvg - olderAvg)) (Fin olderAvg)) (Fin 100) in
  if Num_gtb change (Fin 5) then "improving"
  else if Num_ltb change (Fin (-5)) then "degrading"
  else "stable".

Definition logSpatialData (position rotation : Vec3.t) (scale : option Vec3.t)
    (objectType : string) : M unit :=
  t ← now;
  let spatialEvent :=
    {| SpatialEvent.objectType := objectType;
       SpatialEvent.position := Vec3.round position;
       SpatialEvent.rotation := Vec3.round rotation;
       SpatialEvent.scale := Vec3.round <$> scale;
       SpatialEvent.timestamp := t |} in
  modify_this (fun c => set_spatialData (spatialData c ++ [spatialEvent]) c);;
  c ← get_this;
  (if length (spatialData c) mod 30 =? 0 then
     _ ← logEvent "spatial_tracking"
           {[ "recentMovements" :=
                VArr (SpatialEvent.value <$> Array_slice (spatialData c) (-30) None);
              "movementMetrics" :=
                from_option MovementMetrics.value VNull (calculateMovementMetrics c) ]};
     mret tt
   else mret tt);;
  c ← get_this;
  if 1800 <? length (spatialData c) then
    modify_this (set_spatialData (Array_slice (spatialData c) (-1800) None))
  else mret tt.

Definition logPerformance (fps renderTime : Q) (memoryUsage : Value) : M unit :=
  c ← get_this;
  t ← now;
  let performanceData :=
    {| PerformanceData.fps := round_to 10 fps;
       PerformanceData.renderTime := round_to 100 renderTime;
       PerformanceData.memoryUsage := memoryUsage;
       PerformanceData.timestamp := t;
       PerformanceData.isVRMode := isVRMode c |} in
  modify_this (fun c =>
    set_performanceMetrics (performanceMetrics c ++ [performanceData]) c);;
  c ← get_this;
  (if length (performanceMetrics c) mod 300 =? 0 then
     _ ← logEvent "performance_metrics"
           {[ "current" := PerformanceData.value performanceData;
              "averages" :=
                VObj {[ "fps" := qnum (calculateAverageFPS c);
                        "renderTime" := qnum (calculateAverageRenderTime c);
                        "trend" := VStr (getPerformanceTrend c) ]} ]};
     mret tt
   else mret tt);;
  c ← get_this;
  if 1800 <? length (performanceMetrics c) then
    modify_this
      (set_performanceMetrics (Array_slice (performanceMetrics c) (-1800) None))
  else mret tt.

Definition setVRMode (isVR : bool) : M unit :=
  c ← get_this;
  let previousMode := isVRMode c in
  modify_this (set_isVRMode isVR);;
  t ← now;
  _ ← logEvent "vr_mode_change"
        {[ "previousMode" := VBool previousMode;
           "newMode" := VBool isVR;
           "transitionTime" := qnum (t - startTime c) ]};
  modify_this (fun c =>
    set_sessionData (SessionData.set_vrCapable true (sessionData c)) c);;
  c ← get_this;
  let unset :=
    match SessionData.vrSessionStart (sessionData c) with
    | Some s => Qzero s
    | None => true
    end in
  if isVR && unset then
    t ← now;
    modify_this (fun c =>
      set_sessionData (SessionData.set_vrSessionStart (Some t) (sessionData c)) c)
  else mret tt.

Definition getSessionSummary : M Summary.t :=
  currentTime ← now;
  c ← get_this;
  let sessionDuration := (currentTime - startTime c)%Q in
  mret
    {| Summary.sessionId := sessionId c;
       Summary.duration := sessionDuration;
       Summary.totalEvents := length (events c);
       Summary.totalInteractions := length (userInteractions c);
       Summary.averageFPS := calculateAverageFPS c;
       Summary.vrModeUsed :=
         existsb (fun e => strict_eq_str (get e "eventType") "vr_session_start")
           (events c);
       Summary.performanceTrend := getPerformanceTrend c;
       Summary.sessionData := sessionData c;
       Summary.movementMetrics := calculateMovementMetrics c;
       Summary.performance_averageFPS := calculateAverageFPS c;
       Summary.performance_averageRenderTime := calculateAverageRenderTime c;
       Summary.performanceWarnings :=
         length (filter (fun e => strict_eq_str (get e "eventType") "performance_warning" = true)
                   (events c)) |}.

Definition calculateEngagementScore : M Z :=
  summary ← getSessionSummary;
  let duration := (Summary.duration summary / 1000)%Q in
  let durationScore := (Qmin (duration / 300) 1 * 30)%Q in
  let interactionScore :=
    (Qmin (inject_Z (Z.of_nat (Summary.totalInteractions summary)) / 50) 1 * 30)%Q in
  let vrScore := if Summary.vrModeUsed summary then 25%Q else 0%Q in
  let performanceScore :=
    if Qltb 45 (Summary.averageFPS summary) then 15%Q
    else if Qltb 30 (Summary.averageFPS summary) then 10%Q
    else 5%Q in
  mret (Math_round (durationScore + interactionScore + vrScore + performanceScore)).

End Collector.

(** ** Notions used in the statements *)

(** [m], started in [w], returns a value and a world that satisfy [P]. *)
Definition returns {A} (m : M A) (w : World) (P : A -> World -> Prop) : Prop :=
  exists a w', m w = Some (a, w') /\ P a w'.

(** [w'] is [w] with [new] appended to the event log; the rest of the
    collector is as in [w]. *)
Definition appended (w w' : World) (new : list Obj) : Prop :=
  this w' = set_events (events (this w) ++ new) (this w).

(** The event that [logEvent eventType data] builds when it is called in
    the world [w]. *)
Definition new_event {host : Host} (w : World) (eventType : string) (data : Obj) : Obj :=
  data ∪ {[ "sessionId" := VStr (sessionId (this w));
            "eventType" := VStr eventType;
            "timestamp" := qnum (performance_now (clock w));
            "relativeTime" :=
              qnum (performance_now (S (clock w)) - startTime (this w));
            "isVRMode" := VBool (isVRMode (this w)) ]}.

(** [e.eventType === ty] *)
Definition has_type (ty : string) (e : Obj) : bool :=
  strict_eq_str (get e "eventType") ty.

(** The event types that the real-time handlers log. *)
Definition reaction_types : list string :=
  ["rapid_interaction_detected"; "performance_warning";
   "vr_experience_start"; "vr_experience_end"].

(** What the handlers ask of the [logEvent] they call back: for one of
    their own event types and extra fields without an [eventType], it logs
    exactly one event, of that type. *)
Definition logs_one (le : string -> Obj -> M Obj) : Prop :=
  forall ty data w,
    ty ∈ reaction_types -> data !! "eventType" = None ->
    returns (le ty data) w (fun ev w' =>
      get ev "eventType" = VStr ty /\ appended w w' [ev]).

(** The events that the dispatch on [event], in a collector [c], adds after
    it: the reactions of the handler for the type of [event], if there is
    one.  Fewer than three interactions on record give no rapid-interaction
    report. *)
Definition reactions_to (c : AnalyticsCollector) (event : Obj) (nested : list Obj)
  : Prop :=
  if has_type "user_interaction" event then
    Forall (fun e => get e "eventType" = VStr "rapid_interaction_detected") nested
    /\ (length (userInteractions c) < 3 -> nested = [])
  else if has_type "performance_metrics" event then
    Forall (fun e => get e "eventType" = VStr "performance_warning") nested
  else if has_type "vr_mode_change" event then
    Forall (fun e => get e "eventType" = VStr "vr_experience_start"
                     \/ get e "eventType" = VStr "vr_experience_end") nested
  else nested = [].

(** The [n] most recent elements of [l], oldest first. *)
Definition most_recent {A} (n : nat) (l : list A) : list A :=
  drop (length l - n) l.

(** The events logged between the worlds [w] and [w']. *)
Definition new_events (w w' : World) : list Obj :=
  drop (length (events (this w))) (events (this w')).

(** Some event of type [ty] is among [l]. *)
Definition emitted (ty : string) (l : list Obj) : bool := existsb (has_type ty) l.

(** The arguments of one call of [logSpatialData]. *)
Module SpatialCall.
Record t := {
  position : Vec3.t;
  rotation : Vec3.t;
  scale : option Vec3.t;
  objectType : string
}.
End SpatialCall.

(** The arguments of one call of [logPerformance]. *)
Module PerformanceCall.
Record t := {
  fps : Q;
  renderTime : Q;
  memoryUsage : Value
}.
End PerformanceCall.

(** Reading the world, for the statements below. *)
Definition world : M World := fun w => Some (w, w).

Section Sequences.
Context {host : Host} {sink : Sink}.

Definition logSpatialData_call (a : SpatialCall.t) : M unit :=
  logSpatialData (SpatialCall.position a) (SpatialCall.rotation a)
    (SpatialCall.scale a) (SpatialCall.objectType a).

Definition logPerformance_call (a : PerformanceCall.t) : M unit :=
  logPerformance (PerformanceCall.fps a) (PerformanceCall.renderTime a)
    (PerformanceCall.memoryUsage a).

(** The sample that the call [a] of [logSpatialData], made in the world
    [w], inserts: the rounded arguments, stamped with the time of the
    call. *)
Definition spatialEvent_of (w : World) (a : SpatialCall.t) : SpatialEvent.t :=
  {| SpatialEvent.objectType := SpatialCall.objectType a;
     SpatialEvent.position := Vec3.round (SpatialCall.position a);
     SpatialEvent.rotation := Vec3.round (SpatialCall.rotation a);
     SpatialEvent.scale := Vec3.round <$> SpatialCall.scale a;
     SpatialEvent.timestamp := performance_now (clock w) |}.

(** The same for [logPerformance]. *)
Definition performanceData_of (w : World) (a : PerformanceCall.t)
  : PerformanceData.t :=
  {| PerformanceData.fps := round_to 10 (PerformanceCall.fps a);
     PerformanceData.renderTime := round_to 100 (PerformanceCall.renderTime a);
     PerformanceData.memoryUsage := PerformanceCall.memoryUsage a;
     PerformanceData.timestamp := performance_now (clock w);
     PerformanceData.isVRMode := isVRMode (this w) |}.

(** The world in which [logSpatialData] evaluates its periodic report:
    the clock read once, the new sample pushed. *)
Definition spatial_pushed (w : World) (a : SpatialCall.t) : World :=
  set_this
    (set_spatialData (spatialData (this w) ++ [spatialEvent_of w a]) (this w))
    (set_clock (S (clock w)) w).

Definition performance_pushed (w : World) (a : PerformanceCall.t) : World :=
  set_this
    (set_performanceMetrics
       (performanceMetrics (this w) ++ [performanceData_of w a]) (this w))
    (set_clock (S (clock w)) w).

(** The ["spatial_tracking"] event of the call [a] made in [w]: the last 30
    samples, the new one included, and the movement metrics. *)
Definition spatial_tracking_event (w : World) (a : SpatialCall.t) : Obj :=
  let w1 := spatial_pushed w a in
  new_event w1 "spatial_tracking"
    {[ "recentMovements" :=
         VArr (SpatialEvent.value <$> most_recent 30 (spatialData (this w1)));
       "movementMetrics" :=
         from_option MovementMetrics.value VNull
           (calculateMovementMetrics (this w1)) ]}.

(** The ["performance_metrics"] event of the call [a] made in [w]: the
    current sample, the rolling averages and the trend. *)
Definition performance_metrics_event (w : World) (a : PerformanceCall.t) : Obj :=
  let w1 := performance_pushed w a in
  new_event w1 "performance_metrics"
    {[ "current" := PerformanceData.value (performanceData_of w a);
       "averages" :=
         VObj {[ "fps" := qnum (calculateAverageFPS (this w1));
                 "renderTime" := qnum (calculateAverageRenderTime (this w1));
                 "trend" := VStr (getPerformanceTrend (this w1)) ]} ]}.

(** A sequence of calls of [logSpatialData]; the result lists the samples
    inserted, in the order of the calls. *)
Fixpoint logSpatialData_each (calls : list SpatialCall.t) : M (list SpatialEvent.t) :=
  match calls with
  | [] => mret []
  | a :: rest =>
      w ← world;
      logSpatialData_call a;;
      inserted ← logSpatialData_each rest;
      mret (spatialEvent_of w a :: inserted)
  end.

Fixpoint logPerformance_each (calls : list PerformanceCall.t)
  : M (list PerformanceData.t) :=
  match calls with
  | [] => mret []
  | a :: rest =>
      w ← world;
      logPerformance_call a;;
      inserted ← logPerformance_each rest;
      mret (performanceData_of w a :: inserted)
  end.

End Sequences.

(** The arguments of one call of [logInteraction]. *)
Module InteractionCall.
Record t := {
  interactionType : Value;
  target : Value;
  position : Value;
  data : Obj
}.
End InteractionCall.

Section Interactions.
Context {host : Host} {sink : Sink}.

Definition logInteraction_call (a : InteractionCall.t) : M Obj :=
  logInteraction (InteractionCall.interactionType a) (InteractionCall.target a)
    (InteractionCall.position a) (InteractionCall.data a).

(** The interaction record that the call [a] of [logInteraction], made in
    the world [w], builds. *)
Definition new_interaction (w : World) (a : InteractionCall.t) : Obj :=
  InteractionCall.data a
  ∪ {[ "type" := InteractionCall.interactionType a;
       "target" := InteractionCall.target a;
       "position" := InteractionCall.position a;
       "duration" := or_null (get (InteractionCall.data a) "duration");
       "force" := or_null (get (InteractionCall.data a) "force");
       "timestamp" := qnum (performance_now (clock w));
       "vrMode" := VBool (isVRMode (this w)) ]}.

(** The ["user_interaction"] event of that call (whose type the extra
    fields may override). *)
Definition interaction_event (w : World) (a : InteractionCall.t) : Obj :=
  new_event (set_clock (S (clock w)) w) "user_interaction" (new_interaction w a).

End Interactions.

(** [this.sessionData.vrSessionStart], [None] while the property is
    missing. *)
Definition vrSessionStart (w : World) : option Q :=
  SessionData.vrSessionStart (sessionData (this w)).

(** The stored VR-start timestamp, when there is one, is a time after the
    time origin of the clock. *)
Definition stamp_after_origin (w : World) : Prop :=
  match vrSessionStart w with
  | Some t => (0 < t)%Q
  | None => True
  end.

(** Two worlds with the same collector and the same clock; their
    [localStorage] and console may differ. *)
Definition same_collector (w1 w2 : World) : Prop :=
  this w1 = this w2 /\ clock w1 = clock w2.

(** Two computations that, from worlds with the same collector, return the
    same value and again worlds with the same collector. *)
Definition agree {A} (m1 m2 : M A) : Prop :=
  forall w1 w2, same_collector w1 w2 ->
    match m1 w1, m2 w2 with
    | Some (a1, w1'), Some (a2, w2') => a1 = a2 /\ same_collector w1' w2'
    | None, None => True
    | _, _ => False
    end.

(** ** Sequences of calls of the public operations *)

Inductive Call :=
| CallLogEvent (eventType : string) (data : Obj)
| CallLogInteraction (a : InteractionCall.t)
| CallLogSpatialData (a : SpatialCall.t)
| CallLogPerformance (a : PerformanceCall.t)
| CallSetVRMode (isVR : bool).

(** The [eventType] property of the event that [logEvent eventType data]
    builds: that of [data] when it has one, for the spread comes last. *)
Definition event_type_of (eventType : string) (data : Obj) : Value :=
  default (VStr eventType) (data !! "eventType").

(** The call logs an event whose [eventType] is ["vr_session_start"]: a
    [logEvent] for that type, or any [logEvent] or [logInteraction] whose
    extra fields set [eventType] to it. *)
Definition logs_vr_session_start (c : Call) : bool :=
  match c with
  | CallLogEvent eventType data =>
      strict_eq_str (event_type_of eventType data) "vr_session_start"
  | CallLogInteraction a =>
      strict_eq_str (event_type_of "user_interaction" (InteractionCall.data a))
        "vr_session_start"
  | _ => false
  end.

(** A call of one of [setVRMode], [logInteraction], [logSpatialData] and
    [logPerformance], where the extra fields of a [logInteraction] do not
    set [eventType] to ["vr_session_start"]. *)
Definition own_call (c : Call) : Prop :=
  match c with
  | CallLogEvent _ _ => False
  | CallLogInteraction a =>
      InteractionCall.data a !! "eventType" <> Some (VStr "vr_session_start")
  | _ => True
  end.

Section Calls.
Context {host : Host} {sink : Sink}.

Definition call (c : Call) : M unit :=
  match c with
  | CallLogEvent eventType data => _ ← logEvent eventType data; mret tt
  | CallLogInteraction a => _ ← logInteraction_call a; mret tt
  | CallLogSpatialData a => logSpatialData_call a
  | CallLogPerformance a => logPerformance_call a
  | CallSetVRMode isVR => setVRMode isVR
  end.

Fixpoint calls (l : list Call) : M unit :=
  match l with
  | [] => mret tt
  | c :: rest => call c;; calls rest
  end.

End Calls.

(** ** The engagement score, as the specification words it *)

(** round(min(durationSeconds/300, 1)*30 + min(totalInteractions/50, 1)*30
    + (25 if a VR session ever started else 0)
    + (15 if average fps > 45, else 10 if > 30, else 5)) *)
Definition engagement_score_formula (durationSeconds : Q) (totalInteractions : nat)
    (vrSessionStarted : bool) (averageFps : Q) : Z :=
  Math_round
    (Qmin (durationSeconds / 300) 1 * 30
     + Qmin (inject_Z (Z.of_nat totalInteractions) / 50) 1 * 30
     + (if vrSessionStarted then 25 else 0)
     + (if Qltb 45 averageFps then 15 else if Qltb 30 averageFps then 10 else 5))%Q.

(** The seconds elapsed since the start of the session, at the next
    reading of the clock. *)
Definition durationSeconds {host : Host} (w : World) : Q :=
  ((performance_now (clock w) - startTime (this w)) / 1000)%Q.

(** ** The derived metrics, on the values they depend on *)

(** The fps values of the performance buffer, oldest first. *)
Definition fps_of (c : AnalyticsCollector) : list Q :=
  PerformanceData.fps <$> performanceMetrics c.

(** The mean of a window: its sum from [0], left to right, over its
    length. *)
Definition mean (l : list Q) : Q :=
  (foldl Qplus 0 l / inject_Z (Z.of_nat (length l)))%Q.


(** [getPerformanceTrend] as a function of the fps values alone. *)
Definition trend_of_fps (l : list Q) : string :=
  if length l <? 120 then "insufficient_data" else
  let recentAvg := mean (most_recent 60 l) in
  let olderAvg := mean (take 60 (most_recent 120 l)) in
  let change :=
    Num_mul (Num_div (Fin (recentAvg - olderAvg)) (Fin olderAvg)) (Fin 100) in
  if Num_gtb change (Fin 5) then "improving"
  else if Num_ltb change (Fin (-5)) then "degrading"
  else "stable".

(** The pairs of consecutive elements of a list. *)
Definition consecutive {A} (l : list A) : list (A * A) := zip l (tail l).

Section Movement.
Context {host : Host}.

(** The Euclidean distance between two positions. *)
Definition distance (p q : Vec3.t) : Q :=
  Math_sqrt ((Vec3.x q - Vec3.x p) ^ 2 + (Vec3.y q - Vec3.y p) ^ 2
             + (Vec3.z q - Vec3.z p) ^ 2)%Q.

Definition step_distance (s : SpatialEvent.t * SpatialEvent.t) : Q :=
  distance (SpatialEvent.position s.1) (SpatialEvent.position s.2).

(** The velocity of a step: its distance over its duration in seconds,
    the duration being taken as 1 ms at least. *)
Definition step_velocity (s : SpatialEvent.t * SpatialEvent.t) : Q :=
  (step_distance s
   / Qmax ((SpatialEvent.timestamp s.2 - SpatialEvent.timestamp s.1) / 1000)
       (1 # 1000))%Q.

(** The summed distance and the peak velocity over a window of samples. *)
Definition total_distance (recent : list SpatialEvent.t) : Q :=
  foldl Qplus 0%Q (step_distance <$> consecutive recent).

Definition peak_velocity (recent : list SpatialEvent.t) : Q :=
  foldl Qmax 0%Q (step_velocity <$> consecutive recent).

End Movement.

(** ** Concrete hosts, for closed instances of the statements *)

(** A square root on the rationals, exact on the squares of rationals. *)
Definition Qsqrt (q : Q) : Q :=
  (inject_Z (Z.sqrt (Qnum q * Z.pos (Qden q))) / inject_Z (Z.pos (Qden q)))%Q.

(** A desktop browser whose clock advances by 10 ms from one reading to the
    next, starting at 10 ms. *)
Definition desktop : Host :=
  {| performance_now := fun n => inject_Z (10 * Z.of_nat (S n));
     Math_sqrt := Qsqrt;
     ToNumber_coerce := fun _ => NaN;
     navigator_userAgent := "Mozilla/5.0 (Windows NT 10.0; Win64; x64)";
     getDeviceInfo := VNull |}.

(** A sink that stores one [{}] per event kept; when [full], every
    [setItem] raises. *)
Definition counting_sink (full : bool) : Sink :=
  {| JSON_stringify := fun l => String.concat "," (replicate (length l) "{}");
     JSON_parse := fun _ => Some [];
     getItem_raises := fun _ => false;
     setItem_raises := fun _ _ _ => full |}.

(** The world before the constructor runs. *)
Definition blank : World :=
  {| this :=
       {| events := []; sessionId := ""; startTime := 0; isVRMode := false;
          userInteractions := []; performanceMetrics := []; spatialData := [];
          sessionData :=
            {| SessionData.sessionId := ""; SessionData.startTime := 0;
               SessionData.userAgent := ""; SessionData.platform := "";
               SessionData.vrCapable := false; SessionData.deviceInfo := VNull;
               SessionData.vrSessionStart := None |} |};
     clock := 0; localStorage := ∅; warnings := 0 |}.

(** The world left by [m], started in [w]. *)
Definition after {A} (m : M A) (w : World) : World :=
  match m w with
  | Some (_, w') => w'
  | None => w
  end.

(** The world right after [new AnalyticsCollector()] on the desktop host. *)
Definition fresh : World :=
  after (constructor (host := desktop) "vr_1700000000000_k3j9x2m1q") blank.

Definition origin : Vec3.t := {| Vec3.x := 0; Vec3.y := 0; Vec3.z := 0 |}.

Definition a_spatial_call : SpatialCall.t :=
  {| SpatialCall.position := {| Vec3.x := 123456 # 100000; Vec3.y := 0; Vec3.z := 0 |};
     SpatialCall.rotation := origin;
     SpatialCall.scale := None;
     SpatialCall.objectType := "camera" |}.

Definition a_performance_call : PerformanceCall.t :=
  {| PerformanceCall.fps := 60;
     PerformanceCall.renderTime := 4 # 1;
     PerformanceCall.memoryUsage := VNull |}.

(** A click on an object, with the default extra fields. *)
Definition a_click : InteractionCall.t :=
  {| InteractionCall.interactionType := VStr "click";
     InteractionCall.target := VStr "bar_3";
     InteractionCall.position := VNull;
     InteractionCall.data := ∅ |}.

(** A world late in a busy session: five minutes on the clock of the
    desktop host, VR entered, fifty interactions, frames at 60 per
    second. *)
Definition busy : World :=
  {| this :=
       set_events [ {[ "eventType" := VStr "vr_session_start" ]} ]
         (set_userInteractions (replicate 50 ∅)
            (set_performanceMetrics
               [ {| PerformanceData.fps := 60; PerformanceData.renderTime := 4;
                    PerformanceData.memoryUsage := VNull;
                    PerformanceData.timestamp := 1000;
                    PerformanceData.isVRMode := true |} ]
               (this fresh)));
     clock := 30001; localStorage := ∅; warnings := 0 |}.

(** A collector whose spatial buffer holds two samples one metre and one
    second apart. *)
Definition two_samples : AnalyticsCollector :=
  set_spatialData
    [ {| SpatialEvent.objectType := "user"; SpatialEvent.position := origin;
         SpatialEvent.rotation := origin; SpatialEvent.scale := None;
         SpatialEvent.timestamp := 5000 |};
      {| SpatialEvent.objectType := "user";
         SpatialEvent.position := {| Vec3.x := 1; Vec3.y := 0; Vec3.z := 0 |};
         SpatialEvent.rotation := origin; SpatialEvent.scale := None;
         SpatialEvent.timestamp := 6000 |} ]
    (this fresh).

(** A performance sample with the given fps. *)
Definition frame (fps : Q) : PerformanceData.t :=
  {| PerformanceData.fps := fps; PerformanceData.renderTime := 4;
     PerformanceData.memoryUsage := VNull; PerformanceData.timestamp := 0;
     PerformanceData.isVRMode := false |}.

(** ** Notions used in the further properties *)


(** Between [w] and [w'] nothing was written to [localStorage] and no
    warning was raised on the console. *)
Definition untouched_store (w w' : World) : Prop :=
  localStorage w' = localStorage w /\ warnings w' = warnings w.

(** The text that [persistEvent] parses: the stored item, or ["[]"] when
    the item is missing or empty. *)
Definition stored_text (store : gmap string string) (text : string) : Prop :=
  (store !! "vr_analytics_events" = Some text /\ text <> "")
  \/ ((store !! "vr_analytics_events" = None
       \/ store !! "vr_analytics_events" = Some "") /\ text = "[]").



Section VREvents.
Context {host : Host}.

(** The time from which a VR exit measures the VR duration: the stored
    VR-start timestamp or, when it is missing or zero, the start of the
    session. *)
Definition vr_since (w : World) : Q :=
  match vrSessionStart w with
  | Some s => if Qzero s then startTime (this w) else s
  | None => startTime (this w)
  end.

(** The ["vr_mode_change"] event of [setVRMode isVR], called in [w]: it is
    built after the flag is set and the clock read once. *)
Definition vr_mode_change_event (w : World) (isVR : bool) : Obj :=
  new_event (set_this (set_isVRMode isVR (this w)) (set_clock (S (clock w)) w))
    "vr_mode_change"
    {[ "previousMode" := VBool (isVRMode (this w));
       "newMode" := VBool isVR;
       "transitionTime" := qnum (performance_now (clock w) - startTime (this w)) ]}.

(** The event with which the handler answers it. *)
Definition vr_experience_event (w : World) (isVR : bool) : Obj :=
  let transitionTime := qnum (performance_now (clock w) - startTime (this w)) in
  if isVR then
    new_event
      (set_this (set_isVRMode isVR (this w)) (set_clock (3 + clock w) w))
      "vr_experience_start"
      {[ "timeToVR" := transitionTime;
         "platform" := VStr (SessionData.platform (sessionData (this w))) ]}
  else
    new_event
      (set_this (set_isVRMode isVR (this w)) (set_clock (4 + clock w) w))
      "vr_experience_end"
      {[ "vrDuration" := qnum (performance_now (3 + clock w) - vr_since w);
         "totalSessionTime" := transitionTime ]}.

(** The VR-start timestamp after [setVRMode isVR], called in [w]. *)
Definition vr_stamp (w : World) (isVR : bool) : option Q :=
  if isVR && match vrSessionStart w with
             | Some s => Qzero s
             | None => true
             end
  then Some (performance_now (5 + clock w)) else vrSessionStart w.

End VREvents.

(** The call is a [logInteraction]. *)
Definition is_logInteraction (c : Call) : bool :=
  match c with
  | CallLogInteraction _ => true
  | _ => false
  end.

(** The call is a [setVRMode]. *)
Definition is_setVRMode (c : Call) : bool :=
  match c with
  | CallSetVRMode _ => true
  | _ => false
  end.

(** The call logs an event whatever the state: all do but [logSpatialData]
    and [logPerformance], which report at intervals. *)
Definition always_logs (c : Call) : bool :=
  match c with
  | CallLogSpatialData _ | CallLogPerformance _ => false
  | _ => true
  end.

(** The mode asked for by the last [setVRMode] among the calls, [initial]
    when there is none. *)
Definition last_mode (initial : bool) (l : list Call) : bool :=
  foldl (fun mode c =>
           match c with
           | CallSetVRMode isVR => isVR
           | _ => mode
           end) initial l.


(** The mean gap between consecutive timestamps: the time from the first
    to the last, over the number of gaps. *)
Definition mean_gap (ts : list Q) : Q :=
  ((default 0 (last ts) - default 0 (head ts))
   / inject_Z (Z.of_nat (length ts) - 1))%Q.

(** Three timestamps or more, less than 500 ms apart on average. *)
Definition rapid (ts : list Q) : bool :=
  (3 <=? length ts) && Qltb (mean_gap ts) 500.

(** ** The other methods of [AnalyticsCollector] *)

(** The result of [exportData]. *)
Module Exported.
Record t := {
  sessionSummary : Summary.t;
  events : list Obj;
  interactions : list Obj;
  spatialData : list SpatialEvent.t;
  performanceMetrics : list PerformanceData.t;
  deviceInfo : Value;
  exportTimestamp : Q
}.
End Exported.

(** [this.sessionData.interactionMetrics], without its [interactionTypes]
    table of counts per interaction type. *)
Module InteractionMetrics.
Record t := {
  totalInteractions : nat;
  averageTimeBetweenInteractions : Num;
  lastInteractionTime : Value
}.
(** The object that [updateInteractionMetrics] installs on its first
    call. *)
Definition initial : t :=
  {| totalInteractions := 0;
     averageTimeBetweenInteractions := Fin 0;
     lastInteractionTime := VNull |}.
End InteractionMetrics.

(** The variables [frameCount] and [lastTime] that the frame callback of
    [startPerformanceMonitoring] closes over. *)
Module Monitor.
Record t := {
  frameCount : nat;
  lastTime : Q
}.
End Monitor.

Section Reporting.
Context {host : Host} {sink : Sink}.

Definition getRecommendations : M (list string) :=
  summary ← getSessionSummary;
  c ← get_this;
  let r1 :=
    if Qltb (Summary.averageFPS summary) 30
    then ["Consider reducing graphics quality for better performance"] else [] in
  let r2 :=
    if Summary.totalInteractions summary <? 10
    then ["Add more interactive elements to increase engagement"] else [] in
  let r3 :=
    if negb (Summary.vrModeUsed summary) && SessionData.vrCapable (sessionData c)
    then ["Encourage VR mode usage for enhanced experience"] else [] in
  let movementMetrics := calculateMovementMetrics c in
  let r4 :=
    match movementMetrics with
    | Some m =>
        if String.eqb (MovementMetrics.movementIntensity m) "stationary"
        then ["Add movement-encouraging elements to reduce motion sickness"]
        else []
    | None => []
    end in
  mret (r1 ++ r2 ++ r3 ++ r4).

Definition exportData : M Exported.t :=
  summary ← getSessionSummary;
  c ← get_this;
  exportTimestamp ← now;
  mret {| Exported.sessionSummary := summary;
          Exported.events := events c;
          Exported.interactions := userInteractions c;
          Exported.spatialData := Array_slice (spatialData c) (-1000) None;
          Exported.performanceMetrics :=
            Array_slice (performanceMetrics c) (-1000) None;
          Exported.deviceInfo := SessionData.deviceInfo (sessionData c);
          Exported.exportTimestamp := exportTimestamp |}.

(** [updateInteractionMetrics], on the stored metrics ([None] while
    [sessionData.interactionMetrics] is missing).  [logInteraction] calls it
    with each interaction it records, so that the stored metrics are at any
    time those of [interaction_metrics_of] on [userInteractions]. *)
Definition updateInteractionMetrics (stored : option InteractionMetrics.t)
    (interaction : Obj) : InteractionMetrics.t :=
  let metrics := default InteractionMetrics.initial stored in
  let totalInteractions := S (InteractionMetrics.totalInteractions metrics) in
  let averageTimeBetweenInteractions :=
    if truthy (InteractionMetrics.lastInteractionTime metrics) then
      let timeSinceLastInteraction :=
        Num_sub (ToNumber (get interaction "timestamp"))
          (ToNumber (InteractionMetrics.lastInteractionTime metrics)) in
      Num_div
        (Num_add
           (Num_mul (InteractionMetrics.averageTimeBetweenInteractions metrics)
              (Fin (inject_Z (Z.of_nat totalInteractions - 1))))
           timeSinceLastInteraction)
        (Fin (inject_Z (Z.of_nat totalInteractions)))
    else InteractionMetrics.averageTimeBetweenInteractions metrics in
  {| InteractionMetrics.totalInteractions := totalInteractions;
     InteractionMetrics.averageTimeBetweenInteractions :=
       averageTimeBetweenInteractions;
     InteractionMetrics.lastInteractionTime := get interaction "timestamp" |}.

Definition interaction_metrics_of (interactions : list Obj)
  : option InteractionMetrics.t :=
  foldl (fun stored interaction => Some (updateInteractionMetrics stored interaction))
    None interactions.

(** [startPerformanceMonitoring], up to its first [requestAnimationFrame]:
    the initial values of the two variables. *)
Definition startPerformanceMonitoring : M Monitor.t :=
  lastTime ← now;
  mret {| Monitor.frameCount := 0; Monitor.lastTime := lastTime |}.


End Reporting.

(** The four messages of [getRecommendations], in the order of its
    tests. *)
Definition recommendations : list string :=
  ["Consider reducing graphics quality for better performance";
   "Add more interactive elements to increase engagement";
   "Encourage VR mode usage for enhanced experience";
   "Add movement-encouraging elements to reduce motion sickness"].

(** ** The applications that drive the collector *)

(** [VRAnalyticsPlatform] of the main entry point. *)
Module MainApp.
Section MainApp.
Context {host : Host} {sink : Sink}.

(** [enterVR]; [granted] tells whether the session request and
    [setSession] succeed, [message] is the [error.message] caught when
    they do not. *)
Definition enterVR (granted : bool) (message : Value) : M unit :=
  _ ← logEvent "vr_entry_attempt" ∅;
  if granted then
    setVRMode true;;
    t ← now;
    _ ← logEvent "vr_session_started" {[ "timestamp" := qnum t ]};
    mret tt
  else
    _ ← logEvent "vr_entry_failed" {[ "error" := message ]};
    mret tt.

Definition onVRSessionEnd : M unit :=
  setVRMode false;;
  t ← now;
  _ ← logEvent "vr_session_ended" {[ "timestamp" := qnum t ]};
  mret tt.

(** The call of [logPerformance] at the end of each frame of [animate]:
    the frame rate is the constant 60, the render time was measured. *)
Definition animate_logPerformance (renderTime : Q) : PerformanceCall.t :=
  {| PerformanceCall.fps := 60;
     PerformanceCall.renderTime := renderTime;
     PerformanceCall.memoryUsage := VNull |}.

End MainApp.
End MainApp.

(** [VRAnalyticsPlatform] of the application built on [SceneManager] and
    [InteractionHandler]. *)
Module SceneApp.
Section SceneApp.
Context {host : Host} {sink : Sink}.

(** [enterVR]; [date_now] is the reading of [Date.now()].  A failure is
    written to the console only. *)
Definition enterVR (granted : bool) (date_now : Q) : M unit :=
  if granted then
    _ ← logEvent "vr_session_start"
          {[ "timestamp" := qnum date_now;
             "sessionType" := VStr "immersive-vr" ]};
    mret tt
  else mret tt.

End SceneApp.
End SceneApp.

(** ** Statements on rounded figures *)










(** ** The derived metrics on binary64 numbers *)

(** The arithmetic of the derived metrics once more, on the binary64
    numbers of the kernel and with the operations in the order of the
    source, as functions of the numbers they read.  They evaluate the
    collector at given inputs where the rounding of an operation decides
    the outcome. *)
Module Binary64.

(** A count, as a number. *)
Definition of_nat (n : nat) : float := Nat.iter n (fun x => x + 1)%float 0%float.

(** [Math.min] and [Math.max] of two numbers; the sign of a zero is not
    told apart. *)
Definition Math_min (a b : float) : float :=
  if PrimFloat.is_nan a || PrimFloat.is_nan b then PrimFloat.nan
  else if (b <? a)%float then b else a.

Definition Math_max (a b : float) : float :=
  if PrimFloat.is_nan a || PrimFloat.is_nan b then PrimFloat.nan
  else if (a <? b)%float then b else a.

(** [Math.floor]: below 2^52 in magnitude, adding and subtracting 2^52
    gives the nearest integer, which is the floor or one more; from 2^52 on
    every binary64 number is an integer. *)
Definition Math_floor (x : float) : float :=
  let two52 := 4503599627370496%float in
  if (PrimFloat.abs x <? two52)%float then
    let nearest :=
      if (0 <=? x)%float then (x + two52 - two52)%float
      else (x - two52 + two52)%float in
    if (x <? nearest)%float then (nearest - 1)%float else nearest
  else x.

(** [Math.round]: the nearest integer, ties towards plus infinity; the
    difference to the floor is exact. *)
Definition Math_round (x : float) : float :=
  let below := Math_floor x in
  if (0.5 <=? x - below)%float then (below + 1)%float else below.

(** [calculateEngagementScore], on the fields of the summary that it
    reads: [duration] in milliseconds, [totalInteractions], [vrModeUsed]
    and [averageFPS]. *)
Definition calculateEngagementScore (duration : float) (totalInteractions : nat)
    (vrModeUsed : bool) (averageFPS : float) : float :=
  let duration := (duration / 1000)%float in
  let durationScore := (Math_min (duration / 300) 1 * 30)%float in
  let interactionScore := (Math_min (of_nat totalInteractions / 50) 1 * 30)%float in
  let vrScore := if vrModeUsed then 25%float else 0%float in
  let performanceScore :=
    if (45 <? averageFPS)%float then 15%float
    else if (30 <? averageFPS)%float then 10%float
    else 5%float in
  Math_round (durationScore + interactionScore + vrScore + performanceScore)%float.

(** [getPerformanceTrend], on the [fps] values of the performance buffer,
    oldest first. *)
Definition getPerformanceTrend (fps : list float) : string :=
  if length fps <? 120 then "insufficient_data" else
  let recent := Array_slice fps (-60) None in
  let older := Array_slice fps (-120) (Some (-60)%Z) in
  let recentAvg := (foldl PrimFloat.add 0 recent / of_nat (length recent))%float in
  let olderAvg := (foldl PrimFloat.add 0 older / of_nat (length older))%float in
  let change := ((recentAvg - olderAvg) / olderAvg * 100)%float in
  if (5 <? change)%float then "improving"
  else if (change <? -5)%float then "degrading"
  else "stable".

(** What [calculateMovementMetrics] reads of a spatial sample. *)
Record Sample := {
  x : float;
  y : float;
  z : float;
  timestamp : float
}.

Definition classifyMovementIntensity (velocity : float) : string :=
  if (velocity <? 0.1)%float then "stationary"
  else if (velocity <? 0.5)%float then "slow"
  else if (velocity <? 1.0)%float then "moderate"
  else if (velocity <? 2.0)%float then "active"
  else "rapid".

(** One turn of the loop of [calculateMovementMetrics]; [Math.pow(d, 2)] is
    the product [d * d]. *)
Definition movement_step (recent : list Sample) (acc : float * float) (i : nat)
  : float * float :=
  match recent !! (i - 1), recent !! i with
  | Some prev, Some curr =>
      let dx := (x curr - x prev)%float in
      let dy := (y curr - y prev)%float in
      let dz := (z curr - z prev)%float in
      let distance := PrimFloat.sqrt (dx * dx + dy * dy + dz * dz)%float in
      let timeDelta := ((timestamp curr - timestamp prev) / 1000)%float in
      let velocity := (distance / Math_max timeDelta 0.001)%float in
      ((acc.1 + distance)%float, Math_max acc.2 velocity)
  | _, _ => acc
  end.

(** The [movementIntensity] of [calculateMovementMetrics]. *)
Definition movementIntensity (spatialData : list Sample) : option string :=
  if length spatialData <? 2 then None else
  let recent := Array_slice spatialData (-30) None in
  let '(totalDistance, maxVelocity) :=
    foldl (movement_step recent) (0%float, 0%float) (seq 1 (length recent - 1)) in
  Some (classifyMovementIntensity maxVelocity).

(** The [avgTimeBetween] of [processInteractionEvent], on the timestamps of
    the interactions it looks at. *)
Definition avgTimeBetween (timestamps : list float) : float :=
  (foldl (fun sum '(i, t) =>
            match i with
            | O => 0
            | S j => sum + (t - default 0 (timestamps !! j))
            end)
     0 (imap pair timestamps)
   / (of_nat (length timestamps) - 1))%float.

End Binary64.

(** * Properties *)

(** ** Lists and [Array.prototype.slice] *)

(** [slice(-n)] keeps the last [n] elements. *)
Lemma Array_slice_last {A} (l : list A) (n : nat) :
  0 < n -> Array_slice l (- Z.of_nat n) None = drop (length l - n) l.
Proof.
  intros Hn. unfold Array_slice.
  replace (- Z.of_nat n <? 0)%Z with true by (symmetry; apply Z.ltb_lt; lia).
  set (len := Z.of_nat (length l)).
  replace (Z.to_nat (Z.max (len + - Z.of_nat n) 0)) with (length l - n) by lia.
  apply take_ge. rewrite length_drop. lia.
Qed.

(** [slice(-(n + k), -k)] is the block of [n] elements that ends [k] before
    the end, once the array has [n + k] elements. *)
Lemma Array_slice_block {A} (l : list A) (n k : nat) :
  0 < k -> n + k <= length l ->
  Array_slice l (- Z.of_nat (n + k)) (Some (- Z.of_nat k)%Z)
  = take n (drop (length l - (n + k)) l).
Proof.
  intros Hk Hl. unfold Array_slice.
  replace (- Z.of_nat (n + k) <? 0)%Z with true by (symmetry; apply Z.ltb_lt; lia).
  replace (- Z.of_nat k <? 0)%Z with true by (symmetry; apply Z.ltb_lt; lia).
  f_equal; [| f_equal]; lia.
Qed.

Lemma drop_last_app {A} (n : nat) (l : list A) (a : A) :
  drop (length (drop (length l - n) l ++ [a]) - n) (drop (length l - n) l ++ [a])
  = drop (length (l ++ [a]) - n) (l ++ [a]).
Proof.
  destruct n as [| n].
  - rewrite !Nat.sub_0_r. by rewrite !drop_all.
  - destruct (decide (length l <= S n)) as [Hle | Hgt].
    + replace (length l - S n) with 0 by lia. reflexivity.
    + rewrite !length_app, length_drop. simpl length.
      replace (length l - (length l - S n) + 1 - S n) with 1 by lia.
      replace (length l + 1 - S n) with (length l - S n + 1) by lia.
      rewrite (drop_app_le l [a]) by lia.
      rewrite (drop_app_le (drop _ l) [a]) by (rewrite length_drop; lia).
      by rewrite drop_drop.
Qed.

(** ** Reasoning about computations on the world *)

Lemma returns_ret {A} (a : A) w (P : A -> World -> Prop) :
  P a w -> returns (mret a) w P.
Proof. intros HP. exists a, w. split; [reflexivity | exact HP]. Qed.

Lemma returns_bind {A B} (m : M A) (f : A -> M B) w (P : B -> World -> Prop) :
  returns m w (fun a w' => returns (f a) w' P) -> returns (m ≫= f) w P.
Proof.
  intros (a & w' & Hm & b & w'' & Hf & HP). exists b, w''.
  split; [| exact HP]. unfold mbind, M_bind. rewrite Hm. exact Hf.
Qed.

Lemma returns_mono {A} (m : M A) w (P Q : A -> World -> Prop) :
  returns m w P -> (forall a w', P a w' -> Q a w') -> returns m w Q.
Proof. intros (a & w' & Hm & HP) HPQ. exists a, w'. auto. Qed.

Lemma returns_inv {A} (m : M A) w (P : A -> World -> Prop) a w' :
  returns m w P -> m w = Some (a, w') -> P a w'.
Proof. intros (a0 & w0 & Hm & HP) Heq. congruence. Qed.

Lemma returns_get_this w (P : AnalyticsCollector -> World -> Prop) :
  P (this w) w -> returns get_this w P.
Proof. intros HP. eexists _, _. split; [reflexivity | exact HP]. Qed.

Lemma returns_modify_this f w (P : unit -> World -> Prop) :
  P tt (set_this (f (this w)) w) -> returns (modify_this f) w P.
Proof. intros HP. eexists _, _. split; [reflexivity | exact HP]. Qed.

Lemma returns_now `{Host} w (P : Q -> World -> Prop) :
  P (performance_now (clock w)) (set_clock (S (clock w)) w) -> returns now w P.
Proof. intros HP. eexists _, _. split; [reflexivity | exact HP]. Qed.

(** Projections of updated records. *)
Ltac wsimpl :=
  cbn [this clock localStorage warnings set_this set_clock set_localStorage
       set_warnings events sessionId startTime isVRMode userInteractions
       performanceMetrics spatialData sessionData set_events set_isVRMode
       set_userInteractions set_performanceMetrics set_spatialData
       set_sessionData SessionData.vrSessionStart SessionData.vrCapable
       SessionData.platform SessionData.set_vrCapable
       SessionData.set_vrSessionStart] in *.

(** One step of symbolic execution. *)
Ltac step :=
  lazymatch goal with
  | |- returns (mbind _ _) _ _ => apply returns_bind
  | |- returns (mret _) _ _ => apply returns_ret
  | |- returns get_this _ _ => apply returns_get_this
  | |- returns (modify_this _) _ _ => apply returns_modify_this
  | |- returns now _ _ => apply returns_now
  end; cbv beta.
Ltac steps := repeat step.

(** Side conditions of [logs_one]. *)
Ltac reaction_type :=
  lazymatch goal with
  | |- _ ∈ reaction_types => unfold reaction_types; set_solver
  | |- _ !! "eventType" = None => by simplify_map_eq
  end.

Lemma appended_nil w w' : this w' = this w -> appended w w' [].
Proof.
  unfold appended. intros ->. rewrite app_nil_r. by destruct (this w).
Qed.

Lemma appended_trans w1 w2 w3 l1 l2 :
  appended w1 w2 l1 -> appended w2 w3 l2 -> appended w1 w3 (l1 ++ l2).
Proof.
  unfold appended. intros H1 H2. rewrite H2, H1. simpl. by rewrite app_assoc.
Qed.


(** ** [logEvent] and the real-time handlers *)

Section LogEvent.
Context {host : Host} {sink : Sink}.

Lemma returns_persistEvent event w (P : unit -> World -> Prop) :
  (forall w', this w' = this w -> clock w' = clock w -> P tt w') ->
  returns (persistEvent event) w P.
Proof.
  intros HP. unfold returns, persistEvent, console_warn.
  destruct (persist_attempt _ _); eexists _, _; (split; [reflexivity |]);
    by apply HP.
Qed.

Lemma new_event_type w ty data :
  data !! "eventType" = None -> get (new_event w ty data) "eventType" = VStr ty.
Proof.
  intros Hd. unfold get, new_event. rewrite lookup_union_r by done.
  by simplify_map_eq.
Qed.

(** An event whose type has no handler is logged alone. *)
Lemma logEvent_depth_plain n ty data w :
  has_type "user_interaction" (new_event w ty data) = false ->
  has_type "performance_metrics" (new_event w ty data) = false ->
  has_type "vr_mode_change" (new_event w ty data) = false ->
  returns (logEvent_depth (S n) ty data) w (fun ev w' =>
    ev = new_event w ty data /\ appended w w' [ev]).
Proof.
  unfold has_type. intros H1 H2 H3. simpl logEvent_depth.
  unfold logEvent_body. steps.
  unfold processEventRealTime. simpl this. simpl clock.
  fold (new_event w ty data). rewrite H1, H2, H3. steps.
  destruct (isImportantEvent ty).
  - apply returns_persistEvent. intros w' Hthis _. steps.
    split; [reflexivity |]. unfold appended. rewrite Hthis. simpl.
    by destruct (this w).
  - steps. split; [reflexivity |]. unfold appended. simpl. by destruct (this w).
Qed.

Lemma logEvent_depth_logs_one n : logs_one (logEvent_depth (S n)).
Proof.
  intros ty data w Hty Hd.
  eapply returns_mono.
  - apply logEvent_depth_plain; unfold has_type;
      rewrite new_event_type by done;
      repeat (apply elem_of_cons in Hty as [-> | Hty]; [reflexivity |]);
      by apply elem_of_nil in Hty.
  - intros ev w' [-> Happ]. split; [by apply new_event_type | done].
Qed.

Lemma Array_slice_length_le {A} (l : list A) start end_ :
  length (Array_slice l start end_) <= length l.
Proof.
  unfold Array_slice. rewrite length_take, length_drop. lia.
Qed.

Lemma has_type_eq ty e : get e "eventType" = VStr ty -> has_type ty e = true.
Proof. unfold has_type. intros ->. apply String.eqb_refl. Qed.

Lemma has_type_ne ty ty' e :
  get e "eventType" = VStr ty -> ty <> ty' -> has_type ty' e = false.
Proof. unfold has_type. intros -> Hne. by apply String.eqb_neq. Qed.

Lemma processInteractionEvent_spec le event w :
  logs_one le ->
  returns (processInteractionEvent le event) w (fun _ w' =>
    exists nested, appended w w' nested
      /\ Forall (fun e => get e "eventType" = VStr "rapid_interaction_detected") nested
      /\ (length (userInteractions (this w)) < 3 -> nested = [])).
Proof.
  intros Hle. unfold processInteractionEvent. steps.
  destruct (3 <=? _) eqn:Hlen.
  - apply Nat.leb_le in Hlen.
    pose proof (Array_slice_length_le (userInteractions (this w)) (-5) None).
    destruct (Num_ltb _ _).
    + step. eapply returns_mono; [apply Hle; reaction_type |].
      intros ev w' [Hty Happ]. steps. exists [ev].
      split; [done |]. split; [by constructor | lia].
    + steps. exists []. split; [by apply appended_nil |]. split; [constructor | done].
  - steps. exists []. split; [by apply appended_nil |]. split; [constructor | done].
Qed.

Lemma processPerformanceEvent_spec le event w :
  logs_one le ->
  returns (processPerformanceEvent le event) w (fun _ w' =>
    exists nested, appended w w' nested
      /\ Forall (fun e => get e "eventType" = VStr "performance_warning") nested).
Proof.
  intros Hle. unfold processPerformanceEvent. step.
  assert (Hone : forall data w0,
    data !! "eventType" = None ->
    returns (_ ← le "performance_warning" data; mret tt) w0 (fun _ w' =>
      exists nested, appended w0 w' nested
        /\ Forall (fun e => get e "eventType" = VStr "performance_warning") nested)).
  { intros data w0 Hd. step.
    eapply returns_mono; [apply Hle; [reaction_type | done] |].
    intros ev w' [Hty Happ]. steps. exists [ev]. split; [done | by constructor]. }
  assert (Hnone : forall w0,
    returns (mret tt) w0 (fun _ w' =>
      exists nested, appended w0 w' nested
        /\ Forall (fun e => get e "eventType" = VStr "performance_warning") nested)).
  { intros w0. steps. exists []. split; [by apply appended_nil | constructor]. }
  eapply returns_mono.
  - destruct (_ && _); [apply Hone; reaction_type | apply Hnone].
  - intros [] w1 (l1 & Happ1 & Hall1). eapply returns_mono.
    + destruct (_ && _); [apply Hone; reaction_type | apply Hnone].
    + intros [] w2 (l2 & Happ2 & Hall2). exists (l1 ++ l2).
      split; [by eapply appended_trans | by apply Forall_app].
Qed.

Lemma processVRModeChange_spec le event w :
  logs_one le ->
  returns (processVRModeChange le event) w (fun _ w' =>
    exists nested, appended w w' nested
      /\ Forall (fun e => get e "eventType" = VStr "vr_experience_start"
                          \/ get e "eventType" = VStr "vr_experience_end") nested).
Proof.
  intros Hle. unfold processVRModeChange. steps.
  destruct (truthy _).
  - step. eapply returns_mono; [apply Hle; reaction_type |].
    intros ev w' [Hty Happ]. steps. exists [ev]. split; [done |].
    constructor; [by left | constructor].
  - steps. eapply returns_mono; [apply Hle; reaction_type |].
    intros ev w' [Hty Happ]. steps. exists [ev].
    split; [by eapply appended_trans with (l1 := []); [by apply appended_nil |] |].
    constructor; [by right | constructor].
Qed.

Lemma processEventRealTime_spec le event w :
  logs_one le ->
  returns (processEventRealTime le event) w (fun _ w' =>
    exists nested, appended w w' nested /\ reactions_to (this w) event nested).
Proof.
  intros Hle. unfold processEventRealTime, reactions_to, has_type.
  destruct (strict_eq_str _ "user_interaction");
    [| destruct (strict_eq_str _ "performance_metrics");
       [| destruct (strict_eq_str _ "vr_mode_change")]].
  - by apply processInteractionEvent_spec.
  - by apply processPerformanceEvent_spec.
  - by apply processVRModeChange_spec.
  - steps. exists []. split; [by apply appended_nil | done].
Qed.

(** Every reaction has one of the four reaction types. *)
Lemma reactions_to_types c event nested :
  reactions_to c event nested ->
  Forall (fun e => exists ty, get e "eventType" = VStr ty /\ ty ∈ reaction_types)
    nested.
Proof.
  unfold reactions_to. repeat case_match.
  - intros [Hall _]. eapply Forall_impl; [exact Hall |].
    intros e He; simpl in He. eexists; split; [exact He | reaction_type].
  - intros Hall. eapply Forall_impl; [exact Hall |].
    intros e He; simpl in He. eexists; split; [exact He | reaction_type].
  - intros Hall. eapply Forall_impl; [exact Hall |].
    intros e [He | He]; (eexists; split; [exact He | reaction_type]).
  - intros ->. constructor.
Qed.

(** [logEvent] returns the event it built, and leaves the collector as it
    was but for the event log, which gains that event and then the
    reactions of the dispatch. *)
Lemma logEvent_depth_spec n ty data w :
  returns (logEvent_depth (S (S n)) ty data) w (fun ev w' =>
    ev = new_event w ty data
    /\ exists nested, appended w w' (ev :: nested) /\ reactions_to (this w) ev nested).
Proof.
  simpl logEvent_depth. unfold logEvent_body at 1. steps.
  change (logEvent_body (logEvent_depth n)) with (logEvent_depth (S n)).
  eapply returns_mono;
    [apply processEventRealTime_spec, logEvent_depth_logs_one |].
  intros [] w1 (nested & Happ & Hre). step.
  assert (Hfin : forall w2, this w2 = this w1 ->
    new_event w ty data = new_event w ty data
    /\ exists nested0, appended w w2 (new_event w ty data :: nested0)
         /\ reactions_to (this w) (new_event w ty data) nested0).
  { intros w2 Hw2. split; [done |]. exists nested. split.
    - unfold appended, new_event in *. rewrite Hw2, Happ. wsimpl.
      rewrite <- app_assoc. by destruct (this w).
    - exact Hre. }
  destruct (isImportantEvent ty).
  - apply returns_persistEvent. intros w2 Hw2 _. steps. by apply Hfin.
  - steps. by apply Hfin.
Qed.

Lemma logEvent_spec ty data w :
  returns (logEvent ty data) w (fun ev w' =>
    ev = new_event w ty data
    /\ exists nested, appended w w' (ev :: nested) /\ reactions_to (this w) ev nested).
Proof. apply logEvent_depth_spec. Qed.

(** Depth two is enough: more fuel gives the same result. *)
Lemma logEvent_depth_reaction n ty data w :
  ty ∈ reaction_types -> data !! "eventType" = None ->
  logEvent_depth (S n) ty data w = logEvent_depth 1 ty data w.
Proof.
  intros Hty Hd. simpl logEvent_depth. unfold logEvent_body.
  unfold mbind, M_bind, get_this, now, modify_this. wsimpl.
  fold (new_event w ty data). unfold processEventRealTime.
  rewrite new_event_type by done.
  unfold reaction_types in Hty.
  repeat (apply elem_of_cons in Hty as [-> | Hty]; [reflexivity |]).
  by apply elem_of_nil in Hty.
Qed.

(** The handlers only call [logEvent] on their own event types. *)
Lemma processEventRealTime_ext le1 le2 event w :
  (forall ty data w0,
     ty ∈ reaction_types -> data !! "eventType" = None ->
     le1 ty data w0 = le2 ty data w0) ->
  processEventRealTime le1 event w = processEventRealTime le2 event w.
Proof.
  intros Hle. unfold processEventRealTime.
  destruct (strict_eq_str _ "user_interaction");
    [| destruct (strict_eq_str _ "performance_metrics");
       [| destruct (strict_eq_str _ "vr_mode_change"); [| reflexivity]]].
  - unfold processInteractionEvent, mbind, M_bind, get_this. wsimpl.
    destruct (3 <=? _); [| reflexivity].
    destruct (Num_ltb _ _); [| reflexivity].
    by rewrite Hle by reaction_type.
  - unfold processPerformanceEvent, mbind, M_bind.
    destruct (_ && _).
    + rewrite Hle by reaction_type. destruct (le2 _ _ _) as [[ev w1] |]; [| reflexivity].
      unfold mret, M_ret. destruct (_ && _); [| reflexivity].
      by rewrite Hle by reaction_type.
    + unfold mret, M_ret. destruct (_ && _); [| reflexivity].
      by rewrite Hle by reaction_type.
  - unfold processVRModeChange, mbind, M_bind, get_this, now. wsimpl.
    destruct (truthy _); by rewrite Hle by reaction_type.
Qed.

Lemma logEvent_fuel n ty data w :
  logEvent_depth (S (S n)) ty data w = logEvent ty data w.
Proof.
  unfold logEvent.
  change (logEvent_body (logEvent_depth (S n)) ty data w
          = logEvent_body (logEvent_depth 1) ty data w).
  unfold logEvent_body, mbind, M_bind, get_this, now, modify_this. wsimpl.
  rewrite (processEventRealTime_ext (logEvent_depth (S n)) (logEvent_depth 1));
    [reflexivity |].
  intros. by apply logEvent_depth_reaction.
Qed.

End LogEvent.

(** ** The rolling buffers *)

Lemma most_recent_length {A} (n : nat) (l : list A) :
  length (most_recent n l) = Nat.min n (length l).
Proof. unfold most_recent. rewrite length_drop. lia. Qed.

Lemma most_recent_all {A} (n : nat) (l : list A) :
  length l <= n -> most_recent n l = l.
Proof.
  intros Hle. unfold most_recent. by replace (length l - n) with 0 by lia.
Qed.

Lemma most_recent_push {A} (n : nat) (l : list A) (a : A) :
  most_recent n (most_recent n l ++ [a]) = most_recent n (l ++ [a]).
Proof. apply drop_last_app. Qed.

Lemma most_recent_app {A} (n : nat) (l1 l2 : list A) :
  n <= length l2 -> most_recent n (l1 ++ l2) = most_recent n l2.
Proof.
  intros Hle. unfold most_recent. rewrite length_app.
  replace (length l1 + length l2 - n) with (length l1 + (length l2 - n)) by lia.
  by rewrite drop_app_add.
Qed.

(** The truncation at the end of [logSpatialData] and [logPerformance]. *)
Lemma truncate_most_recent {A} (l : list A) :
  (if 1800 <? length l then Array_slice l (-1800) None else l)
  = most_recent 1800 l.
Proof.
  destruct (1800 <? length l) eqn:Hlen.
  - change (-1800)%Z with (- Z.of_nat 1800)%Z. apply Array_slice_last. lia.
  - apply Nat.ltb_ge in Hlen. by rewrite most_recent_all.
Qed.

Lemma returns_world w (P : World -> World -> Prop) : P w w -> returns world w P.
Proof. intros HP. eexists _, _. split; [reflexivity | exact HP]. Qed.

Section Buffers.
Context {host : Host} {sink : Sink}.

Lemma new_event_has_type w ty data ty' :
  data !! "eventType" = None ->
  has_type ty' (new_event w ty data) = String.eqb ty ty'.
Proof. intros Hd. unfold has_type. by rewrite new_event_type. Qed.

Lemma set_this_same w : set_this (this w) w = w.
Proof. by destruct w. Qed.

Lemma returns_truncate_spatial w (P : unit -> World -> Prop) :
  P tt (set_this
          (set_spatialData (most_recent 1800 (spatialData (this w))) (this w)) w) ->
  returns
    (c ← get_this;
     if 1800 <? length (spatialData c) then
       modify_this (set_spatialData (Array_slice (spatialData c) (-1800) None))
     else mret tt) w P.
Proof.
  intros HP. do 2 step. rewrite <- truncate_most_recent in HP.
  destruct (1800 <? length (spatialData (this w))); step; [exact HP |].
  replace (set_spatialData (spatialData (this w)) (this w)) with (this w) in HP
    by (by destruct (this w)).
  by rewrite set_this_same in HP.
Qed.

Lemma returns_truncate_performance w (P : unit -> World -> Prop) :
  P tt (set_this
          (set_performanceMetrics
             (most_recent 1800 (performanceMetrics (this w))) (this w)) w) ->
  returns
    (c ← get_this;
     if 1800 <? length (performanceMetrics c) then
       modify_this
         (set_performanceMetrics (Array_slice (performanceMetrics c) (-1800) None))
     else mret tt) w P.
Proof.
  intros HP. do 2 step. rewrite <- truncate_most_recent in HP.
  destruct (1800 <? length (performanceMetrics (this w))); step; [exact HP |].
  replace (set_performanceMetrics (performanceMetrics (this w)) (this w))
    with (this w) in HP by (by destruct (this w)).
  by rewrite set_this_same in HP.
Qed.

(** One call of [logSpatialData]: the sample goes to the end of the buffer,
    which is then cut to its 1800 most recent samples; a report is logged
    when the length of the buffer, before the cut, is a multiple of 30. *)
Lemma logSpatialData_spec a w :
  returns (logSpatialData_call a) w (fun _ w' =>
    exists new,
      this w' =
        set_spatialData
          (most_recent 1800 (spatialData (this w) ++ [spatialEvent_of w a]))
          (set_events (events (this w) ++ new) (this w))
      /\ new = if (length (spatialData (this w)) + 1) mod 30 =? 0
               then [spatial_tracking_event w a] else []).
Proof.
  unfold logSpatialData_call, logSpatialData. steps. wsimpl.
  rewrite length_app. simpl length.
  fold (spatialEvent_of w a). fold (spatial_pushed w a).
  destruct (_ =? 0) eqn:Hmod.
  - step. eapply returns_mono.
    + apply (logEvent_depth_plain 1); by rewrite new_event_has_type by reaction_type.
    + intros ev w1 [-> Happ]. step. apply returns_truncate_spatial. wsimpl.
      eexists. split; [| reflexivity].
      change (-30)%Z with (- Z.of_nat 30)%Z in Happ.
      rewrite Array_slice_last in Happ by lia.
      unfold appended in Happ. rewrite Happ.
      unfold spatial_tracking_event, most_recent, spatial_pushed. wsimpl.
      by destruct (this w).
  - step. apply returns_truncate_spatial. unfold spatial_pushed. wsimpl.
    exists []. split; [| reflexivity].
    rewrite app_nil_r. by destruct (this w).
Qed.

(** One call of [logPerformance]: the same, with a report every 300, which
    the handler of ["performance_metrics"] may follow with warnings. *)
Lemma logPerformance_spec a w :
  returns (logPerformance_call a) w (fun _ w' =>
    exists new,
      this w' =
        set_performanceMetrics
          (most_recent 1800
             (performanceMetrics (this w) ++ [performanceData_of w a]))
          (set_events (events (this w) ++ new) (this w))
      /\ if (length (performanceMetrics (this w)) + 1) mod 300 =? 0
         then exists warnings,
                new = performance_metrics_event w a :: warnings
                /\ Forall (fun e => get e "eventType" = VStr "performance_warning")
                     warnings
         else new = []).
Proof.
  unfold logPerformance_call, logPerformance. steps. wsimpl.
  rewrite length_app. simpl length.
  fold (performanceData_of w a). fold (performance_pushed w a).
  destruct (_ =? 0) eqn:Hmod.
  - step. eapply returns_mono; [apply logEvent_spec |].
    intros ev w1 (-> & nested & Happ & Hre). step.
    apply returns_truncate_performance. wsimpl.
    unfold reactions_to in Hre.
    rewrite !new_event_has_type in Hre by reaction_type. simpl in Hre.
    exists (performance_metrics_event w a :: nested). split.
    + unfold appended in Happ. rewrite Happ.
      unfold performance_metrics_event, performance_pushed. wsimpl.
      by destruct (this w).
    + by exists nested.
  - step. apply returns_truncate_performance. unfold performance_pushed. wsimpl.
    exists []. split; [| reflexivity].
    rewrite app_nil_r. by destruct (this w).
Qed.

(** A run of [logSpatialData] calls keeps the buffer equal to the 1800
    most recent entries of its history. *)
Lemma logSpatialData_each_spec calls : forall w history,
  spatialData (this w) = most_recent 1800 history ->
  returns (logSpatialData_each calls) w (fun inserted w' =>
    length inserted = length calls
    /\ spatialData (this w') = most_recent 1800 (history ++ inserted)).
Proof.
  induction calls as [| a rest IH]; intros w history Hw; simpl.
  - steps. by rewrite app_nil_r.
  - step. apply returns_world. step.
    eapply returns_mono; [apply logSpatialData_spec |].
    intros [] w1 (new & Hw1 & _). step.
    eapply returns_mono; [apply (IH w1 (history ++ [spatialEvent_of w a])) |].
    + rewrite Hw1, Hw. wsimpl. apply most_recent_push.
    + intros inserted w2 [Hlen Hw2]. steps. simpl. split; [by rewrite Hlen |].
      by rewrite Hw2, <- app_assoc.
Qed.

Lemma logPerformance_each_spec calls : forall w history,
  performanceMetrics (this w) = most_recent 1800 history ->
  returns (logPerformance_each calls) w (fun inserted w' =>
    length inserted = length calls
    /\ performanceMetrics (this w') = most_recent 1800 (history ++ inserted)).
Proof.
  induction calls as [| a rest IH]; intros w history Hw; simpl.
  - steps. by rewrite app_nil_r.
  - step. apply returns_world. step.
    eapply returns_mono; [apply logPerformance_spec |].
    intros [] w1 (new & Hw1 & _). step.
    eapply returns_mono; [apply (IH w1 (history ++ [performanceData_of w a])) |].
    + rewrite Hw1, Hw. wsimpl. apply most_recent_push.
    + intros inserted w2 [Hlen Hw2]. steps. simpl. split; [by rewrite Hlen |].
      by rewrite Hw2, <- app_assoc.
Qed.

End Buffers.

Section BufferClaims.
Context {host : Host} {sink : Sink}.

(** C1.  Under every sequence of [logSpatialData] calls the spatial buffer
    holds at most 1800 samples, and it is the 1800 most recent entries of
    what it held followed by the inserted samples, in insertion order; once
    1800 samples or more have been inserted it holds exactly the 1800 most
    recently inserted ones.  The same holds for the performance buffer
    under every sequence of [logPerformance] calls. *)
Theorem buffers_hold_the_1800_most_recent
    (w : World) (spatial : list SpatialCall.t) (performance : list PerformanceCall.t) :
  length (spatialData (this w)) <= 1800 ->
  length (performanceMetrics (this w)) <= 1800 ->
  returns (logSpatialData_each spatial) w (fun inserted w' =>
    length inserted = length spatial
    /\ length (spatialData (this w')) <= 1800
    /\ spatialData (this w') = most_recent 1800 (spatialData (this w) ++ inserted)
    /\ (1800 <= length spatial ->
        spatialData (this w') = most_recent 1800 inserted
        /\ length (spatialData (this w')) = 1800))
  /\ returns (logPerformance_each performance) w (fun inserted w' =>
    length inserted = length performance
    /\ length (performanceMetrics (this w')) <= 1800
    /\ performanceMetrics (this w')
       = most_recent 1800 (performanceMetrics (this w) ++ inserted)
    /\ (1800 <= length performance ->
        performanceMetrics (this w') = most_recent 1800 inserted
        /\ length (performanceMetrics (this w')) = 1800)).
Proof.
  intros Hs Hp. split.
  - eapply returns_mono.
    + apply (logSpatialData_each_spec spatial w (spatialData (this w))).
      by rewrite most_recent_all.
    + intros inserted w' [Hlen Hw']. rewrite Hw'.
      split; [done |]. split; [rewrite most_recent_length; lia |].
      split; [done |]. intros Hfull.
      rewrite most_recent_app by lia. split; [done |].
      rewrite most_recent_length. lia.
  - eapply returns_mono.
    + apply (logPerformance_each_spec performance w (performanceMetrics (this w))).
      by rewrite most_recent_all.
    + intros inserted w' [Hlen Hw']. rewrite Hw'.
      split; [done |]. split; [rewrite most_recent_length; lia |].
      split; [done |]. intros Hfull.
      rewrite most_recent_app by lia. split; [done |].
      rewrite most_recent_length. lia.
Qed.

End BufferClaims.

(** The cap holds after two calls on a fresh collector. *)
Lemma buffers_hold_the_1800_most_recent_witness :
  returns
    (logSpatialData_each (host := desktop) (sink := counting_sink false)
       [a_spatial_call; a_spatial_call])
    fresh (fun _ w' => length (spatialData (this w')) <= 1800).
Proof.
  destruct (buffers_hold_the_1800_most_recent (host := desktop)
              (sink := counting_sink false) fresh
              [a_spatial_call; a_spatial_call] [a_performance_call])
    as [Hspatial _].
  - vm_compute. lia.
  - vm_compute. lia.
  - eapply returns_mono; [exact Hspatial |]. intros inserted w' Hw'. apply Hw'.
Defined.

(** ** The periodic reports *)

Section Reports.
Context {host : Host} {sink : Sink}.

Lemma new_events_app w w' new :
  events (this w') = events (this w) ++ new -> new_events w w' = new.
Proof. unfold new_events. intros ->. apply drop_app_length. Qed.

(** The test of the cadence, [length % period === 0] after the push, on a
    buffer that started empty and has since been cut to 1800: it succeeds
    on the [n]-th call when [n] is a multiple of the period up to 1800, and
    never after, for the length is then 1801 at every test. *)
Lemma cadence_test (period calls : nat) :
  period = 30 \/ period = 300 ->
  ((Nat.min 1800 calls + 1) mod period =? 0)
  = (S calls mod period =? 0) && (S calls <=? 1800).
Proof.
  intros Hperiod. destruct (decide (calls < 1800)) as [Hlt | Hge].
  - replace (Nat.min 1800 calls + 1) with (S calls) by lia.
    replace (S calls <=? 1800) with true by (symmetry; apply Nat.leb_le; lia).
    by rewrite andb_true_r.
  - replace (Nat.min 1800 calls + 1) with 1801 by lia.
    replace (S calls <=? 1800) with false by (symmetry; apply Nat.leb_gt; lia).
    rewrite andb_false_r. by destruct Hperiod as [-> | ->].
Qed.

(** C2, as the code has it.  On a collector whose spatial buffer starts
    empty, the [n]-th call of [logSpatialData] logs a ["spatial_tracking"]
    event (with the last 30 samples and the movement metrics), and nothing
    else, if and only if [n] is a multiple of 30 and [n <= 1800]; from the
    1801st call on it logs nothing.  Likewise the [n]-th call of
    [logPerformance] logs a ["performance_metrics"] event, followed by the
    warnings of its handler, if and only if [n] is a multiple of 300 and
    [n <= 1800]. *)
Theorem reports_stop_at_the_cap
    (w : World) (spatial : list SpatialCall.t) (a : SpatialCall.t)
    (performance : list PerformanceCall.t) (b : PerformanceCall.t) :
  spatialData (this w) = [] ->
  performanceMetrics (this w) = [] ->
  returns (logSpatialData_each spatial) w (fun _ w1 =>
    returns (logSpatialData_call a) w1 (fun _ w2 =>
      let n := S (length spatial) in
      events (this w2) = events (this w1) ++ new_events w1 w2
      /\ new_events w1 w2
         = (if (n mod 30 =? 0) && (n <=? 1800)
            then [spatial_tracking_event w1 a] else [])
      /\ (emitted "spatial_tracking" (new_events w1 w2) = true
          <-> n mod 30 = 0 /\ n <= 1800)))
  /\ returns (logPerformance_each performance) w (fun _ w1 =>
    returns (logPerformance_call b) w1 (fun _ w2 =>
      let n := S (length performance) in
      events (this w2) = events (this w1) ++ new_events w1 w2
      /\ (if (n mod 300 =? 0) && (n <=? 1800)
          then exists warnings,
                 new_events w1 w2 = performance_metrics_event w1 b :: warnings
                 /\ Forall (fun e => get e "eventType" = VStr "performance_warning")
                      warnings
          else new_events w1 w2 = [])
      /\ (emitted "performance_metrics" (new_events w1 w2) = true
          <-> n mod 300 = 0 /\ n <= 1800))).
Proof.
  intros Hs Hp. split.
  - eapply returns_mono; [by apply (logSpatialData_each_spec spatial w []) |].
    intros inserted w1 [Hlen Hw1]. simpl in Hw1.
    eapply returns_mono; [apply logSpatialData_spec |].
    intros [] w2 (new & Hw2 & Hnew). cbv zeta.
    assert (Hev : events (this w2) = events (this w1) ++ new)
      by (by rewrite Hw2).
    rewrite (new_events_app _ _ _ Hev).
    rewrite Hw1, most_recent_length, Hlen, cadence_test in Hnew by auto.
    split; [done |]. split; [done |]. rewrite Hnew.
    destruct (_ && _) eqn:Hc.
    + apply andb_prop in Hc as [Hm Hle].
      apply Nat.eqb_eq in Hm. apply Nat.leb_le in Hle.
      split; [done | intros _]. unfold emitted, existsb, spatial_tracking_event.
      by rewrite new_event_has_type by reaction_type.
    + split; [done |]. intros [Hm Hle].
      apply Nat.eqb_eq in Hm. apply Nat.leb_le in Hle.
      by rewrite Hm, Hle in Hc.
  - eapply returns_mono; [by apply (logPerformance_each_spec performance w []) |].
    intros inserted w1 [Hlen Hw1]. simpl in Hw1.
    eapply returns_mono; [apply logPerformance_spec |].
    intros [] w2 (new & Hw2 & Hnew). cbv zeta.
    assert (Hev : events (this w2) = events (this w1) ++ new)
      by (by rewrite Hw2).
    rewrite (new_events_app _ _ _ Hev).
    rewrite Hw1, most_recent_length, Hlen, cadence_test in Hnew by auto.
    split; [done |]. split; [done |].
    destruct (_ && _) eqn:Hc.
    + apply andb_prop in Hc as [Hm Hle].
      apply Nat.eqb_eq in Hm. apply Nat.leb_le in Hle.
      destruct Hnew as (warnings & -> & _).
      split; [done | intros _]. unfold emitted, existsb, performance_metrics_event.
      by rewrite new_event_has_type by reaction_type.
    + rewrite Hnew. split; [done |]. intros [Hm Hle].
      apply Nat.eqb_eq in Hm. apply Nat.leb_le in Hle.
      by rewrite Hm, Hle in Hc.
Qed.

End Reports.

(** The 1830th call of [logSpatialData] and the 2100th call of
    [logPerformance] on a fresh collector log nothing. *)
Lemma reports_stop_at_the_cap_witness :
  returns
    (logSpatialData_each (host := desktop) (sink := counting_sink false)
       (replicate 1829 a_spatial_call))
    fresh (fun _ w1 =>
      returns (logSpatialData_call (host := desktop) (sink := counting_sink false)
                 a_spatial_call)
        w1 (fun _ w2 => new_events w1 w2 = []))
  /\ returns
    (logPerformance_each (host := desktop) (sink := counting_sink false)
       (replicate 2099 a_performance_call))
    fresh (fun _ w1 =>
      returns (logPerformance_call (host := desktop) (sink := counting_sink false)
                 a_performance_call)
        w1 (fun _ w2 => new_events w1 w2 = [])).
Proof.
  destruct (reports_stop_at_the_cap (host := desktop) (sink := counting_sink false)
              fresh (replicate 1829 a_spatial_call) a_spatial_call
              (replicate 2099 a_performance_call) a_performance_call)
    as [Hspatial Hperformance].
  - reflexivity.
  - reflexivity.
  - split.
    + eapply returns_mono; [exact Hspatial |]. intros inserted w1 H1.
      eapply returns_mono; [exact H1 |]. intros u w2 (_ & Hnew & _).
      rewrite length_replicate in Hnew. exact Hnew.
    + eapply returns_mono; [exact Hperformance |]. intros inserted w1 H1.
      eapply returns_mono; [exact H1 |]. intros u w2 (_ & Hnew & _).
      rewrite length_replicate in Hnew. exact Hnew.
Defined.

(** ** Interactions and the rapid-interaction report *)

Section InteractionLemmas.
Context {host : Host} {sink : Sink}.

(** One call of [logInteraction]: the event is logged and dispatched first,
    the interaction is recorded after. *)
Lemma logInteraction_spec a w :
  returns (logInteraction_call a) w (fun interaction w' =>
    interaction = new_interaction w a
    /\ exists nested,
         this w' =
           set_userInteractions (userInteractions (this w) ++ [interaction])
             (set_events (events (this w) ++ interaction_event w a :: nested)
                (this w))
         /\ reactions_to (this w) (interaction_event w a) nested).
Proof.
  unfold logInteraction_call, logInteraction. steps. wsimpl.
  fold (new_interaction w a).
  eapply returns_mono; [apply logEvent_spec |].
  intros ev w1 (-> & nested & Happ & Hre). steps. wsimpl.
  split; [done |]. exists nested. split; [| exact Hre].
  unfold appended in Happ. rewrite Happ. unfold interaction_event. wsimpl.
  by destruct (this w).
Qed.

Lemma interaction_event_type w a :
  InteractionCall.data a !! "eventType" = None ->
  get (interaction_event w a) "eventType" = VStr "user_interaction".
Proof.
  intros Hd. unfold interaction_event. apply new_event_type.
  unfold new_interaction. rewrite lookup_union_r by done. by simplify_map_eq.
Qed.

(** With fewer than three interactions on record, a call logs its event
    and nothing else. *)
Lemma logInteraction_few a w :
  InteractionCall.data a !! "eventType" = None ->
  length (userInteractions (this w)) < 3 ->
  returns (logInteraction_call a) w (fun _ w' =>
    this w' =
      set_userInteractions (userInteractions (this w) ++ [new_interaction w a])
        (set_events (events (this w) ++ [interaction_event w a]) (this w))).
Proof.
  intros Hd Hfew. eapply returns_mono; [apply logInteraction_spec |].
  intros interaction w' (-> & nested & Hw' & Hre).
  unfold reactions_to in Hre.
  rewrite (has_type_eq _ _ (interaction_event_type w a Hd)) in Hre.
  destruct Hre as [_ Hnone]. by rewrite (Hnone Hfew) in Hw'.
Qed.

(** C3, as the code has it.  [logInteraction] dispatches the event before
    it records the interaction, so the handler sees the interactions of
    the earlier calls only: three calls on a collector with no interaction
    on record log their three ["user_interaction"] events and no
    ["rapid_interaction_detected"] event, whatever their timestamps. *)
Theorem three_interactions_report_nothing (w : World) (a1 a2 a3 : InteractionCall.t) :
  userInteractions (this w) = [] ->
  InteractionCall.data a1 !! "eventType" = None ->
  InteractionCall.data a2 !! "eventType" = None ->
  InteractionCall.data a3 !! "eventType" = None ->
  returns
    (logInteraction_call a1;; logInteraction_call a2;; logInteraction_call a3) w
    (fun _ w' =>
       events (this w') = events (this w) ++ new_events w w'
       /\ length (new_events w w') = 3
       /\ length (userInteractions (this w')) = 3
       /\ emitted "rapid_interaction_detected" (new_events w w') = false).
Proof.
  intros Hw H1 H2 H3. step.
  eapply returns_mono; [apply (logInteraction_few a1 w); [done | rewrite Hw; simpl; lia] |].
  intros i1 w1 Hw1. step.
  eapply returns_mono;
    [apply (logInteraction_few a2 w1); [done | rewrite Hw1, Hw; simpl; lia] |].
  intros i2 w2 Hw2.
  eapply returns_mono;
    [apply (logInteraction_few a3 w2); [done | rewrite Hw2, Hw1, Hw; simpl; lia] |].
  intros i3 w3 Hw3.
  assert (Hev : events (this w3)
                = events (this w)
                  ++ [interaction_event w a1; interaction_event w1 a2;
                      interaction_event w2 a3]).
  { rewrite Hw3, Hw2, Hw1. wsimpl. by rewrite <- !app_assoc. }
  rewrite (new_events_app _ _ _ Hev).
  split; [done |]. split; [done |]. split.
  - rewrite Hw3, Hw2, Hw1, Hw. reflexivity.
  - unfold emitted, existsb.
    rewrite !(has_type_ne "user_interaction" "rapid_interaction_detected")
      by (by apply interaction_event_type || discriminate).
    reflexivity.
Qed.

End InteractionLemmas.

(** Three clicks 30 ms apart on a fresh collector: no report. *)
Lemma three_interactions_report_nothing_witness :
  returns
    (logInteraction_call (host := desktop) (sink := counting_sink false) a_click;;
     logInteraction_call (host := desktop) (sink := counting_sink false) a_click;;
     logInteraction_call (host := desktop) (sink := counting_sink false) a_click)
    fresh
    (fun _ w' => emitted "rapid_interaction_detected" (new_events fresh w') = false).
Proof.
  eapply returns_mono.
  - apply (three_interactions_report_nothing (host := desktop)
             (sink := counting_sink false) fresh a_click a_click a_click);
      reflexivity.
  - intros u w' Hw'. apply Hw'.
Defined.

(** Three clicks log three events; the fourth call is the first to see
    three interactions on record and to report. *)
Example fourth_interaction_reports :
  let click := logInteraction_call (host := desktop) (sink := counting_sink false) a_click in
  (fun e => get e "eventType")
    <$> new_events fresh (after (click;; click;; click) fresh)
  = [VStr "user_interaction"; VStr "user_interaction"; VStr "user_interaction"]
  /\ (fun e => get e "eventType")
       <$> new_events fresh (after (click;; click;; click;; click) fresh)
     = [VStr "user_interaction"; VStr "user_interaction"; VStr "user_interaction";
        VStr "user_interaction"; VStr "rapid_interaction_detected"].
Proof. split; vm_compute; reflexivity. Qed.

(** ** The VR mode *)

Lemma Qzero_false (t : Q) : (0 < t)%Q -> Qzero t = false.
Proof.
  intros Ht. unfold Qzero. destruct (Qeq_bool t 0) eqn:Heq; [| reflexivity].
  apply Qeq_bool_iff in Heq. rewrite Heq in Ht. by apply Qlt_irrefl in Ht.
Qed.

Section VRMode.
Context {host : Host} {sink : Sink}.

(** One call of [setVRMode]: the flag is set, the change is logged, and the
    VR-start timestamp is written when [isVR] holds and the stored value is
    missing or falsy (zero); the time written is a reading of the clock. *)
Lemma setVRMode_spec isVR w :
  returns (setVRMode isVR) w (fun _ w' =>
    isVRMode (this w') = isVR
    /\ SessionData.vrCapable (sessionData (this w')) = true
    /\ (exists new, events (this w') = events (this w) ++ new)
    /\ vrSessionStart w' =
         if isVR && match vrSessionStart w with
                    | Some s => Qzero s
                    | None => true
                    end
         then Some (performance_now (pred (clock w'))) else vrSessionStart w).
Proof.
  unfold setVRMode, vrSessionStart. steps. wsimpl.
  eapply returns_mono; [apply logEvent_spec |].
  intros ev w1 (-> & nested & Happ & _). steps. wsimpl.
  unfold appended in Happ. rewrite Happ. wsimpl.
  destruct (isVR && _); steps; wsimpl; rewrite ?Happ; wsimpl; eauto 10.
Qed.

Hypothesis clock_after_origin : forall n, (0 < performance_now n)%Q.

Lemma setVRMode_stamp_after_origin isVR w :
  stamp_after_origin w ->
  returns (setVRMode isVR) w (fun _ w' => stamp_after_origin w').
Proof.
  intros Hw. eapply returns_mono; [apply setVRMode_spec |].
  intros [] w' (_ & _ & _ & Hstamp). unfold stamp_after_origin in *.
  rewrite Hstamp. destruct (isVR && _); [apply clock_after_origin | exact Hw].
Qed.

(** C8.  With a clock that reads positive times: a stored VR-start
    timestamp is never changed by [setVRMode]; [setVRMode(false)] never
    writes one; and after [setVRMode(true)] a timestamp is stored that a
    second [setVRMode(true)] leaves as it is. *)
Theorem vr_start_is_stamped_once (w : World) :
  stamp_after_origin w ->
  (forall t isVR,
     vrSessionStart w = Some t ->
     returns (setVRMode isVR) w (fun _ w' => vrSessionStart w' = Some t))
  /\ returns (setVRMode false) w (fun _ w' => vrSessionStart w' = vrSessionStart w)
  /\ returns (setVRMode true) w (fun _ w1 =>
       exists t, vrSessionStart w1 = Some t
         /\ (vrSessionStart w = None -> t = performance_now (pred (clock w1)))
         /\ returns (setVRMode true) w1 (fun _ w2 => vrSessionStart w2 = Some t)).
Proof.
  intros Hw.
  assert (Hkeep : forall w0 t isVR,
    stamp_after_origin w0 -> vrSessionStart w0 = Some t ->
    returns (setVRMode isVR) w0 (fun _ w' => vrSessionStart w' = Some t)).
  { intros w0 t isVR Hw0 Ht. eapply returns_mono; [apply setVRMode_spec |].
    intros [] w' (_ & _ & _ & Hstamp). unfold stamp_after_origin in Hw0.
    rewrite Ht in Hw0, Hstamp. rewrite (Qzero_false t Hw0) in Hstamp.
    by rewrite andb_false_r in Hstamp. }
  split; [| split].
  - intros t isVR Ht. by apply Hkeep.
  - eapply returns_mono; [apply setVRMode_spec |].
    by intros [] w' (_ & _ & _ & Hstamp).
  - pose proof (setVRMode_stamp_after_origin true w Hw) as Hafter.
    destruct (setVRMode_spec true w) as ([] & w1 & Hrun & _ & _ & _ & Hstamp).
    exists tt, w1. split; [exact Hrun |].
    pose proof (returns_inv _ _ _ _ _ Hafter Hrun) as Hw1.
    assert (Hsome : exists t, vrSessionStart w1 = Some t
                      /\ (vrSessionStart w = None
                          -> t = performance_now (pred (clock w1)))).
    { rewrite Hstamp. simpl. destruct (vrSessionStart w) as [s |] eqn:Hs.
      - destruct (Qzero s); eexists; (split; [reflexivity | done]).
      - eexists; split; [reflexivity | done]. }
    destruct Hsome as (t & Ht & Hfirst). exists t.
    split; [exact Ht |]. split; [exact Hfirst |]. by apply Hkeep.
Qed.

End VRMode.

(** On a fresh collector of the desktop host, entering VR twice keeps the
    timestamp of the first entry. *)
Lemma vr_start_is_stamped_once_witness :
  returns (setVRMode (host := desktop) (sink := counting_sink false) true) fresh
    (fun _ w1 =>
       exists t, vrSessionStart w1 = Some t
         /\ returns (setVRMode (host := desktop) (sink := counting_sink false) true) w1
              (fun _ w2 => vrSessionStart w2 = Some t)).
Proof.
  assert (Hclock : forall n, (0 < performance_now (Host := desktop) n)%Q).
  { intros n. unfold performance_now, desktop, Qlt. simpl. lia. }
  destruct (vr_start_is_stamped_once (host := desktop) (sink := counting_sink false)
              Hclock fresh) as (_ & _ & Htwice).
  - vm_compute. exact I.
  - eapply returns_mono; [exact Htwice |].
    intros u w1 (t & Ht & _ & Hsecond). by exists t.
Defined.

(** ** The durable sink *)

Lemma agree_ret {A} (a : A) : agree (mret a) (mret a).
Proof. intros w1 w2 Hw. by split. Qed.

Lemma agree_bind {A B} (m1 m2 : M A) (f1 f2 : A -> M B) :
  agree m1 m2 -> (forall a, agree (f1 a) (f2 a)) -> agree (m1 ≫= f1) (m2 ≫= f2).
Proof.
  intros Hm Hf w1 w2 Hw. unfold mbind, M_bind. specialize (Hm w1 w2 Hw).
  destruct (m1 w1) as [[a1 w1'] |], (m2 w2) as [[a2 w2'] |]; try done.
  destruct Hm as [-> Hw']. by apply Hf.
Qed.

Lemma agree_get_this : agree get_this get_this.
Proof. intros w1 w2 Hw. split; [apply Hw | exact Hw]. Qed.

Lemma agree_modify_this f : agree (modify_this f) (modify_this f).
Proof.
  intros w1 w2 [Hthis Hclock]. split; [done |]. split; simpl; congruence.
Qed.

Lemma agree_now `{Host} : agree now now.
Proof.
  intros w1 w2 [Hthis Hclock]. unfold now. rewrite Hclock.
  split; [done |]. split; simpl; congruence.
Qed.

Section SinkIndependence.
Context {host : Host} (S1 S2 : Sink).

(** Whether the sink stores the event or raises, [persistEvent] returns,
    and the collector is not touched. *)
Lemma agree_persistEvent event :
  agree (persistEvent (sink := S1) event) (persistEvent (sink := S2) event).
Proof.
  intros w1 w2 [Hthis Hclock]. unfold persistEvent, console_warn.
  destruct (persist_attempt _ _), (persist_attempt _ _); by split.
Qed.

Ltac agree_steps :=
  repeat first
    [ apply agree_ret | apply agree_get_this | apply agree_now
    | apply agree_modify_this | apply agree_persistEvent
    | apply agree_bind; [| intros ?]
    | match goal with
      | |- agree (if ?b then _ else _) (if ?b then _ else _) => destruct b
      end ].

Lemma agree_processEventRealTime (le1 le2 : string -> Obj -> M Obj) event :
  (forall ty data, agree (le1 ty data) (le2 ty data)) ->
  agree (processEventRealTime le1 event) (processEventRealTime le2 event).
Proof.
  intros Hle.
  unfold processEventRealTime, processInteractionEvent, processPerformanceEvent,
    processVRModeChange.
  agree_steps; apply Hle.
Qed.

Lemma agree_logEvent_depth fuel ty data :
  agree (logEvent_depth (sink := S1) fuel ty data)
        (logEvent_depth (sink := S2) fuel ty data).
Proof.
  revert ty data. induction fuel as [| fuel IH]; intros ty data.
  - by intros w1 w2 Hw.
  - simpl. unfold logEvent_body. agree_steps.
    by apply agree_processEventRealTime.
Qed.

End SinkIndependence.

Section Persistence.
Context {host : Host} {sink : Sink}.

(** C9.  A failure of the sink is not propagated.  When the body of the
    [try] block raises, [persistEvent] returns normally, having touched
    neither the collector nor the store, and having warned once.  And
    [logEvent], for an event type of the allow-list, returns the event it
    built and has appended it to the event log, with the same result and
    the same collector whatever the sink does: under any other sink and
    any other content of the store, in particular one where persistence
    succeeds. *)
Theorem logEvent_swallows_sink_failures (eventType : string) (data : Obj) (w : World) :
  isImportantEvent eventType = true ->
  (forall event w0,
     persist_attempt (localStorage w0) event = None ->
     persistEvent event w0 = Some (tt, set_warnings (S (warnings w0)) w0))
  /\ exists event w',
       logEvent eventType data w = Some (event, w')
       /\ event = new_event w eventType data
       /\ (exists nested,
             events (this w') = events (this w) ++ event :: nested)
       /\ forall (other : Sink) (w0 : World),
            same_collector w0 w ->
            exists w0',
              logEvent (sink := other) eventType data w0 = Some (event, w0')
              /\ same_collector w0' w'.
Proof.
  intros Himportant. split.
  - intros event w0 Hraise. unfold persistEvent. by rewrite Hraise.
  - destruct (logEvent_spec eventType data w)
      as (event & w' & Hrun & -> & nested & Happ & _).
    exists (new_event w eventType data), w'.
    split; [exact Hrun |]. split; [reflexivity |]. split.
    + exists nested. by rewrite Happ.
    + intros other w0 Hsame.
      pose proof (agree_logEvent_depth other sink 2 eventType data w0 w Hsame)
        as Hagree.
      unfold logEvent in *. rewrite Hrun in Hagree.
      destruct (logEvent_depth (sink := other) 2 eventType data w0)
        as [[ev w0'] |]; [| done].
      destruct Hagree as [-> Hsame']. by exists w0'.
Qed.

End Persistence.

(** With a full store, logging a session start on a fresh collector
    returns, and the event and the collector are those of the same call
    with a working store. *)
Lemma logEvent_swallows_sink_failures_witness :
  exists event w',
    logEvent (host := desktop) (sink := counting_sink true) "session_start" ∅ fresh
    = Some (event, w')
    /\ exists w0',
         logEvent (host := desktop) (sink := counting_sink false) "session_start" ∅ fresh
         = Some (event, w0')
         /\ this w0' = this w'.
Proof.
  destruct (logEvent_swallows_sink_failures (host := desktop)
              (sink := counting_sink true) "session_start" ∅ fresh)
    as (_ & event & w' & Hrun & _ & _ & Hother).
  - reflexivity.
  - exists event, w'. split; [exact Hrun |].
    destruct (Hother (counting_sink false) fresh) as (w0' & Hrun0 & Hsame & _).
    + by split.
    + exists w0'. by split.
Defined.

(** ** The VR flag of the session summary *)

Section VRFlag.
Context {host : Host} {sink : Sink}.

Lemma new_event_has_type_of w ty data ty' :
  has_type ty' (new_event w ty data) = strict_eq_str (event_type_of ty data) ty'.
Proof.
  unfold has_type, get, new_event, event_type_of.
  destruct (data !! "eventType") as [v |] eqn:Hd.
  - by rewrite (lookup_union_Some_l _ _ _ _ Hd).
  - rewrite lookup_union_r by done. by simplify_map_eq.
Qed.

Lemma emitted_app ty l1 l2 : emitted ty (l1 ++ l2) = emitted ty l1 || emitted ty l2.
Proof. apply existsb_app. Qed.

(** No reaction of a handler is a ["vr_session_start"] event. *)
Lemma reactions_not_vr_session_start c event nested :
  reactions_to c event nested -> emitted "vr_session_start" nested = false.
Proof.
  intros Hre. apply reactions_to_types in Hre.
  induction Hre as [| e l (ty & He & Hty) _ IH]; [reflexivity |].
  simpl. rewrite IH, orb_false_r.
  apply (has_type_ne _ _ _ He). unfold reaction_types in Hty.
  repeat (apply elem_of_cons in Hty as [-> | Hty]; [discriminate |]).
  by apply elem_of_nil in Hty.
Qed.

Lemma warnings_not_vr_session_start (l : list Obj) :
  Forall (fun e => get e "eventType" = VStr "performance_warning") l ->
  emitted "vr_session_start" l = false.
Proof.
  induction 1 as [| e l He _ IH]; [reflexivity |].
  simpl. rewrite IH, orb_false_r. by apply (has_type_ne _ _ _ He).
Qed.

(** What one call adds to the event log, as far as ["vr_session_start"]
    goes. *)
Lemma call_spec c w :
  returns (call c) w (fun _ w' =>
    exists new,
      events (this w') = events (this w) ++ new
      /\ emitted "vr_session_start" new = logs_vr_session_start c).
Proof.
  destruct c as [ty data | a | a | a | isVR]; simpl.
  - step. eapply returns_mono; [apply logEvent_spec |].
    intros ev w' (-> & nested & Happ & Hre). step.
    exists (new_event w ty data :: nested). split; [by rewrite Happ |].
    simpl. rewrite (reactions_not_vr_session_start _ _ _ Hre), orb_false_r.
    apply new_event_has_type_of.
  - step. eapply returns_mono; [apply logInteraction_spec |].
    intros i w' (-> & nested & Hw' & Hre). step.
    exists (interaction_event w a :: nested). split; [by rewrite Hw' |].
    simpl. rewrite (reactions_not_vr_session_start _ _ _ Hre), orb_false_r.
    unfold interaction_event. rewrite new_event_has_type_of.
    f_equal. unfold event_type_of, new_interaction.
    destruct (InteractionCall.data a !! "eventType") as [v |] eqn:Hd.
    + by rewrite (lookup_union_Some_l _ _ _ _ Hd).
    + rewrite lookup_union_r by done. by simplify_map_eq.
  - eapply returns_mono; [apply logSpatialData_spec |].
    intros [] w' (new & Hw' & Hnew). exists new. split; [by rewrite Hw' |].
    rewrite Hnew. destruct (_ =? 0); [| reflexivity].
    simpl. unfold spatial_tracking_event.
    by rewrite new_event_has_type by reaction_type.
  - eapply returns_mono; [apply logPerformance_spec |].
    intros [] w' (new & Hw' & Hnew). exists new. split; [by rewrite Hw' |].
    destruct (_ =? 0); [| by rewrite Hnew].
    destruct Hnew as (warnings & -> & Hwarn). simpl.
    rewrite (warnings_not_vr_session_start _ Hwarn).
    unfold performance_metrics_event.
    by rewrite new_event_has_type by reaction_type.
  - unfold setVRMode. steps. wsimpl.
    eapply returns_mono; [apply logEvent_spec |].
    intros ev w1 (-> & nested & Happ & Hre). steps. wsimpl.
    unfold appended in Happ.
    assert (Hfin : forall w2, events (this w2) = events (this w1) ->
      exists new, events (this w2) = events (this w) ++ new
        /\ emitted "vr_session_start" new = false).
    { intros w2 Hw2. eexists. split; [rewrite Hw2, Happ; reflexivity |].
      simpl. rewrite (reactions_not_vr_session_start _ _ _ Hre), orb_false_r.
      by rewrite new_event_has_type by reaction_type. }
    destruct (isVR && _); steps; by apply Hfin.
Qed.

Lemma calls_spec l : forall w,
  returns (calls l) w (fun _ w' =>
    exists new,
      events (this w') = events (this w) ++ new
      /\ emitted "vr_session_start" new = existsb logs_vr_session_start l).
Proof.
  induction l as [| c rest IH]; intros w; simpl.
  - steps. exists []. by rewrite app_nil_r.
  - step. eapply returns_mono; [apply call_spec |].
    intros [] w1 (new1 & Hev1 & Hnew1).
    eapply returns_mono; [apply IH |].
    intros [] w2 (new2 & Hev2 & Hnew2). exists (new1 ++ new2).
    split; [by rewrite Hev2, Hev1, app_assoc |].
    by rewrite emitted_app, Hnew1, Hnew2.
Qed.

(** C10, amended.  After any sequence of calls, the [vrModeUsed] flag of
    the session summary tells whether the event log holds an event whose
    [eventType] is ["vr_session_start"]: it is set when it was set before,
    or when some call of the sequence is a [logEvent] or a [logInteraction]
    that logs an event of that type.  [setVRMode], [logSpatialData] and
    [logPerformance] never do; [logInteraction] does only when its extra
    fields set [eventType] to ["vr_session_start"].  So the flag stays as
    it was under every sequence of [own_call]s. *)
Theorem vrModeUsed_needs_a_logged_vr_session_start (w : World) (l : list Call) :
  returns (calls l) w (fun _ w' =>
    returns getSessionSummary w' (fun summary _ =>
      Summary.vrModeUsed summary
      = emitted "vr_session_start" (events (this w))
        || existsb logs_vr_session_start l))
  /\ (Forall own_call l -> existsb logs_vr_session_start l = false).
Proof.
  split.
  - eapply returns_mono; [apply calls_spec |].
    intros [] w' (new & Hev & Hnew). unfold getSessionSummary. steps. wsimpl.
    cbn [Summary.vrModeUsed].
    change (existsb _ (events (this w')))
      with (emitted "vr_session_start" (events (this w'))).
    by rewrite Hev, emitted_app, Hnew.
  - induction 1 as [| c rest Hc _ IH]; [reflexivity |].
    simpl. rewrite IH, orb_false_r.
    destruct c as [ty data | a | a | a | isVR]; try done. simpl in *.
    unfold event_type_of. destruct (InteractionCall.data a !! "eventType")
      as [[| | | | s | |] |]; try reflexivity.
    simpl. apply String.eqb_neq. congruence.
Qed.

End VRFlag.

(** C10 as stated fails: one [logInteraction] whose extra fields carry
    [eventType: "vr_session_start"], and no call of [logEvent] by the
    caller, sets the flag on a fresh collector. *)
Lemma vrModeUsed_set_through_logInteraction :
  let sneaky :=
    {| InteractionCall.interactionType := VStr "click";
       InteractionCall.target := VStr "bar_3";
       InteractionCall.position := VNull;
       InteractionCall.data := {[ "eventType" := VStr "vr_session_start" ]} |} in
  Summary.vrModeUsed <$>
    (fst <$> (calls (host := desktop) (sink := counting_sink false)
                [CallSetVRMode true; CallLogInteraction sneaky];;
              getSessionSummary (host := desktop)) fresh)
  = Some true.
Proof. vm_compute. reflexivity. Qed.

(** ** The engagement score *)

(** Divisions by numerals become multiplications, for [lra]. *)
Ltac qconst :=
  unfold Qdiv in *;
  repeat match goal with
  | |- context [Qinv (Qmake ?n ?d)] =>
      let v := eval vm_compute in (Qinv (Qmake n d)) in
      change (Qinv (Qmake n d)) with v
  | H : context [Qinv (Qmake ?n ?d)] |- _ =>
      let v := eval vm_compute in (Qinv (Qmake n d)) in
      change (Qinv (Qmake n d)) with v in H
  end.

Lemma Qltb_true (a b : Q) : Qltb a b = true <-> (a < b)%Q.
Proof.
  unfold Qltb. destruct (Qlt_le_dec a b) as [Hlt | Hle]; split; try done.
  intros Hlt. by apply Qle_not_lt in Hle.
Qed.

Lemma Qltb_false (a b : Q) : Qltb a b = false <-> (b <= a)%Q.
Proof.
  unfold Qltb. destruct (Qlt_le_dec a b) as [Hlt | Hle]; split; try done.
  intros Hle. by apply Qle_not_lt in Hle.
Qed.

Lemma Qltb_comp (a a' b b' : Q) : (a == a')%Q -> (b == b')%Q -> Qltb a b = Qltb a' b'.
Proof.
  intros Ha Hb. destruct (Qltb a' b') eqn:Hlt.
  - apply Qltb_true. apply Qltb_true in Hlt. by rewrite Ha, Hb.
  - apply Qltb_false. apply Qltb_false in Hlt. by rewrite Ha, Hb.
Qed.

Lemma Math_round_comp (a b : Q) : (a == b)%Q -> Math_round a = Math_round b.
Proof. intros Hab. unfold Math_round. apply Qfloor_comp. by rewrite Hab. Qed.

Lemma Math_round_le (a b : Q) : (a <= b)%Q -> (Math_round a <= Math_round b)%Z.
Proof. intros Hab. unfold Math_round. apply Qfloor_resp_le. lra. Qed.

Lemma Math_round_Z (n : Z) : Math_round (inject_Z n) = n.
Proof.
  unfold Math_round, Qfloor, Qplus, inject_Z. simpl.
  symmetry. apply (Z.div_unique _ _ _ 1); lia.
Qed.

(** [Math.round] is within one half of its argument. *)
Lemma Math_round_near (y : Q) :
  (y - (1 # 2) < inject_Z (Math_round y) <= y + (1 # 2))%Q.
Proof.
  unfold Math_round. split.
  - pose proof (Qlt_floor (y + (1 # 2))) as Hlt.
    rewrite inject_Z_plus in Hlt. change (inject_Z 1) with 1%Q in Hlt. lra.
  - apply Qfloor_le.
Qed.

(** Rounding to [1/scale] moves a number by [1/(2 scale)] at most. *)
Lemma round_to_near (scale : positive) (x : Q) :
  (x - (1 # (2 * scale)) < round_to (Z.pos scale) x <= x + (1 # (2 * scale)))%Q.
Proof.
  unfold round_to.
  pose proof (Math_round_near (x * inject_Z (Z.pos scale))) as [Hlo Hhi].
  set (r := inject_Z (Math_round (x * inject_Z (Z.pos scale)))) in *.
  assert (Hs : (0 < inject_Z (Z.pos scale))%Q) by (unfold Qlt; simpl; lia).
  assert (Hhalf : ((1 # (2 * scale)) * inject_Z (Z.pos scale) == 1 # 2)%Q)
    by (unfold Qeq, inject_Z; simpl; lia).
  split.
  - apply Qlt_shift_div_l; [exact Hs |]. nra.
  - apply Qle_shift_div_r; [exact Hs |]. nra.
Qed.










Section Engagement.
Context {host : Host} {sink : Sink}.

(** The method reads the clock once and computes the formula. *)
Lemma calculateEngagementScore_formula (w : World) :
  calculateEngagementScore w
  = Some (engagement_score_formula (durationSeconds w)
            (length (userInteractions (this w)))
            (emitted "vr_session_start" (events (this w)))
            (calculateAverageFPS (this w)),
          set_clock (S (clock w)) w).
Proof. reflexivity. Qed.


(** C5.  On a session with no time elapsed, no interaction, no
    ["vr_session_start"] event and no performance sample (average fps 0)
    the score is 5; on a session of 300 seconds or more, with 50
    interactions or more, a ["vr_session_start"] event in the log and an
    average fps above 45, it is 100. *)
Theorem engagement_score_floor_and_ceiling (w : World) :
  ((performance_now (clock w) == startTime (this w))%Q ->
   userInteractions (this w) = [] ->
   emitted "vr_session_start" (events (this w)) = false ->
   performanceMetrics (this w) = [] ->
   calculateAverageFPS (this w) = 0%Q
   /\ returns calculateEngagementScore w (fun score _ => score = 5%Z))
  /\ ((300 <= durationSeconds w)%Q ->
      50 <= length (userInteractions (this w)) ->
      emitted "vr_session_start" (events (this w)) = true ->
      (45 < calculateAverageFPS (this w))%Q ->
      returns calculateEngagementScore w (fun score _ => score = 100%Z)).
Proof.
  split.
  - intros Hnow Hi Hvr Hp.
    assert (Hfps : calculateAverageFPS (this w) = 0%Q)
      by (unfold calculateAverageFPS; by rewrite Hp).
    split; [exact Hfps |].
    eexists _, _. split; [apply calculateEngagementScore_formula |].
    unfold engagement_score_formula, durationSeconds.
    rewrite Hi, Hvr, Hfps. simpl length.
    rewrite (Math_round_comp _ (inject_Z 5)); [apply Math_round_Z |].
    rewrite (Q.min_l (_ / 300) 1) by (qconst; lra).
    rewrite (Q.min_l (inject_Z (Z.of_nat 0) / 50) 1) by (vm_compute; discriminate).
    change (Qltb 45 0) with false. change (Qltb 30 0) with false.
    change (inject_Z (Z.of_nat 0)) with 0%Q. change (inject_Z 5) with 5%Q.
    qconst. lra.
  - intros Hd Hi Hvr Hfps.
    eexists _, _. split; [apply calculateEngagementScore_formula |].
    unfold engagement_score_formula.
    rewrite Hvr. apply Qltb_true in Hfps. rewrite Hfps.
    rewrite (Math_round_comp _ (inject_Z 100)); [apply Math_round_Z |].
    unfold durationSeconds in *.
    rewrite (Q.min_r (_ / 300) 1) by (qconst; lra).
    rewrite (Q.min_r (inject_Z _ / 50) 1).
    + change (inject_Z 100) with 100%Q. lra.
    + assert (50 <= inject_Z (Z.of_nat (length (userInteractions (this w)))))%Q
        by (change 50%Q with (inject_Z 50); rewrite <- Zle_Qle; lia).
      qconst; lra.
Qed.

End Engagement.



(** A collector that read the clock at the same time as its start scores
    5, and the busy session scores 100. *)
Lemma engagement_score_floor_and_ceiling_witness :
  returns (calculateEngagementScore (host := desktop))
    (set_clock 0 fresh) (fun score _ => score = 5%Z)
  /\ returns (calculateEngagementScore (host := desktop)) busy
       (fun score _ => score = 100%Z).
Proof.
  split.
  - apply (engagement_score_floor_and_ceiling (host := desktop) (set_clock 0 fresh));
      reflexivity.
  - apply (engagement_score_floor_and_ceiling (host := desktop) busy).
    + vm_compute. discriminate.
    + vm_compute. lia.
    + reflexivity.
    + reflexivity.
Defined.

(** ** The performance trend *)

Lemma sum_by_foldl {A} (f : A -> Q) (l : list A) :
  sum_by f l = foldl Qplus 0%Q (f <$> l).
Proof.
  unfold sum_by. generalize 0%Q. induction l as [| a l IH]; intros acc; simpl.
  - reflexivity.
  - apply IH.
Qed.

Lemma Array_slice_fmap {A B} (f : A -> B) (l : list A) start end_ :
  Array_slice (f <$> l) start end_ = f <$> Array_slice l start end_.
Proof. unfold Array_slice. by rewrite length_fmap, fmap_take, fmap_drop. Qed.

Lemma getPerformanceTrend_fps (c : AnalyticsCollector) :
  getPerformanceTrend c = trend_of_fps (fps_of c).
Proof.
  unfold getPerformanceTrend, trend_of_fps, fps_of. rewrite length_fmap.
  destruct (length (performanceMetrics c) <? 120) eqn:Hlen; [reflexivity |].
  apply Nat.ltb_ge in Hlen.
  rewrite !sum_by_foldl, <- !Array_slice_fmap.
  rewrite <- !(length_fmap PerformanceData.fps (Array_slice _ _ _)).
  rewrite <- !Array_slice_fmap.
  change (-60)%Z with (- Z.of_nat 60)%Z.
  change (-120)%Z with (- Z.of_nat (60 + 60))%Z.
  rewrite Array_slice_last by lia.
  rewrite Array_slice_block by (rewrite ?length_fmap; lia).
  reflexivity.
Qed.




(** When the older window averages to zero the division is by zero: the
    change is an infinity with the sign of the recent mean, or NaN when
    both means are zero. *)
Lemma performance_trend_from_zero (l : list Q) :
  120 <= length l ->
  let recentAvg := mean (most_recent 60 l) in
  (mean (take 60 (most_recent 120 l)) == 0)%Q ->
  trend_of_fps l =
    if Qltb 0 recentAvg then "improving"
    else if Qltb recentAvg 0 then "degrading"
    else "stable".
Proof.
  intros Hlen recentAvg Holder. unfold trend_of_fps.
  replace (length l <? 120) with false by (symmetry; apply Nat.ltb_ge; lia).
  fold recentAvg. set (olderAvg := mean (take 60 (most_recent 120 l))) in *.
  unfold Num_div, Qzero.
  rewrite (proj2 (Qeq_bool_iff olderAvg 0) Holder).
  assert (Hdiff : (recentAvg - olderAvg == recentAvg)%Q) by lra.
  destruct (Qeq_bool (recentAvg - olderAvg) 0) eqn:Hz.
  - apply Qeq_bool_iff in Hz. simpl.
    replace (Qltb 0 recentAvg) with false by (symmetry; apply Qltb_false; lra).
    by replace (Qltb recentAvg 0) with false by (symmetry; apply Qltb_false; lra).
  - apply Qeq_bool_neq in Hz. unfold Qneg.
    destruct (Qlt_le_dec (recentAvg - olderAvg) 0) as [Hneg | Hpos]; simpl.
    + replace (Qltb 0 recentAvg) with false by (symmetry; apply Qltb_false; lra).
      by replace (Qltb recentAvg 0) with true by (symmetry; apply Qltb_true; lra).
    + by replace (Qltb 0 recentAvg) with true by (symmetry; apply Qltb_true; lra).
Qed.


(** ** The movement metrics *)


Lemma round_to_comp (scale : Z) (a b : Q) :
  (a == b)%Q -> round_to scale a = round_to scale b.
Proof.
  intros Hab. unfold round_to. f_equal. f_equal.
  apply Math_round_comp. by rewrite Hab.
Qed.



(** The thresholds of [classifyMovementIntensity]. *)
Lemma classifyMovementIntensity_thresholds (v : Q) :
  ((v < 1 # 10)%Q -> classifyMovementIntensity v = "stationary")
  /\ ((1 # 10 <= v < 1 # 2)%Q -> classifyMovementIntensity v = "slow")
  /\ ((1 # 2 <= v < 1)%Q -> classifyMovementIntensity v = "moderate")
  /\ ((1 <= v < 2)%Q -> classifyMovementIntensity v = "active")
  /\ ((2 <= v)%Q -> classifyMovementIntensity v = "rapid").
Proof.
  unfold classifyMovementIntensity.
  destruct (Qltb v (1 # 10)) eqn:H1; [apply Qltb_true in H1 | apply Qltb_false in H1];
  (destruct (Qltb v (1 # 2)) eqn:H2; [apply Qltb_true in H2 | apply Qltb_false in H2]);
  (destruct (Qltb v 1) eqn:H3; [apply Qltb_true in H3 | apply Qltb_false in H3]);
  (destruct (Qltb v 2) eqn:H4; [apply Qltb_true in H4 | apply Qltb_false in H4]);
  repeat split; intros; try reflexivity; lra.
Qed.

Section MovementLemmas.
Context {host : Host}.

(** The [for] loop visits the consecutive pairs of the window, in order. *)
Lemma movement_loop (rest pre : list SpatialEvent.t) (a : SpatialEvent.t) (acc : Q * Q) :
  foldl (movement_step (pre ++ a :: rest)) acc (seq (S (length pre)) (length rest))
  = foldl (fun acc s => ((acc.1 + step_distance s)%Q, Qmax acc.2 (step_velocity s)))
      acc (zip (a :: rest) rest).
Proof.
  revert pre a acc. induction rest as [| b rest IH]; intros pre a acc.
  - reflexivity.
  - change (zip (a :: b :: rest) (b :: rest))
      with ((a, b) :: zip (b :: rest) rest).
    cbn [length seq foldl].
    replace (pre ++ a :: b :: rest) with ((pre ++ [a]) ++ b :: rest)
      by (by rewrite <- app_assoc).
    replace (S (S (length pre))) with (S (length (pre ++ [a])))
      by (rewrite length_app; simpl; lia).
    rewrite (IH (pre ++ [a]) b). f_equal.
    unfold movement_step.
    replace (S (length pre) - 1) with (length pre) by lia.
    rewrite <- app_assoc. cbn [app].
    rewrite (list_lookup_middle pre (b :: rest) a (length pre)) by done.
    replace (pre ++ a :: b :: rest) with ((pre ++ [a]) ++ b :: rest)
      by (by rewrite <- app_assoc).
    rewrite (list_lookup_middle (pre ++ [a]) rest b (S (length pre)))
      by (rewrite length_app; simpl; lia).
    reflexivity.
Qed.

Lemma movement_fold_split (pairs : list (SpatialEvent.t * SpatialEvent.t)) (acc : Q * Q) :
  foldl (fun acc s => ((acc.1 + step_distance s)%Q, Qmax acc.2 (step_velocity s)))
    acc pairs
  = (foldl Qplus acc.1 (step_distance <$> pairs),
     foldl Qmax acc.2 (step_velocity <$> pairs)).
Proof.
  revert acc. induction pairs as [| s pairs IH]; intros [t m]; simpl.
  - reflexivity.
  - by rewrite IH.
Qed.

(** [calculateMovementMetrics] on two samples or more. *)
Lemma calculateMovementMetrics_some (c : AnalyticsCollector) :
  2 <= length (spatialData c) ->
  let recent := most_recent 30 (spatialData c) in
  calculateMovementMetrics c =
    Some {| MovementMetrics.totalDistance := round_to 1000 (total_distance recent);
            MovementMetrics.averageVelocity :=
              round_to 1000
                (total_distance recent / inject_Z (Z.of_nat (length recent) - 1));
            MovementMetrics.maxVelocity := round_to 1000 (peak_velocity recent);
            MovementMetrics.movementIntensity :=
              classifyMovementIntensity (peak_velocity recent) |}.
Proof.
  intros Hlen recent. unfold calculateMovementMetrics.
  replace (length (spatialData c) <? 2) with false
    by (symmetry; apply Nat.ltb_ge; lia).
  change (-30)%Z with (- Z.of_nat 30)%Z. rewrite Array_slice_last by lia.
  fold (most_recent 30 (spatialData c)). fold recent.
  assert (Hrecent : 2 <= length recent)
    by (subst recent; rewrite most_recent_length; lia).
  destruct recent as [| a rest] eqn:Heq; [simpl in Hrecent; lia |].
  replace (seq 1 (length (a :: rest) - 1))
    with (seq (S (length (@nil SpatialEvent.t))) (length rest))
    by (simpl; by rewrite Nat.sub_0_r).
  rewrite (movement_loop rest [] a), movement_fold_split.
  reflexivity.
Qed.


End MovementLemmas.



(** * Further properties of the collector *)

(** ** Rounding at insertion *)

(** A rounded number is a fixed point of the rounding. *)
Lemma round_to_idempotent (scale : positive) (x : Q) :
  round_to (Z.pos scale) (round_to (Z.pos scale) x) = round_to (Z.pos scale) x.
Proof.
  unfold round_to at 1 3. f_equal. f_equal.
  rewrite (Math_round_comp _ (inject_Z (Math_round (x * inject_Z (Z.pos scale))))).
  - apply Math_round_Z.
  - unfold round_to. field. unfold Qeq, inject_Z. simpl. lia.
Qed.


Lemma most_recent_last {A} (n : nat) (l : list A) (a : A) :
  0 < n -> last (most_recent n (l ++ [a])) = Some a.
Proof.
  intros Hn. unfold most_recent. rewrite length_app. simpl length.
  rewrite drop_app_le by lia. apply last_snoc.
Qed.

Section Rounding.
Context {host : Host} {sink : Sink}.


End Rounding.

(** ** The rolling averages *)

Lemma foldl_Qplus_bounds (lo hi : Q) (l : list Q) : forall acc : Q,
  Forall (fun v => (lo <= v <= hi)%Q) l ->
  (acc + inject_Z (Z.of_nat (length l)) * lo <= foldl Qplus acc l
   <= acc + inject_Z (Z.of_nat (length l)) * hi)%Q.
Proof.
  induction l as [| v l IH]; intros acc Hall.
  - cbn [foldl length]. change (inject_Z (Z.of_nat 0)) with 0%Q. lra.
  - apply Forall_cons in Hall as [Hv Hall]. specialize (IH (acc + v)%Q Hall).
    cbn [foldl length]. rewrite Nat2Z.inj_succ, <- Z.add_1_r, inject_Z_plus.
    change (inject_Z 1) with 1%Q.
    generalize dependent (inject_Z (Z.of_nat (length l))). intros n IH.
    generalize dependent (foldl Qplus (acc + v)%Q l). intros s IH.
    rewrite Qmult_plus_distr_l, Qmult_plus_distr_l. lra.
Qed.

Lemma mean_bounds (lo hi : Q) (l : list Q) :
  l <> [] -> Forall (fun v => (lo <= v <= hi)%Q) l -> (lo <= mean l <= hi)%Q.
Proof.
  intros Hne Hall. unfold mean.
  pose proof (foldl_Qplus_bounds lo hi l 0 Hall) as [Hlo Hhi].
  assert (Hn : (0 < inject_Z (Z.of_nat (length l)))%Q).
  { change 0%Q with (inject_Z 0). rewrite <- Zlt_Qlt.
    destruct l; [done | simpl; lia]. }
  split.
  - apply Qle_shift_div_l; [exact Hn |]. lra.
  - apply Qle_shift_div_r; [exact Hn |]. lra.
Qed.

Lemma most_recent_nil {A} (n : nat) (l : list A) :
  0 < n -> most_recent n l = [] -> l = [].
Proof.
  intros Hn Hl. apply (f_equal length) in Hl.
  rewrite most_recent_length in Hl. simpl in Hl.
  destruct l; [done | simpl in Hl; lia].
Qed.

(** The two averages are the rounded means of the last 300 samples. *)
Lemma calculateAverageFPS_mean (c : AnalyticsCollector) :
  performanceMetrics c <> [] ->
  calculateAverageFPS c
  = round_to 10 (mean (PerformanceData.fps <$> most_recent 300 (performanceMetrics c))).
Proof.
  intros Hne. unfold calculateAverageFPS.
  destruct (performanceMetrics c) as [| p l] eqn:Hpm; [done |].
  cbn [length Nat.eqb]. rewrite <- Hpm.
  change (-300)%Z with (- Z.of_nat 300)%Z. rewrite Array_slice_last by lia.
  fold (most_recent 300 (performanceMetrics c)).
  by rewrite sum_by_foldl, <- (length_fmap PerformanceData.fps).
Qed.

Lemma calculateAverageRenderTime_mean (c : AnalyticsCollector) :
  performanceMetrics c <> [] ->
  calculateAverageRenderTime c
  = round_to 100
      (mean (PerformanceData.renderTime <$> most_recent 300 (performanceMetrics c))).
Proof.
  intros Hne. unfold calculateAverageRenderTime.
  destruct (performanceMetrics c) as [| p l] eqn:Hpm; [done |].
  cbn [length Nat.eqb]. rewrite <- Hpm.
  change (-300)%Z with (- Z.of_nat 300)%Z. rewrite Array_slice_last by lia.
  fold (most_recent 300 (performanceMetrics c)).
  by rewrite sum_by_foldl, <- (length_fmap PerformanceData.renderTime).
Qed.

(** X2.  [calculateAverageFPS] and [calculateAverageRenderTime] are 0 on
    an empty buffer.  Otherwise they look at the last 300 samples only:
    two buffers with the same last 300 samples have the same averages, and
    when the fps (the render times) of those samples lie between two
    bounds, the average lies between them too, up to the rounding of 0.05
    (of 0.005). *)
Theorem averages_follow_the_last_300 (c : AnalyticsCollector) :
  (performanceMetrics c = [] ->
   calculateAverageFPS c = 0%Q /\ calculateAverageRenderTime c = 0%Q)
  /\ (forall c' : AnalyticsCollector,
        most_recent 300 (performanceMetrics c')
        = most_recent 300 (performanceMetrics c) ->
        calculateAverageFPS c' = calculateAverageFPS c
        /\ calculateAverageRenderTime c' = calculateAverageRenderTime c)
  /\ (forall lo hi : Q,
        performanceMetrics c <> [] ->
        Forall (fun p => (lo <= PerformanceData.fps p <= hi)%Q)
          (most_recent 300 (performanceMetrics c)) ->
        (lo - (1 # 20) < calculateAverageFPS c <= hi + (1 # 20))%Q)
  /\ (forall lo hi : Q,
        performanceMetrics c <> [] ->
        Forall (fun p => (lo <= PerformanceData.renderTime p <= hi)%Q)
          (most_recent 300 (performanceMetrics c)) ->
        (lo - (1 # 200) < calculateAverageRenderTime c <= hi + (1 # 200))%Q).
Proof.
  split; [| split; [| split]].
  - intros Hc. unfold calculateAverageFPS, calculateAverageRenderTime.
    by rewrite Hc.
  - intros c' Hsame.
    destruct (performanceMetrics c) as [| p l] eqn:Hc.
    + apply most_recent_nil in Hsame; [| lia].
      unfold calculateAverageFPS, calculateAverageRenderTime.
      by rewrite Hsame, Hc.
    + assert (Hc' : performanceMetrics c' <> []).
      { intros Hnil. rewrite Hnil in Hsame. symmetry in Hsame.
        by apply most_recent_nil in Hsame; [| lia]. }
      rewrite !calculateAverageFPS_mean, !calculateAverageRenderTime_mean
        by (done || by rewrite Hc).
      by rewrite Hc, Hsame.
  - intros lo hi Hne Hall. rewrite calculateAverageFPS_mean by done.
    pose proof (round_to_near 10
      (mean (PerformanceData.fps <$> most_recent 300 (performanceMetrics c))))
      as Hnear.
    assert (Hmean : (lo <= mean (PerformanceData.fps
                                   <$> most_recent 300 (performanceMetrics c))
                     <= hi)%Q).
    { apply mean_bounds.
      - intros Hnil. apply fmap_nil_inv in Hnil.
        by apply most_recent_nil in Hnil; [| lia].
      - by apply Forall_fmap. }
    change (1 # 2 * 10) with (1 # 20) in Hnear. lra.
  - intros lo hi Hne Hall. rewrite calculateAverageRenderTime_mean by done.
    pose proof (round_to_near 100
      (mean (PerformanceData.renderTime <$> most_recent 300 (performanceMetrics c))))
      as Hnear.
    assert (Hmean : (lo <= mean (PerformanceData.renderTime
                                   <$> most_recent 300 (performanceMetrics c))
                     <= hi)%Q).
    { apply mean_bounds.
      - intros Hnil. apply fmap_nil_inv in Hnil.
        by apply most_recent_nil in Hnil; [| lia].
      - by apply Forall_fmap. }
    change (1 # 2 * 100) with (1 # 200) in Hnear. lra.
Qed.

(** The busy session has one sample at 60 fps: its average is 60, up to
    the rounding. *)
Lemma averages_follow_the_last_300_witness :
  (60 - (1 # 20) < calculateAverageFPS (this busy) <= 60 + (1 # 20))%Q.
Proof.
  apply (averages_follow_the_last_300 (this busy)).
  - discriminate.
  - vm_compute. repeat constructor; discriminate.
Defined.

(** ** The durable store *)

Lemma returns_conj {A} (m : M A) w (P Q : A -> World -> Prop) :
  returns m w P -> returns m w Q -> returns m w (fun a w' => P a w' /\ Q a w').
Proof.
  intros (a & w' & Hm & HP) (a' & w'' & Hm' & HQ).
  rewrite Hm in Hm'. injection Hm' as <- <-. by exists a, w'.
Qed.

Lemma most_recent_cut {A} (n : nat) (l : list A) :
  (if n <? length l then drop (length l - n) l else l) = most_recent n l.
Proof.
  unfold most_recent. destruct (Nat.ltb_spec n (length l)); [done |].
  by replace (length l - n) with 0 by lia.
Qed.

Section Store.
Context {host : Host} {sink : Sink}.

(** X3.  [persistEvent] never touches the collector or the clock, and of
    [localStorage] it writes the one item ["vr_analytics_events"].  Either
    it stores the text of the parsed events followed by the new one, cut
    to their 1000 most recent, so that at most 1000 events are kept and the
    new one is the last of them, and then it does not warn; or it leaves
    the store as it was and warns once. *)
Theorem persistEvent_keeps_the_1000_most_recent (event : Obj) (w : World) :
  returns (persistEvent event) w (fun _ w' =>
    this w' = this w /\ clock w' = clock w
    /\ (forall k, k <> "vr_analytics_events" ->
         localStorage w' !! k = localStorage w !! k)
    /\ ((exists text stored kept,
           stored_text (localStorage w) text
           /\ JSON_parse text = Some stored
           /\ kept = most_recent 1000 (stored ++ [event])
           /\ length kept <= 1000
           /\ last kept = Some event
           /\ localStorage w' !! "vr_analytics_events" = Some (JSON_stringify kept)
           /\ warnings w' = warnings w)
        \/ (localStorage w' = localStorage w /\ warnings w' = S (warnings w)))).
Proof.
  unfold returns, persistEvent, persist_attempt, console_warn.
  destruct (getItem_raises (localStorage w));
    [eexists _, _; split; [reflexivity |]; wsimpl;
     split; [done |]; split; [done |]; split; [done |]; by right |].
  set (text := match localStorage w !! "vr_analytics_events" with
               | Some s => if String.eqb s "" then "[]" else s
               | None => "[]"
               end).
  assert (Htext : stored_text (localStorage w) text).
  { unfold stored_text, text.
    destruct (localStorage w !! "vr_analytics_events") as [s |]; [| by right; split; [left |]].
    destruct (String.eqb_spec s ""); [subst; by right; split; [right |] | by left]. }
  destruct (JSON_parse text) as [stored |] eqn:Hparse;
    [| eexists _, _; split; [reflexivity |]; wsimpl;
       split; [done |]; split; [done |]; split; [done |]; by right].
  cbv zeta. rewrite most_recent_cut.
  destruct (setItem_raises _ _ _);
    [eexists _, _; split; [reflexivity |]; wsimpl;
     split; [done |]; split; [done |]; split; [done |]; by right |].
  eexists _, _. split; [reflexivity |]. wsimpl.
  split; [done |]. split; [done |].
  split; [intros k Hk; by rewrite lookup_insert_ne |].
  left. exists text, stored, (most_recent 1000 (stored ++ [event])).
  split; [done |]. split; [done |]. split; [done |].
  split; [rewrite most_recent_length; lia |].
  split; [apply most_recent_last; lia |].
  split; [by rewrite lookup_insert_eq | done].
Qed.

Lemma untouched_store_refl w : untouched_store w w.
Proof. by split. Qed.

Lemma untouched_store_trans w1 w2 w3 :
  untouched_store w1 w2 -> untouched_store w2 w3 -> untouched_store w1 w3.
Proof. intros [H1 H2] [H3 H4]. split; congruence. Qed.

(** The events of the interaction and VR handlers are logged without a
    word to the store. *)
Lemma logEvent_depth_quiet n ty data w :
  ty ∈ ["rapid_interaction_detected"; "vr_experience_start"; "vr_experience_end"] ->
  data !! "eventType" = None ->
  returns (logEvent_depth (S n) ty data) w (fun _ w' => untouched_store w w').
Proof.
  intros Hty Hd. simpl logEvent_depth. unfold logEvent_body. steps.
  unfold processEventRealTime. wsimpl. fold (new_event w ty data).
  rewrite (new_event_type w ty data Hd).
  repeat (apply elem_of_cons in Hty as [-> | Hty];
          [cbn [strict_eq_str String.eqb Ascii.eqb Bool.eqb]; steps;
           change (isImportantEvent _) with false; cbv iota; steps;
           by split |]).
  by apply elem_of_nil in Hty.
Qed.

Lemma processInteractionEvent_quiet n event w :
  returns (processInteractionEvent (logEvent_depth (S n)) event) w
    (fun _ w' => untouched_store w w').
Proof.
  unfold processInteractionEvent. steps.
  destruct (3 <=? _); [| steps; apply untouched_store_refl].
  destruct (Num_ltb _ _); [| steps; apply untouched_store_refl].
  step. eapply returns_mono;
    [apply logEvent_depth_quiet; [set_solver | by simplify_map_eq] |].
  intros ev w' Hq. by steps.
Qed.

Lemma processVRModeChange_quiet n event w :
  returns (processVRModeChange (logEvent_depth (S n)) event) w
    (fun _ w' => untouched_store w w').
Proof.
  unfold processVRModeChange. steps.
  destruct (truthy _).
  - step. eapply returns_mono;
      [apply logEvent_depth_quiet; [set_solver | by simplify_map_eq] |].
    intros ev w' Hq. by steps.
  - steps. eapply returns_mono;
      [apply logEvent_depth_quiet; [set_solver | by simplify_map_eq] |].
    intros ev w' Hq. steps. exact Hq.
Qed.

Lemma logEvent_depth_quiet_top n ty data w :
  isImportantEvent ty = false ->
  has_type "performance_metrics" (new_event w ty data) = false ->
  returns (logEvent_depth (S (S n)) ty data) w (fun _ w' => untouched_store w w').
Proof.
  intros Himp Hperf. simpl logEvent_depth.
  unfold logEvent_body at 1. steps.
  change (logEvent_body (logEvent_depth n)) with (logEvent_depth (S n)).
  wsimpl. fold (new_event w ty data). rewrite Himp.
  unfold processEventRealTime. unfold has_type in Hperf. rewrite Hperf.
  assert (Hend : forall w0 w1 : World,
    untouched_store w0 w1 ->
    returns (mret tt ≫= (fun _ : unit => mret (new_event w ty data))) w1
      (fun _ w' => untouched_store w0 w')).
  { intros w0 w1 Hq. by steps. }
  destruct (strict_eq_str _ "user_interaction").
  { eapply returns_mono; [apply (processInteractionEvent_quiet n) |].
    intros [] w1 Hq. by apply Hend. }
  destruct (strict_eq_str _ "vr_mode_change").
  { eapply returns_mono; [apply (processVRModeChange_quiet n) |].
    intros [] w1 Hq. by apply Hend. }
  steps. by split.
Qed.

Lemma logEvent_quiet ty data w :
  isImportantEvent ty = false ->
  has_type "performance_metrics" (new_event w ty data) = false ->
  returns (logEvent ty data) w (fun _ w' => untouched_store w w').
Proof. apply (logEvent_depth_quiet_top 0). Qed.

(** X4.  Only the event types of the allow-list, and the warnings raised
    on a performance report, reach the durable store.  A [logEvent] for
    another type, whose event is not dispatched as ["performance_metrics"],
    leaves [localStorage] as it was and raises no warning on the console;
    so does every [logSpatialData], and every [logInteraction] whose extra
    fields do not set [eventType] to ["performance_metrics"].  (The trace
    that every [logEvent] prints with [console.log] is not part of the
    world.) *)
Theorem other_events_never_reach_the_store :
  (forall ty data w,
     isImportantEvent ty = false ->
     has_type "performance_metrics" (new_event w ty data) = false ->
     returns (logEvent ty data) w (fun _ w' => untouched_store w w'))
  /\ (forall a w,
        returns (logSpatialData_call a) w (fun _ w' => untouched_store w w'))
  /\ (forall a w,
        InteractionCall.data a !! "eventType" <> Some (VStr "performance_metrics") ->
        returns (logInteraction_call a) w (fun _ w' => untouched_store w w')).
Proof.
  split; [exact logEvent_quiet |]. split.
  - intros a w. unfold logSpatialData_call, logSpatialData. steps.
    eapply returns_mono with
      (P := fun _ w' => untouched_store w w').
    + destruct (_ =? 0); [| by steps].
      step. eapply returns_mono.
      * apply logEvent_quiet; [done |].
        rewrite new_event_has_type by (by simplify_map_eq). done.
      * intros ev w1 Hq. by steps.
    + intros [] w1 Hq. apply returns_truncate_spatial. exact Hq.
  - intros a w Hd. unfold logInteraction_call, logInteraction. steps.
    eapply returns_mono.
    + apply logEvent_quiet; [done |].
      rewrite new_event_has_type_of. unfold event_type_of.
      rewrite lookup_union_l by (by simplify_map_eq).
      destruct (InteractionCall.data a !! "eventType") as [[] |] eqn:Hty;
        try done.
      cbn [default from_option id strict_eq_str].
      destruct (String.eqb_spec s "performance_metrics"); [by subst | done].
    + intros ev w1 Hq. by steps.
Qed.

End Store.

(** A custom event on a fresh collector is logged and not stored. *)
Lemma other_events_never_reach_the_store_witness :
  returns
    (logEvent (host := desktop) (sink := counting_sink false) "scene_loaded" ∅)
    fresh (fun _ w' => untouched_store fresh w').
Proof.
  pose proof (proj1 (other_events_never_reach_the_store
                       (host := desktop) (sink := counting_sink false))
                "scene_loaded" ∅ fresh) as Hquiet.
  apply Hquiet; vm_compute; reflexivity.
Defined.

(** ** The warnings of a performance report *)

Section Warnings.
Context {host : Host} {sink : Sink}.




Lemma round_to_le (scale : positive) (a b : Q) :
  (a <= b)%Q -> (round_to (Z.pos scale) a <= round_to (Z.pos scale) b)%Q.
Proof.
  intros Hab. unfold round_to.
  assert (Hs : (0 < inject_Z (Z.pos scale))%Q) by (unfold Qlt; simpl; lia).
  apply Qmult_le_compat_r; [| apply Qlt_le_weak, Qinv_lt_0_compat, Hs].
  rewrite <- Zle_Qle. apply Math_round_le.
  apply Qmult_le_compat_r; [exact Hab | by apply Qlt_le_weak].
Qed.

Lemma round_to_nonneg (scale : positive) (x : Q) :
  (0 <= x)%Q -> (0 <= round_to (Z.pos scale) x)%Q.
Proof.
  intros Hx. apply (round_to_le scale) in Hx.
  assert (H0 : (round_to (Z.pos scale) 0 == 0)%Q).
  { unfold round_to. rewrite (Math_round_comp _ (inject_Z 0)).
    - rewrite Math_round_Z. reflexivity.
    - ring. }
  by rewrite H0 in Hx.
Qed.


End Warnings.


(** ** Entering and leaving VR *)

Lemma set_vrSessionStart_same (d : SessionData.t) :
  SessionData.set_vrSessionStart (SessionData.vrSessionStart d) d = d.
Proof. by destruct d. Qed.

Section VRModeEvents.
Context {host : Host} {sink : Sink}.

(** An event whose type has no handler: the clock is read twice. *)
Lemma logEvent_depth_plain_clock n ty data w :
  has_type "user_interaction" (new_event w ty data) = false ->
  has_type "performance_metrics" (new_event w ty data) = false ->
  has_type "vr_mode_change" (new_event w ty data) = false ->
  returns (logEvent_depth (S n) ty data) w (fun ev w' =>
    ev = new_event w ty data /\ appended w w' [ev] /\ clock w' = 2 + clock w).
Proof.
  unfold has_type. intros H1 H2 H3. simpl logEvent_depth.
  unfold logEvent_body. steps.
  unfold processEventRealTime. wsimpl.
  fold (new_event w ty data). rewrite H1, H2, H3. steps.
  destruct (isImportantEvent ty).
  - apply returns_persistEvent. intros w' Hthis Hclock. steps.
    split; [reflexivity |]. split; [| by rewrite Hclock].
    unfold appended. rewrite Hthis. by wsimpl.
  - steps. split; [reflexivity |]. split; [| done]. unfold appended. by wsimpl.
Qed.

(** The change of mode, logged by [logEvent]: the event, then the answer of
    the handler. *)
Lemma logEvent_depth_vr_mode_change n (data : Obj) (isVR : bool) w :
  data !! "eventType" = None ->
  data !! "newMode" = Some (VBool isVR) ->
  returns (logEvent_depth (S (S n)) "vr_mode_change" data) w (fun ev w' =>
    ev = new_event w "vr_mode_change" data
    /\ this w' =
         set_events
           (events (this w)
            ++ [ev;
                if isVR then
                  new_event (set_clock (2 + clock w) w) "vr_experience_start"
                    {[ "timeToVR" := get ev "transitionTime";
                       "platform" :=
                         VStr (SessionData.platform (sessionData (this w))) ]}
                else
                  new_event (set_clock (3 + clock w) w) "vr_experience_end"
                    {[ "vrDuration" :=
                         qnum (performance_now (2 + clock w) - vr_since w);
                       "totalSessionTime" := get ev "transitionTime" ]}])
           (this w)
    /\ clock w' = (if isVR then 4 else 5) + clock w).
Proof.
  intros Hty Hmode. simpl logEvent_depth. unfold logEvent_body at 1. steps.
  change (logEvent_body (logEvent_depth n)) with (logEvent_depth (S n)).
  wsimpl. fold (new_event w "vr_mode_change" data).
  unfold processEventRealTime.
  rewrite (new_event_type w "vr_mode_change" data Hty).
  cbn [strict_eq_str String.eqb Ascii.eqb Bool.eqb].
  set (ev := new_event w "vr_mode_change" data).
  unfold processVRModeChange. steps. wsimpl.
  assert (Hnew : get ev "newMode" = VBool isVR).
  { unfold ev, get, new_event. by erewrite lookup_union_Some_l. }
  rewrite Hnew. cbn [truthy].
  change (isImportantEvent "vr_mode_change") with true. cbv iota.
  destruct isVR.
  - step. eapply returns_mono;
      [apply logEvent_depth_plain_clock;
       by rewrite new_event_has_type by (by simplify_map_eq) |].
    intros ev' w1 (-> & Happ & Hclock1). steps.
    apply returns_persistEvent. intros w2 Hthis Hclock. steps.
    split; [done |]. split.
    + rewrite Hthis. unfold appended in Happ. rewrite Happ. wsimpl.
      rewrite <- app_assoc. unfold new_event. wsimpl. by destruct (this w).
    + by rewrite Hclock, Hclock1.
  - steps. eapply returns_mono;
      [apply logEvent_depth_plain_clock;
       by rewrite new_event_has_type by (by simplify_map_eq) |].
    intros ev' w1 (-> & Happ & Hclock1). steps.
    apply returns_persistEvent. intros w2 Hthis Hclock. steps.
    split; [done |]. split.
    + rewrite Hthis. unfold appended in Happ. rewrite Happ. wsimpl.
      rewrite <- app_assoc. unfold new_event, vr_since, vrSessionStart. wsimpl.
      by destruct (this w).
    + by rewrite Hclock, Hclock1.
Qed.

(** One call of [setVRMode], in full: the collector after the call. *)
Lemma setVRMode_full isVR w :
  returns (setVRMode isVR) w (fun _ w' =>
    this w' =
      set_sessionData
        (SessionData.set_vrSessionStart (vr_stamp w isVR)
           (SessionData.set_vrCapable true (sessionData (this w))))
        (set_events
           (events (this w)
            ++ [vr_mode_change_event w isVR; vr_experience_event w isVR])
           (set_isVRMode isVR (this w)))
    /\ clock w < clock w').
Proof.
  unfold setVRMode. steps. wsimpl.
  eapply returns_mono;
    [apply (logEvent_depth_vr_mode_change 0 _ isVR); by simplify_map_eq |].
  intros ev w1 (Hev & Hthis & Hclock).
  assert (Htime : get ev "transitionTime"
                  = qnum (performance_now (clock w) - startTime (this w))).
  { rewrite Hev. unfold get, new_event. erewrite lookup_union_Some_l; [done |].
    by simplify_map_eq. }
  rewrite Htime in Hthis. clear Htime.
  unfold new_event, vr_since, vrSessionStart in Hev, Hthis. wsimpl. subst ev.
  steps. wsimpl. rewrite Hthis. wsimpl.
  unfold vr_stamp, vrSessionStart.
  destruct isVR; cbn [andb].
  - destruct (match SessionData.vrSessionStart (sessionData (this w)) with
              | Some s => Qzero s
              | None => true
              end) eqn:Hunset.
    + steps. wsimpl. rewrite Hclock. split; [| lia].
      unfold vr_mode_change_event, vr_experience_event, new_event. wsimpl.
      by destruct (this w) as [? ? ? ? ? ? ? []].
    + steps. wsimpl. rewrite Hclock. split; [| lia].
      unfold vr_mode_change_event, vr_experience_event, new_event. wsimpl.
      by destruct (this w) as [? ? ? ? ? ? ? []].
  - steps. wsimpl. rewrite Hclock. split; [| lia].
    unfold vr_mode_change_event, vr_experience_event, new_event, vr_since,
      vrSessionStart. wsimpl.
    by destruct (this w) as [? ? ? ? ? ? ? []].
Qed.

(** X6.  Every call of [setVRMode] logs exactly two events: the change of
    mode, then the answer of the real-time handler.  The change records the
    mode before and the mode asked for, and the time since the start of the
    session; the flag is set before the event is built, so the [isVRMode]
    field of both events is already the new mode.  On entering, the answer
    is a ["vr_experience_start"] with that time and the platform; on
    leaving, a ["vr_experience_end"] whose [vrDuration] runs from the
    stored VR-start timestamp, or from the start of the session when none
    is stored (VR was never entered). *)
Theorem setVRMode_logs_the_change_and_the_experience (isVR : bool) (w : World) :
  returns (setVRMode isVR) w (fun _ w' =>
    exists change experience,
      events (this w') = events (this w) ++ [change; experience]
      /\ get change "eventType" = VStr "vr_mode_change"
      /\ get change "previousMode" = VBool (isVRMode (this w))
      /\ get change "newMode" = VBool isVR
      /\ get change "isVRMode" = VBool isVR
      /\ get experience "isVRMode" = VBool isVR
      /\ get change "transitionTime"
         = qnum (performance_now (clock w) - startTime (this w))
      /\ if isVR then
           get experience "eventType" = VStr "vr_experience_start"
           /\ get experience "timeToVR" = get change "transitionTime"
           /\ get experience "platform"
              = VStr (SessionData.platform (sessionData (this w)))
         else
           get experience "eventType" = VStr "vr_experience_end"
           /\ get experience "totalSessionTime" = get change "transitionTime"
           /\ get experience "vrDuration"
              = qnum (performance_now (3 + clock w)
                      - match vrSessionStart w with
                        | Some s => if Qzero s then startTime (this w) else s
                        | None => startTime (this w)
                        end)).
Proof.
  eapply returns_mono; [apply setVRMode_full |].
  intros [] w' [Hthis _].
  exists (vr_mode_change_event w isVR), (vr_experience_event w isVR).
  split; [by rewrite Hthis |].
  destruct isVR; repeat split; reflexivity.
Qed.

End VRModeEvents.

(** ** What a sequence of calls keeps *)

Section Frame.
Context {host : Host} {sink : Sink}.

(** One call: what it leaves alone and what it adds. *)
Lemma call_frame c w :
  returns (call c) w (fun _ w' =>
    sessionId (this w') = sessionId (this w)
    /\ startTime (this w') = startTime (this w)
    /\ (exists new, events (this w') = events (this w) ++ new
                    /\ (always_logs c = true -> new <> []))
    /\ (exists added, userInteractions (this w') = userInteractions (this w) ++ added
                      /\ length added = if is_logInteraction c then 1 else 0)
    /\ isVRMode (this w') = last_mode (isVRMode (this w)) [c]
    /\ vrSessionStart w'
       = match c with
         | CallSetVRMode isVR => vr_stamp w isVR
         | _ => vrSessionStart w
         end
    /\ SessionData.vrCapable (sessionData (this w'))
       = is_setVRMode c || SessionData.vrCapable (sessionData (this w))).
Proof.
  destruct c as [ty data | a | a | a | isVR]; cbn [call].
  - step. eapply returns_mono; [apply logEvent_spec |].
    intros ev w1 (_ & nested & Happ & _). steps.
    unfold appended in Happ. unfold vrSessionStart. rewrite Happ. wsimpl.
    repeat split; try done.
    + by exists (ev :: nested).
    + exists []. by rewrite app_nil_r.
  - step. eapply returns_mono; [apply logInteraction_spec |].
    intros i w1 (_ & nested & Hthis & _). steps.
    unfold vrSessionStart. rewrite Hthis. wsimpl.
    repeat split; try done.
    + by eexists (_ :: nested).
    + by exists [i].
  - eapply returns_mono; [apply logSpatialData_spec |].
    intros [] w1 (new & Hthis & _).
    unfold vrSessionStart. rewrite Hthis. wsimpl.
    repeat split; try done.
    + by exists new.
    + exists []. by rewrite app_nil_r.
  - eapply returns_mono; [apply logPerformance_spec |].
    intros [] w1 (new & Hthis & _).
    unfold vrSessionStart. rewrite Hthis. wsimpl.
    repeat split; try done.
    + by exists new.
    + exists []. by rewrite app_nil_r.
  - eapply returns_mono; [apply setVRMode_full |].
    intros [] w1 [Hthis _].
    unfold vrSessionStart. rewrite Hthis. wsimpl.
    repeat split; try done.
    + by eexists [_; _].
    + exists []. by rewrite app_nil_r.
Qed.

Lemma last_mode_cons (m : bool) (c : Call) (l : list Call) :
  last_mode m (c :: l) = last_mode (last_mode m [c]) l.
Proof. reflexivity. Qed.

(** X7.  Whatever the sequence of calls, the collector keeps its session
    id and its start time, and the event log and the interaction record
    only grow at the end: what they held stays in place.  The interaction
    record, which unlike the two sample buffers is never cut, gains exactly
    one entry per [logInteraction]; the event log gains at least one event
    per [logEvent], [logInteraction] and [setVRMode].  The VR flag is the
    mode asked for by the last [setVRMode], and [vrCapable] holds as soon
    as [setVRMode] was called once, whatever the mode.  The summary reports
    these counts. *)
Theorem calls_keep_the_session_and_grow_the_logs (l : list Call) : forall w : World,
  returns (calls l) w (fun _ w' =>
    sessionId (this w') = sessionId (this w)
    /\ startTime (this w') = startTime (this w)
    /\ events (this w) `prefix_of` events (this w')
    /\ length (events (this w)) + length (filter (fun c => always_logs c = true) l)
       <= length (events (this w'))
    /\ userInteractions (this w) `prefix_of` userInteractions (this w')
    /\ length (userInteractions (this w'))
       = length (userInteractions (this w))
         + length (filter (fun c => is_logInteraction c = true) l)
    /\ isVRMode (this w') = last_mode (isVRMode (this w)) l
    /\ SessionData.vrCapable (sessionData (this w'))
       = existsb is_setVRMode l || SessionData.vrCapable (sessionData (this w))
    /\ returns getSessionSummary w' (fun summary _ =>
         Summary.sessionId summary = sessionId (this w)
         /\ Summary.totalInteractions summary
            = length (userInteractions (this w))
              + length (filter (fun c => is_logInteraction c = true) l)
         /\ length (events (this w)) + length (filter (fun c => always_logs c = true) l)
            <= Summary.totalEvents summary)).
Proof.
  assert (Hmain : forall w : World,
    returns (calls l) w (fun _ w' =>
      sessionId (this w') = sessionId (this w)
      /\ startTime (this w') = startTime (this w)
      /\ events (this w) `prefix_of` events (this w')
      /\ length (events (this w)) + length (filter (fun c => always_logs c = true) l)
         <= length (events (this w'))
      /\ userInteractions (this w) `prefix_of` userInteractions (this w')
      /\ length (userInteractions (this w'))
         = length (userInteractions (this w))
           + length (filter (fun c => is_logInteraction c = true) l)
      /\ isVRMode (this w') = last_mode (isVRMode (this w)) l
      /\ SessionData.vrCapable (sessionData (this w'))
         = existsb is_setVRMode l || SessionData.vrCapable (sessionData (this w)))).
  { induction l as [| c l IH]; intros w.
    - cbn [calls]. steps. cbn [filter list_filter length existsb orb last_mode foldl].
      repeat split; try done; lia.
    - cbn [calls]. step. eapply returns_mono; [apply call_frame |].
      intros [] w1 (Hid & Hstart & (new & Hev & Hnew) & (added & Hui & Hadded)
                    & Hmode & _ & Hcap).
      eapply returns_mono; [apply IH |].
      intros [] w2 (Hid2 & Hstart2 & Hpre & Hlen & Hpre2 & Hlen2 & Hmode2 & Hcap2).
      split; [congruence |]. split; [congruence |].
      split; [etrans; [| exact Hpre]; rewrite Hev; by apply prefix_app_r |].
      split.
      { rewrite Hev, length_app in Hlen. rewrite filter_cons.
        destruct (decide (always_logs c = true)) as [Hc |]; [| lia].
        specialize (Hnew Hc). destruct new; [done |]. simpl in *. lia. }
      split; [etrans; [| exact Hpre2]; rewrite Hui; by apply prefix_app_r |].
      split.
      { rewrite Hlen2, Hui, length_app, Hadded, filter_cons.
        destruct (decide (is_logInteraction c = true)) as [Hc | Hc].
        - rewrite Hc. simpl. lia.
        - apply not_true_is_false in Hc. rewrite Hc. lia. }
      split; [by rewrite Hmode2, Hmode, <- last_mode_cons |].
      rewrite Hcap2, Hcap. cbn [existsb]. by destruct (is_setVRMode c), (existsb _ l). }
  intros w. eapply returns_mono; [apply Hmain |].
  intros [] w' (Hid & Hstart & Hpre & Hlen & Hpre2 & Hlen2 & Hmode & Hcap).
  repeat (split; [done |]).
  unfold getSessionSummary. steps. wsimpl. cbn [Summary.sessionId
    Summary.totalInteractions Summary.totalEvents].
  done.
Qed.

(** A VR-start timestamp after the time origin survives every call. *)
Lemma calls_keep_the_stamp (l : list Call) (s : Q) : forall w : World,
  (0 < s)%Q -> vrSessionStart w = Some s ->
  returns (calls l) w (fun _ w' => vrSessionStart w' = Some s).
Proof.
  induction l as [| c l IH]; intros w Hs Hw.
  - cbn [calls]. by steps.
  - cbn [calls]. step. eapply returns_mono; [apply call_frame |].
    intros [] w1 (_ & _ & _ & _ & _ & Hstamp & _).
    apply IH; [done |]. rewrite Hstamp.
    destruct c; try done. unfold vr_stamp. rewrite Hw, (Qzero_false s Hs).
    by rewrite andb_false_r.
Qed.

(** X8.  The VR duration reported on leaving VR runs from the first entry.
    Once [setVRMode(true)] has stamped the start, no later call moves the
    stamp: whatever happens in between, further exits and re-entries
    included, the ["vr_experience_end"] event of a later [setVRMode(false)]
    reports the time elapsed since that first entry, so that a second VR
    session is credited with the first one and with the time between
    them. *)
Theorem vr_duration_runs_from_the_first_entry (w : World) (l : list Call) :
  (0 < performance_now (5 + clock w))%Q ->
  vrSessionStart w = None ->
  returns (setVRMode true) w (fun _ w1 =>
    returns (calls l) w1 (fun _ w2 =>
      returns (setVRMode false) w2 (fun _ w3 =>
        exists ending,
          last (events (this w3)) = Some ending
          /\ get ending "eventType" = VStr "vr_experience_end"
          /\ get ending "vrDuration"
             = qnum (performance_now (3 + clock w2)
                     - performance_now (5 + clock w))))).
Proof.
  intros Hpos Hnone.
  eapply returns_mono; [apply setVRMode_full |].
  intros [] w1 [Hthis1 _].
  assert (Hstamp : vrSessionStart w1 = Some (performance_now (5 + clock w))).
  { unfold vrSessionStart. rewrite Hthis1. wsimpl.
    unfold vr_stamp. by rewrite Hnone. }
  eapply returns_mono; [by apply (calls_keep_the_stamp l _ w1 Hpos) |].
  intros [] w2 Hstamp2.
  eapply returns_mono; [apply setVRMode_full |].
  intros [] w3 [Hthis3 _].
  exists (vr_experience_event w2 false).
  split; [rewrite Hthis3; wsimpl; by rewrite last_app |].
  split; [reflexivity |].
  unfold vr_experience_event, vr_since. rewrite Hstamp2, (Qzero_false _ Hpos).
  reflexivity.
Qed.

End Frame.

(** On the desktop host: VR entered, left, entered again and left again;
    the last duration runs from the first entry. *)
Lemma vr_duration_runs_from_the_first_entry_witness :
  let l := [CallSetVRMode false; CallSetVRMode true] in
  returns (setVRMode (host := desktop) (sink := counting_sink false) true) fresh
    (fun _ w1 =>
       returns (calls (host := desktop) (sink := counting_sink false) l) w1
         (fun _ w2 =>
            returns (setVRMode (host := desktop) (sink := counting_sink false) false) w2
              (fun _ w3 =>
                 exists ending,
                   last (events (this w3)) = Some ending
                   /\ get ending "eventType" = VStr "vr_experience_end"
                   /\ get ending "vrDuration"
                      = qnum (performance_now (Host := desktop) (3 + clock w2)
                              - performance_now (Host := desktop)
                                  (5 + clock fresh))))).
Proof.
  intros l.
  apply (vr_duration_runs_from_the_first_entry
           (host := desktop) (sink := counting_sink false) fresh l);
    [vm_compute | vm_compute]; reflexivity.
Defined.

(** ** Rapid interactions *)

Section Rapid.
Context {host : Host} {sink : Sink}.








End Rapid.


(** Inside the margin the rounding decides.  Four interactions stamped
    539.663, 575.334, 1916.847 and 2039.663 are 1500 ms from the first to
    the last, 500 ms apart on average, which is not below 500; the gaps
    summed in binary64 average to 499.99999999999994, and the handler
    reports. *)
Lemma interactions_500_ms_apart_on_average :
  (Binary64.avgTimeBetween [539.663; 575.334; 1916.847; 2039.663] <? 500)%float = true
  /\ rapid [539663 # 1000; 575334 # 1000; 1916847 # 1000; 2039663 # 1000] = false.
Proof. split; vm_compute; reflexivity. Qed.

(** ** Recommendations *)

Lemma elem_of_iff_decide (x : string) (l : list string) (b : bool) :
  bool_decide (x ∈ l) = b -> (x ∈ l <-> b = true).
Proof.
  intros <-. by rewrite bool_decide_eq_true.
Qed.

Lemma sublist_when (b : bool) (m : string) (l1 l2 : list string) :
  l1 `sublist_of` l2 -> (if b then [m] else []) ++ l1 `sublist_of` m :: l2.
Proof.
  intros Hsub. destruct b; cbn [app]; by constructor.
Qed.

Section Recommendations.
Context {host : Host} {sink : Sink}.

(** [getSessionSummary] reads the clock once and nothing else changes. *)
Lemma getSessionSummary_spec (w : World) :
  returns getSessionSummary w (fun summary w' =>
    w' = set_clock (S (clock w)) w
    /\ Summary.duration summary
       = (performance_now (clock w) - startTime (this w))%Q
    /\ Summary.averageFPS summary = calculateAverageFPS (this w)
    /\ Summary.totalEvents summary = length (events (this w))
    /\ Summary.totalInteractions summary = length (userInteractions (this w))
    /\ Summary.vrModeUsed summary = emitted "vr_session_start" (events (this w))).
Proof. unfold getSessionSummary. steps. by repeat split. Qed.

(** X10.  [getRecommendations] changes nothing but the clock, and it
    returns some of its four messages, in a fixed order, each under its own
    condition: the graphics message iff the average frame rate is below
    30, the interactivity message iff fewer than 10 interactions are on
    record, the VR message iff no ["vr_session_start"] event was logged
    although [vrCapable] is set, the movement message iff the movement
    metrics exist and class the user as stationary.  A collector without
    a performance sample has an average frame rate of 0: it is always told
    to reduce the graphics quality.  With fewer than two spatial samples
    the movement message is never given. *)
Theorem recommendations_follow_the_summary (w : World) :
  returns getRecommendations w (fun recs w' =>
    w' = set_clock (S (clock w)) w
    /\ recs `sublist_of` recommendations
    /\ ("Consider reducing graphics quality for better performance" ∈ recs
        <-> (calculateAverageFPS (this w) < 30)%Q)
    /\ ("Add more interactive elements to increase engagement" ∈ recs
        <-> length (userInteractions (this w)) < 10)
    /\ ("Encourage VR mode usage for enhanced experience" ∈ recs
        <-> emitted "vr_session_start" (events (this w)) = false
            /\ SessionData.vrCapable (sessionData (this w)) = true)
    /\ ("Add movement-encouraging elements to reduce motion sickness" ∈ recs
        <-> exists m, calculateMovementMetrics (this w) = Some m
                      /\ MovementMetrics.movementIntensity m = "stationary")
    /\ (performanceMetrics (this w) = [] ->
        "Consider reducing graphics quality for better performance" ∈ recs)
    /\ (length (spatialData (this w)) < 2 ->
        "Add movement-encouraging elements to reduce motion sickness" ∉ recs)).
Proof.
  unfold getRecommendations. step.
  eapply returns_mono; [apply getSessionSummary_spec |].
  intros summary w1 (-> & _ & -> & _ & -> & ->). steps. wsimpl.
  set (b1 := Qltb (calculateAverageFPS (this w)) 30).
  set (b2 := length (userInteractions (this w)) <? 10).
  set (b3 := negb (emitted "vr_session_start" (events (this w)))
             && SessionData.vrCapable (sessionData (this w))).
  set (b4 := match calculateMovementMetrics (this w) with
             | Some m => String.eqb (MovementMetrics.movementIntensity m) "stationary"
             | None => false
             end).
  assert (Hr4 : match calculateMovementMetrics (this w) with
                | Some m =>
                    if String.eqb (MovementMetrics.movementIntensity m) "stationary"
                    then ["Add movement-encouraging elements to reduce motion sickness"]
                    else []
                | None => []
                end
                = (if b4
                   then ["Add movement-encouraging elements to reduce motion sickness"]
                   else []) ++ []).
  { unfold b4. destruct (calculateMovementMetrics (this w)) as [m |]; [| done].
    by destruct (String.eqb _ _). }
  rewrite Hr4. clear Hr4.
  assert (H1 : b1 = true <-> (calculateAverageFPS (this w) < 30)%Q)
    by apply Qltb_true.
  assert (H2 : b2 = true <-> length (userInteractions (this w)) < 10)
    by apply Nat.ltb_lt.
  assert (H3 : b3 = true <-> emitted "vr_session_start" (events (this w)) = false
                             /\ SessionData.vrCapable (sessionData (this w)) = true).
  { unfold b3. rewrite andb_true_iff, negb_true_iff. done. }
  assert (H4 : b4 = true <-> exists m, calculateMovementMetrics (this w) = Some m
                 /\ MovementMetrics.movementIntensity m = "stationary").
  { unfold b4. destruct (calculateMovementMetrics (this w)) as [m |].
    - rewrite String.eqb_eq. split.
      + intros Hm. by exists m.
      + intros (m' & Hm' & Hs). by injection Hm' as ->.
    - split; [done | by intros (? & ? & _)]. }
  clearbody b1 b2 b3 b4.
  split; [done |].
  split; [unfold recommendations; repeat apply sublist_when; constructor |].
  assert (Hin :
    ("Consider reducing graphics quality for better performance"
       ∈ (if b1
          then ["Consider reducing graphics quality for better performance"]
          else []) ++
         (if b2
          then ["Add more interactive elements to increase engagement"]
          else []) ++
         (if b3
          then ["Encourage VR mode usage for enhanced experience"]
          else []) ++
         (if b4
          then ["Add movement-encouraging elements to reduce motion sickness"]
          else []) ++ [] <-> b1 = true)
    /\ ("Add more interactive elements to increase engagement"
         ∈ (if b1
            then ["Consider reducing graphics quality for better performance"]
            else []) ++
           (if b2
            then ["Add more interactive elements to increase engagement"]
            else []) ++
           (if b3
            then ["Encourage VR mode usage for enhanced experience"]
            else []) ++
           (if b4
            then ["Add movement-encouraging elements to reduce motion sickness"]
            else []) ++ [] <-> b2 = true)
    /\ ("Encourage VR mode usage for enhanced experience"
         ∈ (if b1
            then ["Consider reducing graphics quality for better performance"]
            else []) ++
           (if b2
            then ["Add more interactive elements to increase engagement"]
            else []) ++
           (if b3
            then ["Encourage VR mode usage for enhanced experience"]
            else []) ++
           (if b4
            then ["Add movement-encouraging elements to reduce motion sickness"]
            else []) ++ [] <-> b3 = true)
    /\ ("Add movement-encouraging elements to reduce motion sickness"
         ∈ (if b1
            then ["Consider reducing graphics quality for better performance"]
            else []) ++
           (if b2
            then ["Add more interactive elements to increase engagement"]
            else []) ++
           (if b3
            then ["Encourage VR mode usage for enhanced experience"]
            else []) ++
           (if b4
            then ["Add movement-encouraging elements to reduce motion sickness"]
            else []) ++ [] <-> b4 = true)).
  { clear. destruct b1, b2, b3, b4;
      (split; [| split; [| split]]); apply elem_of_iff_decide; reflexivity. }
  destruct Hin as (Hin1 & Hin2 & Hin3 & Hin4).
  rewrite Hin1, Hin2, Hin3, Hin4.
  split; [done |]. split; [done |]. split; [done |]. split; [done |].
  split.
  - intros Hempty. apply H1.
    unfold calculateAverageFPS. by rewrite Hempty.
  - intros Hfew Hb4.
    apply H4 in Hb4 as (m & Hm & _).
    unfold calculateMovementMetrics in Hm.
    apply Nat.ltb_lt in Hfew. by rewrite Hfew in Hm.
Qed.

End Recommendations.

(** ** Whether VR counts as used *)

Lemma engagement_score_without_vr (d : Q) (n : nat) (fps : Q) :
  (engagement_score_formula d n false fps <= 75)%Z.
Proof.
  unfold engagement_score_formula.
  rewrite <- (Math_round_Z 75). apply Math_round_le.
  pose proof (Q.le_min_r (d / 300) 1) as Hd.
  pose proof (Q.le_min_r (inject_Z (Z.of_nat n) / 50) 1) as Hn.
  set (a := Qmin (d / 300) 1) in *. set (b := Qmin (inject_Z (Z.of_nat n) / 50) 1) in *.
  clearbody a b. change (inject_Z 75) with 75%Q.
  destruct (Qltb 45 fps); [lra |]. destruct (Qltb 30 fps); lra.
Qed.

Lemma own_calls_log_no_vr_session_start (l : list Call) :
  Forall own_call l -> existsb logs_vr_session_start l = false.
Proof.
  induction 1 as [| c l Hc _ IH]; [done |].
  cbn [existsb]. rewrite IH, orb_false_r.
  destruct c as [| a | | |]; try done.
  unfold own_call in Hc. cbn [logs_vr_session_start]. unfold event_type_of.
  destruct (InteractionCall.data a !! "eventType") as [[] |]; try done.
  cbn [default from_option id strict_eq_str].
  destruct (String.eqb_spec s "vr_session_start"); [by subst | done].
Qed.

Section VRUse.
Context {host : Host} {sink : Sink}.

(** One [logEvent]: only the event log changes, and a ["vr_session_start"]
    event enters it only under that type. *)
Lemma logEvent_frame ty data w :
  returns (logEvent ty data) w (fun _ w' =>
    exists new,
      this w' = set_events (events (this w) ++ new) (this w)
      /\ emitted "vr_session_start" new
         = strict_eq_str (event_type_of ty data) "vr_session_start").
Proof.
  eapply returns_mono; [apply logEvent_spec |].
  intros ev w' (-> & nested & Happ & Hre).
  exists (new_event w ty data :: nested). split; [exact Happ |].
  cbn [emitted existsb]. fold (emitted "vr_session_start" nested).
  by rewrite (reactions_not_vr_session_start _ _ _ Hre), orb_false_r,
    new_event_has_type_of.
Qed.

(** One [setVRMode]: no ["vr_session_start"] event. *)
Lemma setVRMode_frame isVR w :
  returns (setVRMode isVR) w (fun _ w' =>
    exists new,
      events (this w') = events (this w) ++ new
      /\ emitted "vr_session_start" new = false
      /\ isVRMode (this w') = isVR
      /\ SessionData.vrCapable (sessionData (this w')) = true).
Proof.
  eapply returns_mono; [apply setVRMode_full |].
  intros [] w' [Hthis _]. eexists. rewrite Hthis. wsimpl.
  split; [reflexivity |]. split; [by destruct isVR | done].
Qed.

(** What the collector answers once no ["vr_session_start"] event is in
    its log although [setVRMode] was called. *)
Lemma vr_unused_answers (w : World) :
  emitted "vr_session_start" (events (this w)) = false ->
  SessionData.vrCapable (sessionData (this w)) = true ->
  returns getSessionSummary w (fun summary _ => Summary.vrModeUsed summary = false)
  /\ returns calculateEngagementScore w (fun score _ => (score <= 75)%Z)
  /\ returns getRecommendations w (fun recs _ =>
       "Encourage VR mode usage for enhanced experience" ∈ recs).
Proof.
  intros Hlog Hcap. split; [| split].
  - eapply returns_mono; [apply getSessionSummary_spec |].
    intros summary w' (_ & _ & _ & _ & _ & ->). exact Hlog.
  - unfold returns. rewrite calculateEngagementScore_formula, Hlog.
    eexists _, _. split; [reflexivity |]. apply engagement_score_without_vr.
  - unfold getRecommendations. step.
    eapply returns_mono; [apply getSessionSummary_spec |].
    intros summary w' (-> & _ & _ & _ & _ & ->). steps. wsimpl.
    rewrite Hlog, Hcap. cbn [negb andb].
    rewrite !elem_of_app. right. right. left. apply elem_of_cons. by left.
Qed.

(** The collector's own calls leave the log without a
    ["vr_session_start"] event, and [vrCapable] set. *)
Lemma own_calls_keep_vr_unused (l : list Call) : forall w : World,
  Forall own_call l ->
  emitted "vr_session_start" (events (this w)) = false ->
  SessionData.vrCapable (sessionData (this w)) = true ->
  returns (calls l) w (fun _ w' =>
    emitted "vr_session_start" (events (this w')) = false
    /\ SessionData.vrCapable (sessionData (this w')) = true).
Proof.
  intros w Hown Hlog Hcap.
  apply returns_conj.
  - eapply returns_mono; [apply calls_spec |].
    intros [] w' (new & -> & Hnew).
    by rewrite emitted_app, Hlog, Hnew, own_calls_log_no_vr_session_start.
  - clear Hlog Hown. revert w Hcap. induction l as [| c l IH]; intros w Hcap.
    + cbn [calls]. by steps.
    + cbn [calls]. step. eapply returns_mono; [apply call_frame |].
      intros [] w1 (_ & _ & _ & _ & _ & _ & Hcap1). apply IH.
      by rewrite Hcap1, Hcap, orb_true_r.
Qed.

(** X11.  A VR session run by the main application never counts as VR
    use.  Its [enterVR] calls [setVRMode(true)] and logs
    ["vr_entry_attempt"] and ["vr_session_started"], its [onVRSessionEnd]
    calls [setVRMode(false)] and logs ["vr_session_ended"]; none of these,
    nor any of the collector's own calls made in between, logs the
    ["vr_session_start"] event that the summary looks for.  So while the
    session runs and after it has ended, on a log that held no such event
    before, [vrModeUsed] is false, the engagement score stays at 75 or
    below, and the user is advised to try VR. *)
Theorem main_app_vr_session_is_not_counted
    (w : World) (message : Value) (l : list Call) :
  emitted "vr_session_start" (events (this w)) = false ->
  Forall own_call l ->
  let unused (w' : World) :=
    SessionData.vrCapable (sessionData (this w')) = true
    /\ returns getSessionSummary w' (fun summary _ =>
         Summary.vrModeUsed summary = false)
    /\ returns calculateEngagementScore w' (fun score _ => (score <= 75)%Z)
    /\ returns getRecommendations w' (fun recs _ =>
         "Encourage VR mode usage for enhanced experience" ∈ recs) in
  returns (MainApp.enterVR true message) w (fun _ w1 =>
    isVRMode (this w1) = true
    /\ unused w1
    /\ returns (calls l) w1 (fun _ w2 =>
         unused w2
         /\ returns MainApp.onVRSessionEnd w2 (fun _ w3 =>
              isVRMode (this w3) = false /\ unused w3))).
Proof.
  intros Hlog Hown unused.
  assert (Hunused : forall w' : World,
    emitted "vr_session_start" (events (this w')) = false ->
    SessionData.vrCapable (sessionData (this w')) = true -> unused w').
  { intros w' Hlog' Hcap'. split; [done |]. by apply vr_unused_answers. }
  unfold MainApp.enterVR. step.
  eapply returns_mono; [apply logEvent_frame |].
  intros ev0 w0 (new0 & Hthis0 & Hnew0). step.
  eapply returns_mono; [apply setVRMode_frame |].
  intros [] w0' (new1 & Hev1 & Hnew1 & Hmode1 & Hcap1). steps.
  eapply returns_mono; [apply logEvent_frame |].
  intros ev1 w1 (new2 & Hthis2 & Hnew2). steps.
  assert (Hlog1 : emitted "vr_session_start" (events (this w1)) = false).
  { rewrite Hthis2. wsimpl. rewrite Hev1, Hthis0. wsimpl.
    by rewrite !emitted_app, Hlog, Hnew0, Hnew1, Hnew2. }
  assert (Hcap2 : SessionData.vrCapable (sessionData (this w1)) = true).
  { rewrite Hthis2. by wsimpl. }
  split; [rewrite Hthis2; by wsimpl |].
  split; [by apply Hunused |].
  eapply returns_mono; [by apply own_calls_keep_vr_unused |].
  intros [] w2 [Hlog2 Hcap3].
  split; [by apply Hunused |].
  unfold MainApp.onVRSessionEnd. step.
  eapply returns_mono; [apply setVRMode_frame |].
  intros [] w2' (new3 & Hev3 & Hnew3 & Hmode3 & Hcap4). steps.
  eapply returns_mono; [apply logEvent_frame |].
  intros ev3 w3 (new4 & Hthis4 & Hnew4). steps.
  split; [rewrite Hthis4; by wsimpl |].
  apply Hunused.
  - rewrite Hthis4. wsimpl. rewrite Hev3.
    by rewrite !emitted_app, Hlog2, Hnew3, Hnew4.
  - rewrite Hthis4. by wsimpl.
Qed.

(** X12.  The application built on the scene manager does the opposite:
    its [enterVR] logs a ["vr_session_start"] event and never calls
    [setVRMode].  From then on, whatever is called, [vrModeUsed] is true
    and the user is no longer advised to try VR; but the collector is not
    in VR mode for that, its session data are untouched, and the event
    itself says [isVRMode] as it was before.  Its [timestamp] is the
    caller's [Date.now()], which replaces the collector's reading of
    [performance.now()].  When the session is refused nothing is logged. *)
Theorem scene_app_vr_session_counts_without_the_mode
    (w : World) (date_now : Q) (l : list Call) :
  returns (SceneApp.enterVR true date_now) w (fun _ w1 =>
    isVRMode (this w1) = isVRMode (this w)
    /\ sessionData (this w1) = sessionData (this w)
    /\ (exists started,
          events (this w1) = events (this w) ++ [started]
          /\ get started "eventType" = VStr "vr_session_start"
          /\ get started "isVRMode" = VBool (isVRMode (this w))
          /\ get started "timestamp" = qnum date_now)
    /\ returns (calls l) w1 (fun _ w2 =>
         returns getSessionSummary w2 (fun summary _ =>
           Summary.vrModeUsed summary = true)
         /\ returns getRecommendations w2 (fun recs _ =>
              "Encourage VR mode usage for enhanced experience" ∉ recs)))
  /\ returns (SceneApp.enterVR false date_now) w (fun _ w1 => w1 = w).
Proof.
  split; [| unfold SceneApp.enterVR; by steps].
  unfold SceneApp.enterVR. step.
  eapply returns_mono.
  - apply logEvent_depth_plain_clock;
      by rewrite new_event_has_type by (by simplify_map_eq).
  - intros ev w1 (-> & Happ & _). steps. unfold appended in Happ.
    rewrite Happ. wsimpl.
    split; [done |]. split; [done |]. split.
    { eexists. split; [reflexivity |]. by repeat split. }
    eapply returns_mono; [apply calls_spec |].
    intros [] w2 (new & Hev & _).
    assert (Hlog : emitted "vr_session_start" (events (this w2)) = true).
    { rewrite Hev, Happ. wsimpl. rewrite !emitted_app.
      apply orb_true_iff. left. apply orb_true_iff. right. reflexivity. }
    split.
    + eapply returns_mono; [apply getSessionSummary_spec |].
      intros summary w3 (_ & _ & _ & _ & _ & ->). exact Hlog.
    + unfold getRecommendations. step.
      eapply returns_mono; [apply getSessionSummary_spec |].
      intros summary w3 (-> & _ & _ & _ & _ & ->). steps. wsimpl.
      rewrite Hlog. cbn [negb andb app].
      destruct (Qltb _ _), (_ <? _), (calculateMovementMetrics _) as [m |];
        try destruct (String.eqb _ _); cbn [app];
        apply (proj1 (bool_decide_eq_false _)); reflexivity.
Qed.

End VRUse.

(** A VR session on a fresh collector, with one click made in VR. *)
Lemma main_app_vr_session_is_not_counted_witness :
  returns (MainApp.enterVR (host := desktop) (sink := counting_sink false) true VNull)
    fresh (fun _ w1 =>
      returns (calls (host := desktop) (sink := counting_sink false)
                 [CallLogInteraction a_click]) w1 (fun _ w2 =>
        returns (MainApp.onVRSessionEnd (host := desktop) (sink := counting_sink false))
          w2 (fun _ w3 =>
            returns (getSessionSummary (host := desktop)) w3 (fun summary _ =>
              Summary.vrModeUsed summary = false)))).
Proof.
  eapply returns_mono.
  - apply (main_app_vr_session_is_not_counted
             (host := desktop) (sink := counting_sink false) fresh VNull
             [CallLogInteraction a_click]).
    + reflexivity.
    + repeat constructor. discriminate.
  - intros [] w1 (_ & _ & Hcalls). eapply returns_mono; [exact Hcalls |].
    intros [] w2 (_ & Hend). eapply returns_mono; [exact Hend |].
    intros [] w3 (_ & _ & Hsummary & _). exact Hsummary.
Defined.

(** ** Export *)

Lemma most_recent_suffix {A} (n : nat) (l : list A) : most_recent n l `suffix_of` l.
Proof. apply suffix_drop. Qed.

Section ExportData.
Context {host : Host} {sink : Sink}.

(** X13.  [exportData] is a snapshot: it changes neither the collector nor
    the store, and only reads the clock, once for the summary and once,
    later, for the export timestamp.  The event log and the interaction
    record are exported in full; of each sample buffer the export holds
    the 1000 most recent samples, in order, so 1000 at most, and the whole
    buffer when it holds no more than that. *)
Theorem exportData_is_a_bounded_snapshot (w : World) :
  returns exportData w (fun data w' =>
    w' = set_clock (2 + clock w) w
    /\ Exported.events data = events (this w)
    /\ Exported.interactions data = userInteractions (this w)
    /\ Exported.deviceInfo data = SessionData.deviceInfo (sessionData (this w))
    /\ Exported.spatialData data = most_recent 1000 (spatialData (this w))
    /\ Exported.performanceMetrics data
       = most_recent 1000 (performanceMetrics (this w))
    /\ length (Exported.spatialData data) <= 1000
    /\ length (Exported.performanceMetrics data) <= 1000
    /\ Exported.spatialData data `suffix_of` spatialData (this w)
    /\ Exported.performanceMetrics data `suffix_of` performanceMetrics (this w)
    /\ (length (spatialData (this w)) <= 1000 ->
        Exported.spatialData data = spatialData (this w))
    /\ (length (performanceMetrics (this w)) <= 1000 ->
        Exported.performanceMetrics data = performanceMetrics (this w))
    /\ Summary.duration (Exported.sessionSummary data)
       = (performance_now (clock w) - startTime (this w))%Q
    /\ Exported.exportTimestamp data = performance_now (S (clock w))).
Proof.
  unfold exportData. step.
  eapply returns_mono; [apply getSessionSummary_spec |].
  intros summary w1 (-> & Hduration & _). steps. wsimpl.
  cbn [Exported.events Exported.interactions Exported.deviceInfo
       Exported.spatialData Exported.performanceMetrics
       Exported.sessionSummary Exported.exportTimestamp].
  change (-1000)%Z with (- Z.of_nat 1000)%Z.
  rewrite !Array_slice_last by lia.
  fold (most_recent 1000 (spatialData (this w))).
  fold (most_recent 1000 (performanceMetrics (this w))).
  repeat split; try done.
  - rewrite most_recent_length. lia.
  - rewrite most_recent_length. lia.
  - apply most_recent_suffix.
  - apply most_recent_suffix.
  - apply most_recent_all.
  - apply most_recent_all.
Qed.

End ExportData.

(** ** The built-in performance monitor *)

Section PerformanceMonitor.
Context {host : Host} {sink : Sink}.


End PerformanceMonitor.


(** ** The interaction metrics *)

Lemma Qzero_nonzero (t : Q) : ~ (t == 0)%Q -> Qzero t = false.
Proof.
  intros Ht. unfold Qzero. destruct (Qeq_bool t 0) eqn:Hz; [| done].
  by apply Qeq_bool_eq in Hz.
Qed.

Section InteractionMetricsLemmas.
Context {host : Host} {sink : Sink}.

(** The running mean from a state in which [k] interactions are counted:
    [q * k] is the time from the first interaction to the last. *)
Lemma interaction_metrics_fold (rest : list Obj) : forall (ts : list Q)
    (m : InteractionMetrics.t) (t1 tl q : Q),
  (fun i => get i "timestamp") <$> rest = qnum <$> ts ->
  Forall (fun t => ~ (t == 0)%Q) ts ->
  1 <= InteractionMetrics.totalInteractions m ->
  InteractionMetrics.lastInteractionTime m = qnum tl ->
  ~ (tl == 0)%Q ->
  InteractionMetrics.averageTimeBetweenInteractions m = Fin q ->
  (q * inject_Z (Z.of_nat (InteractionMetrics.totalInteractions m)) == tl - t1)%Q ->
  exists m' q',
    foldl (fun stored interaction =>
             Some (updateInteractionMetrics stored interaction)) (Some m) rest
    = Some m'
    /\ InteractionMetrics.totalInteractions m'
       = InteractionMetrics.totalInteractions m + length rest
    /\ InteractionMetrics.lastInteractionTime m' = qnum (default tl (last ts))
    /\ InteractionMetrics.averageTimeBetweenInteractions m' = Fin q'
    /\ (q' * inject_Z (Z.of_nat (InteractionMetrics.totalInteractions m'))
        == default tl (last ts) - t1)%Q.
Proof.
  induction rest as [| x rest IH]; intros ts m t1 tl q Hts Hnz Hk Hlast Htl Havg Hq.
  - destruct ts; [| done]. exists m, q. cbn [foldl length last default].
    rewrite Nat.add_0_r. done.
  - destruct ts as [| t ts]; [done |].
    injection Hts as Hx Hts. apply Forall_cons in Hnz as [Ht Hnz].
    cbn [foldl].
    set (m1 := updateInteractionMetrics (Some m) x).
    assert (Hm1 : InteractionMetrics.totalInteractions m1
                  = S (InteractionMetrics.totalInteractions m)) by done.
    assert (Hl1 : InteractionMetrics.lastInteractionTime m1 = qnum t) by done.
    assert (Hdiv : Qzero (inject_Z (Z.of_nat
                     (S (InteractionMetrics.totalInteractions m)))) = false).
    { apply Qzero_nonzero. unfold Qeq. simpl. lia. }
    assert (Ha1 : InteractionMetrics.averageTimeBetweenInteractions m1
                  = Fin ((q * inject_Z (Z.of_nat
                               (S (InteractionMetrics.totalInteractions m)) - 1)
                          + (t + - tl))
                         / inject_Z (Z.of_nat
                             (S (InteractionMetrics.totalInteractions m))))).
    { unfold m1, updateInteractionMetrics. cbn [default from_option id].
      cbn [InteractionMetrics.averageTimeBetweenInteractions].
      rewrite Hlast, Hx, Havg. unfold qnum. cbn [truthy].
      rewrite (Qzero_nonzero _ Htl).
      cbn [negb ToNumber Num_mul]. unfold Num_sub.
      cbn [Num_opp Num_add Num_div]. by rewrite Hdiv. }
    destruct (IH ts m1 t1 t _ Hts Hnz ltac:(lia) Hl1 Ht Ha1) as (m' & q' & H1 & H2 & H3 & H4 & H5).
    { rewrite Hm1.
      set (k := InteractionMetrics.totalInteractions m) in *.
      assert (Hk1 : (inject_Z (Z.of_nat (S k) - 1) == inject_Z (Z.of_nat k))%Q).
      { unfold Qeq. simpl. lia. }
      assert (Hk0 : ~ (inject_Z (Z.of_nat (S k)) == 0)%Q).
      { unfold Qeq. simpl. lia. }
      rewrite Hk1. field_simplify; [| exact Hk0]. rewrite Hq. field. }
    exists m', q'. split; [exact H1 |].
    split; [rewrite H2, Hm1; simpl; lia |].
    assert (Hlast' : default tl (last (t :: ts)) = default t (last ts)).
    { destruct ts as [| t' ts]; [reflexivity |].
      change (last (t :: t' :: ts)) with (last (t' :: ts)).
      destruct (last (t' :: ts)) eqn:Hsome; [reflexivity |].
      by apply last_None in Hsome. }
    rewrite Hlast'. done.
Qed.

(** X15.  The interaction metrics that [updateInteractionMetrics] keeps,
    after the interactions of a session whose timestamps are non-zero
    numbers: [totalInteractions] counts them, [lastInteractionTime] is the
    timestamp of the last one, and [averageTimeBetweenInteractions] is the
    time from the first interaction to the last divided by the number of
    interactions, and not by the number of intervals between them: for two
    interactions 100 ms apart it is 50. *)
Theorem interaction_metrics_average_over_the_count
    (interactions : list Obj) (ts : list Q) :
  (fun i => get i "timestamp") <$> interactions = qnum <$> ts ->
  Forall (fun t => ~ (t == 0)%Q) ts ->
  interactions <> [] ->
  exists (m : InteractionMetrics.t) (avg : Q),
    interaction_metrics_of interactions = Some m
    /\ InteractionMetrics.totalInteractions m = length interactions
    /\ InteractionMetrics.lastInteractionTime m = qnum (default 0%Q (last ts))
    /\ InteractionMetrics.averageTimeBetweenInteractions m = Fin avg
    /\ (avg == (default 0 (last ts) - default 0 (head ts))
              / inject_Z (Z.of_nat (length interactions)))%Q.
Proof.
  intros Hts Hnz Hne. unfold interaction_metrics_of.
  destruct interactions as [| x rest]; [done |].
  destruct ts as [| t ts]; [done |].
  injection Hts as Hx Hts. apply Forall_cons in Hnz as [Ht Hnz].
  cbn [foldl].
  set (m1 := updateInteractionMetrics None x).
  destruct (interaction_metrics_fold rest ts m1 t t 0%Q Hts Hnz)
    as (m & avg & Hfold & Htotal & Hlast & Havg & Hmean).
  { unfold m1. simpl. lia. }
  { done. }
  { exact Ht. }
  { done. }
  { unfold m1. cbn [updateInteractionMetrics InteractionMetrics.totalInteractions
      default from_option id InteractionMetrics.initial]. ring. }
  assert (Hlast' : default 0%Q (last (t :: ts)) = default t (last ts)).
  { destruct ts as [| t' ts]; [reflexivity |].
    change (last (t :: t' :: ts)) with (last (t' :: ts)).
    destruct (last (t' :: ts)) eqn:Hsome; [reflexivity |].
    by apply last_None in Hsome. }
  exists m, avg. rewrite Hlast'. cbn [head default from_option id].
  split; [exact Hfold |]. split; [rewrite Htotal; reflexivity |].
  split; [exact Hlast |]. split; [exact Havg |].
  assert (Hn : ~ (inject_Z (Z.of_nat (length (x :: rest))) == 0)%Q).
  { unfold Qeq. simpl. lia. }
  rewrite Htotal in Hmean. change (InteractionMetrics.totalInteractions m1) with 1 in Hmean.
  change (1 + length rest) with (length (x :: rest)) in Hmean.
  rewrite <- Hmean. field. exact Hn.
Qed.

End InteractionMetricsLemmas.

(** Two interactions 100 ms apart: the stored average is 50. *)
Lemma interaction_metrics_average_over_the_count_witness :
  exists (m : InteractionMetrics.t) (avg : Q),
    interaction_metrics_of (host := desktop)
      [ {[ "timestamp" := qnum 100 ]}; {[ "timestamp" := qnum 200 ]} ] = Some m
    /\ InteractionMetrics.averageTimeBetweenInteractions m = Fin avg
    /\ (avg == 50)%Q.
Proof.
  destruct (interaction_metrics_average_over_the_count (host := desktop)
              [ {[ "timestamp" := qnum 100 ]}; {[ "timestamp" := qnum 200 ]} ]
              [100; 200]%Q)
    as (m & avg & Hm & _ & _ & Havg & Hmean).
  - reflexivity.
  - repeat constructor; discriminate.
  - discriminate.
  - exists m, avg. split; [exact Hm |]. split; [exact Havg |].
    rewrite Hmean. reflexivity.
Defined.

(** ** A steady frame rate *)

Lemma mean_steady (v : Q) (l : list Q) :
  l <> [] -> Forall (fun x => (x == v)%Q) l -> (mean l == v)%Q.
Proof.
  intros Hne Hall.
  assert (Hb : (v <= mean l <= v)%Q).
  { apply mean_bounds; [done |].
    eapply Forall_impl; [exact Hall |]. intros x Hx. cbv beta in *. lra. }
  lra.
Qed.

Lemma trend_of_steady_fps (v : Q) (l : list Q) :
  120 <= length l ->
  Forall (fun x => (x == v)%Q) (most_recent 120 l) ->
  trend_of_fps l = "stable".
Proof.
  intros Hlen Hall. unfold trend_of_fps.
  destruct (Nat.ltb_spec (length l) 120); [lia |].
  assert (Hrecent : (mean (most_recent 60 l) == v)%Q).
  { apply mean_steady.
    - intros Hnil. apply (f_equal length) in Hnil.
      rewrite most_recent_length in Hnil. cbn [length] in Hnil. lia.
    - unfold most_recent in *.
      replace (length l - 60) with ((length l - 120) + 60) by lia.
      rewrite <- drop_drop. by apply Forall_drop. }
  assert (Holder : (mean (take 60 (most_recent 120 l)) == v)%Q).
  { apply mean_steady.
    - intros Hnil. apply (f_equal length) in Hnil.
      rewrite length_take, most_recent_length in Hnil. cbn [length] in Hnil. lia.
    - by apply Forall_take. }
  set (r := mean (most_recent 60 l)) in *.
  set (o := mean (take 60 (most_recent 120 l))) in *.
  clearbody r o. cbn [Num_div].
  destruct (Qzero o) eqn:Hzero.
  - assert (Hdiff : Qzero (r - o) = true).
    { unfold Qzero. apply Qeq_bool_iff. lra. }
    by rewrite Hdiff.
  - cbn [Num_mul Num_gtb Num_ltb].
    assert (Hchange : ((r - o) / o * 100 == 0)%Q).
    { assert (Ho : ~ (o == 0)%Q).
      { intros Ho. unfold Qzero in Hzero. apply Qeq_bool_iff in Ho. congruence. }
      assert (Hd : (r - o == 0)%Q) by lra.
      rewrite Hd. field. exact Ho. }
    rewrite (Qltb_comp 5 5 _ 0) by (reflexivity || exact Hchange).
    rewrite (Qltb_comp _ 0 (-5) (-5)) by (reflexivity || exact Hchange).
    reflexivity.
Qed.

Lemma steady_frame_rate_is_stable_lemma (c : AnalyticsCollector) (v : Q) :
  120 <= length (performanceMetrics c) ->
  Forall (fun p => (PerformanceData.fps p == v)%Q)
    (most_recent 120 (performanceMetrics c)) ->
  getPerformanceTrend c = "stable".
Proof.
  intros Hlen Hall. rewrite getPerformanceTrend_fps.
  apply (trend_of_steady_fps v).
  - unfold fps_of. by rewrite length_fmap.
  - unfold fps_of, most_recent in *. rewrite length_fmap, <- fmap_drop.
    by apply Forall_fmap.
Qed.

(** X16.  A steady frame rate is a stable one, at any level: when the last
    120 samples all have the same fps, [getPerformanceTrend] answers
    ["stable"], also at 0 fps, where the relative change is 0/0. *)
Theorem steady_frame_rate_is_stable (c : AnalyticsCollector) (v : Q) :
  120 <= length (performanceMetrics c) ->
  Forall (fun p => (PerformanceData.fps p == v)%Q)
    (most_recent 120 (performanceMetrics c)) ->
  getPerformanceTrend c = "stable".
Proof. apply steady_frame_rate_is_stable_lemma. Qed.

(** Two seconds of frames at 0 fps. *)
Lemma steady_frame_rate_is_stable_witness :
  getPerformanceTrend
    (set_performanceMetrics (replicate 120 (frame 0)) (this fresh)) = "stable".
Proof.
  apply (steady_frame_rate_is_stable _ 0).
  - vm_compute. lia.
  - vm_compute. repeat constructor.
Defined.

Section RenderLoop.
Context {host : Host} {sink : Sink}.

(** The frame rates stored by a run of [logPerformance] calls are the
    rounded frame rates of the calls. *)
Lemma logPerformance_each_fps (calls : list PerformanceCall.t) : forall w : World,
  returns (logPerformance_each calls) w (fun inserted _ =>
    PerformanceData.fps <$> inserted
    = (fun a => round_to 10 (PerformanceCall.fps a)) <$> calls).
Proof.
  induction calls as [| a calls IH]; intros w.
  - cbn [logPerformance_each]. by steps.
  - cbn [logPerformance_each]. step. apply returns_world. step.
    eapply returns_mono; [apply logPerformance_spec |].
    intros [] w1 _. step. eapply returns_mono; [apply IH |].
    intros inserted w2 Hfps. steps. cbn [fmap list_fmap] in *.
    by rewrite Hfps.
Qed.

(** X17.  The frame rate that the render loop of the main application
    reports is the constant 60: it passes 60 to [logPerformance] with the
    render time it measured.  On a buffer filled by the render loop alone
    every sample says 60 fps whatever the render times were, so the
    average frame rate is 60 and the trend is never ["improving"] nor
    ["degrading"]. *)
Theorem render_loop_always_reports_60_fps (w : World) (renderTimes : list Q) :
  performanceMetrics (this w) = [] ->
  renderTimes <> [] ->
  returns
    (logPerformance_each (MainApp.animate_logPerformance <$> renderTimes)) w
    (fun _ w' =>
       Forall (fun p => (PerformanceData.fps p == 60)%Q) (performanceMetrics (this w'))
       /\ (calculateAverageFPS (this w') == 60)%Q
       /\ (getPerformanceTrend (this w') = "stable"
           \/ getPerformanceTrend (this w') = "insufficient_data")).
Proof.
  intros Hempty Hne.
  eapply returns_mono.
  - apply returns_conj.
    + apply (logPerformance_each_spec _ w []). by rewrite Hempty.
    + apply logPerformance_each_fps.
  - intros inserted w' [[Hlen Hpm] Hfps]. cbn [app] in Hpm.
    assert (Hall : Forall (fun p => (PerformanceData.fps p == 60)%Q) inserted).
    { assert (Hsixty : Forall (fun x => (x == 60)%Q)
                         (PerformanceData.fps <$> inserted)).
      { rewrite Hfps, <- list_fmap_compose.
        apply Forall_fmap, Forall_forall. intros rt _. reflexivity. }
      by apply Forall_fmap in Hsixty. }
    assert (Hbuf : Forall (fun p => (PerformanceData.fps p == 60)%Q)
                     (performanceMetrics (this w'))).
    { rewrite Hpm. by apply Forall_drop. }
    assert (Hsome : performanceMetrics (this w') <> []).
    { rewrite Hpm. intros Hnil. apply most_recent_nil in Hnil; [| lia].
      subst inserted. rewrite length_fmap in Hlen.
      destruct renderTimes; [done | discriminate]. }
    split; [exact Hbuf |]. split.
    + rewrite calculateAverageFPS_mean by done.
      assert (Hmean : (mean (PerformanceData.fps
                               <$> most_recent 300 (performanceMetrics (this w')))
                       == 60)%Q).
      { apply mean_steady.
        - intros Hnil. apply fmap_nil_inv in Hnil.
          by apply most_recent_nil in Hnil; [| lia].
        - apply Forall_fmap. by apply Forall_drop. }
      rewrite (round_to_comp 10 _ 60 Hmean). reflexivity.
    + destruct (Nat.lt_ge_cases (length (performanceMetrics (this w'))) 120)
        as [Hfew | Hmany].
      * right. unfold getPerformanceTrend.
        apply Nat.ltb_lt in Hfew. by rewrite Hfew.
      * left. apply (steady_frame_rate_is_stable_lemma _ 60 Hmany).
        by apply Forall_drop.
Qed.

End RenderLoop.

(** Three frames that took 5, 50 and 500 ms to render. *)
Lemma render_loop_always_reports_60_fps_witness :
  returns
    (logPerformance_each (host := desktop) (sink := counting_sink false)
       (MainApp.animate_logPerformance <$> [5; 50; 500]%Q))
    fresh
    (fun _ w' => (calculateAverageFPS (this w') == 60)%Q).
Proof.
  eapply returns_mono.
  - apply (render_loop_always_reports_60_fps
             (host := desktop) (sink := counting_sink false) fresh [5; 50; 500]%Q);
      [reflexivity | discriminate].
  - intros _ w' (_ & Havg & _). exact Havg.
Defined.

(** ** Movement *)

Lemma Qsqrt_nonneg (q : Q) : (0 <= Qsqrt q)%Q.
Proof.
  unfold Qsqrt. apply Qle_shift_div_l.
  - unfold Qlt. simpl. lia.
  - rewrite Qmult_0_l. change 0%Q with (inject_Z 0). rewrite <- Zle_Qle.
    apply Z.sqrt_nonneg.
Qed.

Section MovementBounds.
Context {host : Host}.
Hypothesis Math_sqrt_nonneg : forall q : Q, (0 <= Math_sqrt q)%Q.

Lemma step_distance_nonneg s : (0 <= step_distance s)%Q.
Proof. apply Math_sqrt_nonneg. Qed.

(** The floor of 1 ms on the duration of a step caps its velocity at 1000
    times its distance. *)
Lemma step_velocity_bounds s :
  (0 <= step_velocity s <= 1000 * step_distance s)%Q.
Proof.
  unfold step_velocity. pose proof (step_distance_nonneg s) as Hd.
  set (d := step_distance s) in *.
  pose proof (Q.le_max_r ((SpatialEvent.timestamp s.2 - SpatialEvent.timestamp s.1)
                          / 1000) (1 # 1000)) as Hm.
  set (m := Qmax _ _) in *. clearbody d m.
  assert (Hpos : (0 < m)%Q) by lra.
  split.
  - apply Qle_shift_div_l; [exact Hpos | lra].
  - apply Qle_shift_div_r; [exact Hpos |]. nra.
Qed.

Lemma movement_fold_bounds (pairs : list (SpatialEvent.t * SpatialEvent.t)) :
  forall total peak : Q,
    (0 <= total)%Q -> (0 <= peak <= 1000 * total)%Q ->
    (total <= foldl Qplus total (step_distance <$> pairs))%Q
    /\ (0 <= foldl Qmax peak (step_velocity <$> pairs)
        <= 1000 * foldl Qplus total (step_distance <$> pairs))%Q.
Proof.
  induction pairs as [| s pairs IH]; intros total peak Htotal Hpeak.
  - cbn [fmap list_fmap foldl]. lra.
  - cbn [fmap list_fmap foldl].
    pose proof (step_distance_nonneg s) as Hd.
    pose proof (step_velocity_bounds s) as Hv.
    destruct (IH (total + step_distance s)%Q (Qmax peak (step_velocity s)))
      as [H1 H2].
    + lra.
    + split.
      * eapply Qle_trans; [| apply Q.le_max_l]. lra.
      * apply Q.max_lub; lra.
    + split; [lra | exact H2].
Qed.

Lemma movement_bounds (recent : list SpatialEvent.t) :
  (0 <= total_distance recent)%Q
  /\ (0 <= peak_velocity recent <= 1000 * total_distance recent)%Q.
Proof.
  unfold total_distance, peak_velocity.
  destruct (movement_fold_bounds (consecutive recent) 0 0) as [H1 H2]; lra.
Qed.

End MovementBounds.

(** X18.  What [calculateMovementMetrics] reports is bounded by the
    distance covered.  A step is never taken to last less than 1 ms, so its
    velocity is at most 1000 times its length, and the peak velocity over
    the window is at most 1000 times the summed distance; nothing reported
    is negative.  Samples that stay within a tenth of a millimetre in all
    are therefore always classed ["stationary"], however close in time, or
    out of order, their timestamps are.  (The square root is taken to be
    non-negative.) *)
Theorem movement_is_bounded_by_the_distance {host : Host}
    (c : AnalyticsCollector) (m : MovementMetrics.t) :
  (forall q : Q, (0 <= Math_sqrt q)%Q) ->
  calculateMovementMetrics c = Some m ->
  let recent := most_recent 30 (spatialData c) in
  (0 <= total_distance recent)%Q
  /\ (0 <= peak_velocity recent <= 1000 * total_distance recent)%Q
  /\ (0 <= MovementMetrics.totalDistance m)%Q
  /\ (0 <= MovementMetrics.averageVelocity m)%Q
  /\ (0 <= MovementMetrics.maxVelocity m)%Q
  /\ ((total_distance recent < 1 # 10000)%Q ->
      MovementMetrics.movementIntensity m = "stationary").
Proof.
  intros Hsqrt Hm recent.
  destruct (movement_bounds Hsqrt recent) as [Htotal [Hpeak0 Hpeak]].
  assert (Hlen : 2 <= length (spatialData c)).
  { unfold calculateMovementMetrics in Hm.
    destruct (Nat.ltb_spec (length (spatialData c)) 2); [done | lia]. }
  rewrite (calculateMovementMetrics_some c Hlen) in Hm. injection Hm as <-.
  fold recent. cbn [MovementMetrics.totalDistance MovementMetrics.averageVelocity
    MovementMetrics.maxVelocity MovementMetrics.movementIntensity].
  split; [exact Htotal |]. split; [done |].
  split; [by apply (round_to_nonneg 1000) |].
  split.
  { apply (round_to_nonneg 1000). apply Qle_shift_div_l; [| lra].
    change 0%Q with (inject_Z 0). rewrite <- Zlt_Qlt.
    unfold recent. rewrite most_recent_length. lia. }
  split; [by apply (round_to_nonneg 1000) |].
  intros Hstill. apply classifyMovementIntensity_thresholds. lra.
Qed.

(** The two samples one metre apart, on the desktop host. *)
Lemma movement_is_bounded_by_the_distance_witness :
  exists m,
    calculateMovementMetrics (host := desktop) two_samples = Some m
    /\ (0 <= MovementMetrics.maxVelocity m)%Q.
Proof.
  eexists. split; [reflexivity |].
  apply (movement_is_bounded_by_the_distance (host := desktop) two_samples).
  - exact Qsqrt_nonneg.
  - reflexivity.
Defined.

(** ** The engagement score over a session *)

Lemma engagement_score_formula_le (d d' : Q) (n n' : nat) (vr vr' : bool)
    (fps fps' : Q) :
  (d <= d')%Q -> n <= n' -> (vr = true -> vr' = true) -> (fps <= fps')%Q ->
  (engagement_score_formula d n vr fps <= engagement_score_formula d' n' vr' fps')%Z.
Proof.
  intros Hd Hn Hvr Hfps. unfold engagement_score_formula. apply Math_round_le.
  assert (H1 : (Qmin (d / 300) 1 <= Qmin (d' / 300) 1)%Q).
  { apply Q.min_le_compat_r. qconst. lra. }
  assert (H2 : (Qmin (inject_Z (Z.of_nat n) / 50) 1
                <= Qmin (inject_Z (Z.of_nat n') / 50) 1)%Q).
  { apply Q.min_le_compat_r.
    assert (inject_Z (Z.of_nat n) <= inject_Z (Z.of_nat n'))%Q
      by (rewrite <- Zle_Qle; lia).
    qconst. lra. }
  assert (H3 : ((if vr then 25 else 0) <= (if vr' then 25 else 0))%Q).
  { destruct vr; [rewrite Hvr by done; lra |]. destruct vr'; lra. }
  assert (H4 : ((if Qltb 45 fps then 15 else if Qltb 30 fps then 10 else 5)
                <= (if Qltb 45 fps' then 15 else if Qltb 30 fps' then 10 else 5))%Q).
  { destruct (Qltb 45 fps) eqn:E1, (Qltb 30 fps) eqn:E2,
      (Qltb 45 fps') eqn:E3, (Qltb 30 fps') eqn:E4;
      try lra;
      repeat match goal with
      | H : Qltb _ _ = true |- _ => apply Qltb_true in H
      | H : Qltb _ _ = false |- _ => apply Qltb_false in H
      end; lra. }
  set (a := Qmin (d / 300) 1) in *. set (a' := Qmin (d' / 300) 1) in *.
  set (b := Qmin (inject_Z (Z.of_nat n) / 50) 1) in *.
  set (b' := Qmin (inject_Z (Z.of_nat n') / 50) 1) in *.
  clearbody a a' b b'. lra.
Qed.

Section EngagementOrder.
Context {host : Host} {sink : Sink}.

(** X19.  The engagement score never falls while the session goes on and
    the frame rate holds: between two states of the collector such that
    the later one has at least the elapsed time, at least the interactions
    and at least the average frame rate of the earlier one, and a
    ["vr_session_start"] event in its log if the earlier one has, the score
    of the later state is at least the score of the earlier.  Only a lower
    average frame rate can lower it. *)
Theorem engagement_score_never_falls (w w' : World) :
  (durationSeconds w <= durationSeconds w')%Q ->
  length (userInteractions (this w)) <= length (userInteractions (this w')) ->
  (emitted "vr_session_start" (events (this w)) = true ->
   emitted "vr_session_start" (events (this w')) = true) ->
  (calculateAverageFPS (this w) <= calculateAverageFPS (this w'))%Q ->
  returns calculateEngagementScore w (fun score _ =>
    returns calculateEngagementScore w' (fun score' _ =>
      (score <= score')%Z)).
Proof.
  intros Hd Hn Hvr Hfps. unfold returns.
  rewrite !calculateEngagementScore_formula.
  eexists _, _. split; [reflexivity |].
  eexists _, _. split; [reflexivity |].
  by apply engagement_score_formula_le.
Qed.

End EngagementOrder.

(** From the fresh collector to the busy session. *)
Lemma engagement_score_never_falls_witness :
  returns (calculateEngagementScore (host := desktop)) fresh (fun score _ =>
    returns (calculateEngagementScore (host := desktop)) busy (fun score' _ =>
      (score <= score')%Z)).
Proof.
  apply (engagement_score_never_falls (host := desktop) fresh busy).
  - vm_compute. discriminate.
  - vm_compute. lia.
  - vm_compute. discriminate.
  - vm_compute. discriminate.
Defined.

(** ** The fields of an interaction *)

Section InteractionFields.
Context {host : Host} {sink : Sink}.

(** X20.  In the record that [logInteraction] builds, and in the event it
    logs for it, the caller's extra fields always win.  Every field of
    [data] is in the interaction with its value, also [type], [target],
    [timestamp] or [vrMode], and also a [duration] or [force] that is
    falsy: the defaults [data.duration || null] and [data.force || null]
    only show when [data] has no such field.  The interaction in turn
    passes all its fields to the event, so that the event's [timestamp] is
    the interaction's, taken before the two readings of the clock that
    [logEvent] makes, while its [relativeTime] comes from the last of
    them. *)
Theorem the_extra_fields_always_win (a : InteractionCall.t) (w : World) :
  returns (logInteraction_call a) w (fun interaction w' =>
    let data := InteractionCall.data a in
    (forall k v, data !! k = Some v -> get interaction k = v)
    /\ (data !! "type" = None ->
        get interaction "type" = InteractionCall.interactionType a)
    /\ (data !! "target" = None ->
        get interaction "target" = InteractionCall.target a)
    /\ (data !! "position" = None ->
        get interaction "position" = InteractionCall.position a)
    /\ (data !! "duration" = None -> get interaction "duration" = VNull)
    /\ (data !! "force" = None -> get interaction "force" = VNull)
    /\ (data !! "timestamp" = None ->
        get interaction "timestamp" = qnum (performance_now (clock w)))
    /\ (data !! "vrMode" = None ->
        get interaction "vrMode" = VBool (isVRMode (this w)))
    /\ exists event,
         events (this w') !! length (events (this w)) = Some event
         /\ (forall k v, interaction !! k = Some v -> get event k = v)
         /\ get event "timestamp" = get interaction "timestamp"
         /\ (data !! "eventType" = None ->
             get event "eventType" = VStr "user_interaction")
         /\ (data !! "relativeTime" = None ->
             get event "relativeTime"
             = qnum (performance_now (2 + clock w) - startTime (this w)))).
Proof.
  eapply returns_mono; [apply logInteraction_spec |].
  intros interaction w' (-> & nested & Hthis & _). cbv zeta.
  assert (Hmissing : forall k, InteractionCall.data a !! k = None ->
    get (new_interaction w a) k
    = get ({[ "type" := InteractionCall.interactionType a;
              "target" := InteractionCall.target a;
              "position" := InteractionCall.position a;
              "duration" := or_null (get (InteractionCall.data a) "duration");
              "force" := or_null (get (InteractionCall.data a) "force");
              "timestamp" := qnum (performance_now (clock w));
              "vrMode" := VBool (isVRMode (this w)) ]} : Obj) k).
  { intros k Hk. unfold get, new_interaction. by rewrite lookup_union_r. }
  split.
  { intros k v Hk. unfold get, new_interaction. by erewrite lookup_union_Some_l. }
  split; [intros Hk; by rewrite Hmissing |].
  split; [intros Hk; by rewrite Hmissing |].
  split; [intros Hk; by rewrite Hmissing |].
  split; [intros Hk; rewrite Hmissing by done; unfold get; by rewrite Hk |].
  split; [intros Hk; rewrite Hmissing by done; unfold get; by rewrite Hk |].
  split; [intros Hk; by rewrite Hmissing |].
  split; [intros Hk; by rewrite Hmissing |].
  exists (interaction_event w a).
  assert (Hpass : forall k v, new_interaction w a !! k = Some v ->
            get (interaction_event w a) k = v).
  { intros k v Hk. unfold get, interaction_event, new_event.
    by erewrite lookup_union_Some_l. }
  split.
  { rewrite Hthis. wsimpl.
    rewrite lookup_app_r by lia. by rewrite Nat.sub_diag. }
  split; [exact Hpass |].
  split.
  { destruct (new_interaction w a !! "timestamp") as [v |] eqn:Hts.
    - rewrite (Hpass _ _ Hts). unfold get. by rewrite Hts.
    - exfalso. unfold new_interaction in Hts.
      apply lookup_union_None in Hts as [_ Hts]. by simplify_map_eq. }
  split.
  { intros Hk. apply interaction_event_type. exact Hk. }
  intros Hk. unfold get, interaction_event, new_event.
  rewrite lookup_union_r.
  - by simplify_map_eq.
  - unfold new_interaction. rewrite lookup_union_r by done. by simplify_map_eq.
Qed.

End InteractionFields.
